(** * Tenant-scoped HTTP request pipeline of the Databricks MCP server

    A shallow embedding of [types/env.ts] (credential resolution and
    validation), of the request helper of [client.ts]
    ([DatabricksClientImpl]: constructor, [getAuthHeaders], [request], the
    five method wrappers and the list facades) and of the [/mcp] branch of
    the worker's [fetch] handler in [index.ts].

    JavaScript values are an inductive type, thrown exceptions are values of
    [Exn], and the one suspension point of the pipeline (the [await fetch])
    is the [Fetch] node of a small free monad [Prog]; a program is run
    against a transport, which may keep state of its own, by [exec].  The
    client object with its two fields is also given as a store that the
    methods are passed and return ([Stateful]). *)

From Stdlib Require Import String Ascii List ZArith Lia Bool DecimalString DecimalPos.
Import ListNotations.
Local Open Scope Z_scope.
Local Open Scope list_scope.
Local Open Scope string_scope.

Set Warnings "-register-all".

(* ===================================================================== *)
(** ** JavaScript values *)
(* ===================================================================== *)

(** A JavaScript number is [NaN], an infinity or a decimal [m * 10^e].
    Integers are [Num n 0].  The code only tests numbers for being zero or
    [NaN] and passes them on; where it makes a number from text itself,
    with [Number.parseInt], the result is rounded to the nearest double
    ([to_double] below).  A number written in a JSON text is kept as the
    decimal written there, and the sign of a zero is not kept. *)
Inductive JsNum : Type :=
| NaN
| Infinity (negative : bool)
| Num (m e : Z).

Definition int (n : Z) : JsNum := Num n 0.

Inductive JsVal : Type :=
| JUndefined
| JNull
| JBool (b : bool)
| JNumber (n : JsNum)
| JString (s : string)
| JArray (items : list JsVal)
| JObject (fields : list (string * JsVal)).

Definition string_nonempty (s : string) : bool :=
  match s with
  | EmptyString => false
  | String _ _ => true
  end.

(** ToBoolean: [undefined], [null], [false], [0], [NaN] and [''] are falsy,
    every array and object is truthy. *)
Definition truthy (v : JsVal) : bool :=
  match v with
  | JUndefined | JNull => false
  | JBool b => b
  | JNumber NaN => false
  | JNumber (Infinity _) => true
  | JNumber (Num m _) => negb (m =? 0)%Z
  | JString s => string_nonempty s
  | JArray _ | JObject _ => true
  end.

(** Modelled from the spec: the error classes [AuthenticationError],
    [RateLimitError] and [DatabricksApiError] of [utils/errors.ts], a file
    the client imports and that is not among the sources.  Each constructor
    takes the arguments the client passes to it, in that order, and keeps
    them in the fields the specification names ([retryAfterSeconds];
    [httpStatus], [code], [message]).  The other constructors are the
    built-in exceptions the code can raise: [new Error(message)], the
    [SyntaxError] of [JSON.parse] and the [TypeError] of reading a property
    of [null] or [undefined]. *)
Inductive Exn : Type :=
| Error (message : string)
| AuthenticationError (message : string)
| RateLimitError (message : string) (retryAfterSeconds : JsNum)
| DatabricksApiError (message : JsVal) (httpStatus : Z) (code : JsVal)
| SyntaxError (message : string)
| TypeError (message : string).

Fixpoint assoc {A : Type} (k : string) (l : list (string * A)) : option A :=
  match l with
  | [] => None
  | (k', v) :: rest => if String.eqb k k' then Some v else assoc k rest
  end.

(** The message of the engine (V8) for a property read on [null] or
    [undefined]. *)
Definition cannot_read (what key : string) : string :=
  "Cannot read properties of " ++ what ++ " (reading '" ++ key ++ "')".

(** The own property [k] of an object with the given fields, [undefined]
    when there is none. *)
Definition own (fields : list (string * JsVal)) (k : string) : JsVal :=
  match assoc k fields with
  | Some x => x
  | None => JUndefined
  end.

(** [v.k] for a key [k] that no built-in prototype defines (all keys the
    client reads are of that kind): own properties of objects, [undefined]
    on every other value, and a [TypeError] on [null] and [undefined]. *)
Definition prop (v : JsVal) (k : string) : Exn + JsVal :=
  match v with
  | JUndefined => inl (TypeError (cannot_read "undefined" k))
  | JNull => inl (TypeError (cannot_read "null" k))
  | JObject fields => inr (own fields k)
  | _ => inr JUndefined
  end.

(** The built-ins of the JavaScript runtime that the client calls and that
    are not written in this repository.  [JSON_parse] either throws a
    [SyntaxError] with the given message or returns a value; [JSON_stringify]
    returns [undefined] ([None]) where the value has no JSON text.  Every
    statement below holds for any runtime. *)
Class JsRuntime : Type := {
  JSON_parse : string -> string + JsVal;
  JSON_stringify : JsVal -> option string;
  encodeURIComponent : string -> string;
}.

(* ===================================================================== *)
(** ** Strings *)
(* ===================================================================== *)

Definition string_of_Z (n : Z) : string :=
  NilZero.string_of_int (Z.to_int n).

(** [s.replace(/\/$/, '')]: the pattern has no [g] and no [m] flag, so it
    matches at most once, a slash that is the last character of [s]. *)
Fixpoint replace_trailing_slash (s : string) : string :=
  match s with
  | EmptyString => EmptyString
  | String c rest =>
      match rest with
      | EmptyString => if Ascii.eqb c "/" then EmptyString else s
      | String _ _ => String c (replace_trailing_slash rest)
      end
  end.

(** [s.endsWith(suffix)] *)
Fixpoint ends_with (suffix s : string) : bool :=
  String.eqb suffix s ||
  match s with
  | EmptyString => false
  | String _ s' => ends_with suffix s'
  end.

Fixpoint is_prefix (p s : string) : bool :=
  match p, s with
  | EmptyString, _ => true
  | String a p', String b s' => Ascii.eqb a b && is_prefix p' s'
  | String _ _, EmptyString => false
  end.

(** [s.includes(p)] *)
Fixpoint includes (p s : string) : bool :=
  is_prefix p s ||
  match s with
  | EmptyString => false
  | String _ s' => includes p s'
  end.

(** *** [Number.parseInt(s, 10)] *)

Fixpoint strip_prefix (p s : string) : option string :=
  match p, s with
  | EmptyString, _ => Some s
  | String a p', String b s' => if Ascii.eqb a b then strip_prefix p' s' else None
  | String _ _, EmptyString => None
  end.

Fixpoint string_of_bytes (l : list N) : string :=
  match l with
  | [] => EmptyString
  | b :: rest => String (ascii_of_N b) (string_of_bytes rest)
  end.

(** The white space and line terminators that [parseInt] skips, as UTF-8:
    TAB, LF, VT, FF, CR, SP, U+00A0, U+1680, U+2000 to U+200A, U+2028,
    U+2029, U+202F, U+205F, U+3000 and U+FEFF. *)
Definition white_space : list string :=
  map string_of_bytes
    ([ [9]; [10]; [11]; [12]; [13]; [32]; [194; 160]; [225; 154; 128] ]
     ++ map (fun b => [226; 128; b]) [128; 129; 130; 131; 132; 133; 134; 135; 136; 137; 138]
     ++ [ [226; 128; 168]; [226; 128; 169]; [226; 128; 175]; [226; 129; 159];
          [227; 128; 128]; [239; 187; 191] ])%N%list.

Fixpoint strip_any (prefixes : list string) (s : string) : option string :=
  match prefixes with
  | [] => None
  | p :: others =>
      match strip_prefix p s with
      | Some rest => Some rest
      | None => strip_any others s
      end
  end.

(** No string of [prefixes] starts with the character [c]. *)
Definition starts_none (c : ascii) (prefixes : list string) : bool :=
  forallb (fun p => match p with
                    | String a _ => negb (Ascii.eqb a c)
                    | EmptyString => false
                    end) prefixes.

Fixpoint skip_white_space_upto (fuel : nat) (s : string) : string :=
  match fuel with
  | O => s
  | S fuel' =>
      match strip_any white_space s with
      | Some rest => skip_white_space_upto fuel' rest
      | None => s
      end
  end.

Definition skip_white_space (s : string) : string :=
  skip_white_space_upto (String.length s) s.

Definition digit_of (c : ascii) : option Z :=
  let n := N_of_ascii c in
  if ((48 <=? n) && (n <=? 57))%N then Some (Z.of_N n - 48) else None.

(** Value of the longest prefix of decimal digits, [None] when it is empty. *)
Fixpoint digits_value (acc : option Z) (s : string) : option Z :=
  match s with
  | EmptyString => acc
  | String c rest =>
      match digit_of c with
      | None => acc
      | Some d =>
          digits_value (Some (10 * match acc with Some a => a | None => 0 end + d)) rest
      end
  end.

(** The Number value of an integer: the integer itself below [2^53] in
    magnitude, beyond that the nearest double (53 significant bits, a tie
    going to the even significand), and an infinity when that reaches
    [2^1024].  This is what V8 makes of a decimal numeral of any length;
    the language lets an engine round a numeral of more than 20 digits
    less closely. *)
Definition to_double (n : Z) : JsNum :=
  let a := Z.abs n in
  if (a <? 2 ^ 53)%Z then Num n 0
  else
    let k := (Z.log2 a - 52)%Z in
    let q := (a / 2 ^ k)%Z in
    let r := (a mod 2 ^ k)%Z in
    let half := (2 ^ (k - 1))%Z in
    let rounded := if ((half <? r) || ((r =? half) && Z.odd q))%Z then (q + 1)%Z else q in
    let v := (rounded * 2 ^ k)%Z in
    if (2 ^ 1024 <=? v)%Z then Infinity (n <? 0)%Z
    else Num (if (n <? 0)%Z then (- v)%Z else v) 0.

(** White space is skipped, one sign is read, then the digits up to the
    first character that is not one; no digit at all gives [NaN], and the
    integer read is turned into a Number.  The radix is given as 10, so no
    [0x] prefix is recognised. *)
Definition parseInt10 (s : string) : JsNum :=
  let s1 := skip_white_space s in
  let '(negative, s2) :=
    match s1 with
    | String "-" rest => (true, rest)
    | String "+" rest => (false, rest)
    | _ => (false, s1)
    end in
  match digits_value None s2 with
  | None => NaN
  | Some n => to_double (if negative then - n else n)
  end.

(** The texts in which [parseInt10] finds an integer: after the white
    space and one optional sign comes a decimal digit. *)
Definition integer_prefix (s : string) : bool :=
  let s1 := skip_white_space s in
  let s2 :=
    match s1 with
    | String "-" rest => rest
    | String "+" rest => rest
    | _ => s1
    end in
  match s2 with
  | EmptyString => false
  | String c _ => match digit_of c with Some _ => true | None => false end
  end.

(** [Number.isNaN] *)
Definition isNaN (n : JsNum) : bool :=
  match n with
  | NaN => true
  | Infinity _ | Num _ _ => false
  end.

(* ===================================================================== *)
(** ** Header lists *)
(* ===================================================================== *)

(** A [Headers] object as the list of its entries. *)
Definition Headers : Type := list (string * string).

Definition lower (c : ascii) : ascii :=
  let n := N_of_ascii c in
  if ((65 <=? n) && (n <=? 90))%N then ascii_of_N (n + 32) else c.

Fixpoint lowercase (s : string) : string :=
  match s with
  | EmptyString => EmptyString
  | String c rest => String (lower c) (lowercase rest)
  end.

Fixpoint join_values (vs : list string) : string :=
  match vs with
  | [] => EmptyString
  | [v] => v
  | v :: rest => v ++ ", " ++ join_values rest
  end.

(** [headers.get(name)]: names compare without regard to ASCII case, the
    values of a repeated name are joined by [", "], and an absent name gives
    [null] ([None]). *)
Definition Headers_get (h : Headers) (name : string) : option string :=
  match filter (fun kv => String.eqb (lowercase (fst kv)) (lowercase name)) h with
  | [] => None
  | found => Some (join_values (map snd found))
  end.

(** A [Record<string, string>] literal keeps its keys in insertion order;
    spreading [b] after [a] overwrites the value of a key already there and
    appends a new one. *)
Fixpoint set_key (k v : string) (o : list (string * string)) : list (string * string) :=
  match o with
  | [] => [(k, v)]
  | (k', v') :: rest =>
      if String.eqb k k' then (k, v) :: rest else (k', v') :: set_key k v rest
  end.

Definition spread (a b : list (string * string)) : list (string * string) :=
  fold_left (fun o kv => set_key (fst kv) (snd kv) o) b a.

(* ===================================================================== *)
(** ** Requests, responses and programs that await a fetch *)
(* ===================================================================== *)

Inductive Method : Type := GET | POST | PUT | PATCH | DELETE.

(** The [RequestInit] members the client sets; an absent member is [None]. *)
Record RequestInit : Type := {
  init_method : option Method;
  init_body : option string;
  init_headers : option (list (string * string));
}.

(** The two arguments of one [fetch(url, init)] call. *)
Record HttpRequest : Type := {
  url : string;
  method : option Method;
  headers : list (string * string);
  body : option string;
}.

(** What the pipeline reads of a [Response]: [status], [headers] and the
    body as [text()] resolves it. *)
Record Response : Type := {
  status : Z;
  response_headers : Headers;
  text : string;
}.

(** [response.ok] *)
Definition ok (r : Response) : bool :=
  ((200 <=? status r) && (status r <=? 299))%Z.

(** A fetch promise rejects with an exception or resolves to a response. *)
Definition FetchResult : Type := (Exn + Response)%type.

(** An [async] function of the client: it returns, throws, or awaits one
    [fetch] and goes on with what the transport answers. *)
Inductive Prog (A : Type) : Type :=
| Ret (a : A)
| Throw (e : Exn)
| Fetch (r : HttpRequest) (k : FetchResult -> Prog A).

Arguments Ret {A} a.
Arguments Throw {A} e.
Arguments Fetch {A} r k.

Fixpoint bind {A B : Type} (p : Prog A) (f : A -> Prog B) : Prog B :=
  match p with
  | Ret a => f a
  | Throw e => Throw e
  | Fetch r k => Fetch r (fun x => bind (k x) f)
  end.

(** [try { p } catch (error) { h error }] *)
Fixpoint try_catch {A : Type} (p : Prog A) (h : Exn -> Prog A) : Prog A :=
  match p with
  | Ret a => Ret a
  | Throw e => h e
  | Fetch r k => Fetch r (fun x => try_catch (k x) h)
  end.

(** [await fetch(url, init)] *)
Definition fetch (r : HttpRequest) : Prog Response :=
  Fetch r (fun x => match x with inl e => Throw e | inr response => Ret response end).

(** A synchronous step that may throw. *)
Definition lift {A : Type} (x : Exn + A) : Prog A :=
  match x with
  | inl e => Throw e
  | inr a => Ret a
  end.

Declare Scope prog_scope.
Delimit Scope prog_scope with prog.
Notation "x <- p ;; q" := (bind p (fun x => q))
  (at level 61, p at next level, right associativity) : prog_scope.
Notation "p ;; q" := (bind p (fun _ => q))
  (at level 61, right associativity) : prog_scope.
Local Open Scope prog_scope.

(** How a call ended. *)
Inductive Outcome (A : Type) : Type :=
| Returned (a : A)
| Threw (e : Exn).

Arguments Returned {A} a.
Arguments Threw {A} e.

(** The result of running a program: its outcome, the requests handed to
    the transport, oldest first, and the transport's state afterwards. *)
Record Run (W A : Type) : Type := {
  outcome : Outcome A;
  sent : list HttpRequest;
  world : W;
}.

Arguments Build_Run {W A} outcome sent world.
Arguments outcome {W A} r.
Arguments sent {W A} r.
Arguments world {W A} r.

Section Exec.
Variable W : Type.
(** A transport answers a request from its state and moves to a new one. *)
Variable transport : HttpRequest -> W -> FetchResult * W.

Fixpoint exec {A : Type} (p : Prog A) (w : W) : Run W A :=
  match p with
  | Ret a => {| outcome := Returned a; sent := []; world := w |}
  | Throw e => {| outcome := Threw e; sent := []; world := w |}
  | Fetch r k =>
      let '(answer, w') := transport r w in
      let rest := exec (k answer) w' in
      {| outcome := outcome rest; sent := r :: sent rest; world := world rest |}
  end.
End Exec.

Arguments exec {W} transport {A} p w.

(** What the transport, in state [w], answers to the first request of [p];
    [None] when [p] ends without a request. *)
Definition first_answer {W A : Type} (transport : HttpRequest -> W -> FetchResult * W)
    (p : Prog A) (w : W) : option FetchResult :=
  match p with
  | Fetch r _ => Some (fst (transport r w))
  | _ => None
  end.

(** A stub transport: it gives the same answer to every request and counts
    how often it was called. *)
Definition stub (answer : FetchResult) : HttpRequest -> nat -> FetchResult * nat :=
  fun _ calls => (answer, S calls).

(** The outcome of a synchronous step. *)
Definition outcome_of {A : Type} (x : Exn + A) : Outcome A :=
  match x with
  | inl e => Threw e
  | inr a => Returned a
  end.

(** The three error kinds the pipeline normalizes responses into. *)
Definition normalized (e : Exn) : bool :=
  match e with
  | AuthenticationError _ | RateLimitError _ _ | DatabricksApiError _ _ _ => true
  | _ => false
  end.

(** [error.message] *)
Definition error_message (e : Exn) : JsVal :=
  match e with
  | Error m | AuthenticationError m | RateLimitError m _ | SyntaxError m | TypeError m =>
      JString m
  | DatabricksApiError m _ _ => m
  end.

(* ===================================================================== *)
(** ** [types/env.ts]: tenant credentials *)
(* ===================================================================== *)

Record TenantCredentials : Type := {
  host : string;
  token : string;
  warehouseId : option string;
}.

(** [x || ''] on what [headers.get] returned. *)
Definition or_empty (x : option string) : string :=
  match x with
  | Some s => s
  | None => EmptyString
  end.

(** [x || undefined] on what [headers.get] returned. *)
Definition or_undefined (x : option string) : option string :=
  match x with
  | Some s => if string_nonempty s then Some s else None
  | None => None
  end.

Definition parseTenantCredentials (request_headers : Headers) : TenantCredentials :=
  {| host := or_empty (Headers_get request_headers "X-Databricks-Host");
     token := or_empty (Headers_get request_headers "X-Databricks-Token");
     warehouseId := or_undefined (Headers_get request_headers "X-Databricks-Warehouse-Id") |}.

Definition missing_host_message : string :=
  "Missing X-Databricks-Host header. Provide your Databricks workspace URL.".

Definition missing_token_message : string :=
  "Missing X-Databricks-Token header. Provide your Databricks personal access token.".

(** [validateCredentials] is synchronous: it throws or returns nothing. *)
Definition validateCredentials (credentials : TenantCredentials) : Exn + unit :=
  if negb (string_nonempty (host credentials)) then
    inl (Error missing_host_message)
  else if negb (string_nonempty (token credentials)) then
    inl (Error missing_token_message)
  else inr tt.

(** [getEnvNumber(env, key, defaultValue)], from the value of [env[key]]
    when that is a string ([None] otherwise): the parsed number, and the
    default when the parse gives [NaN]. *)
Definition getEnvNumber (value : option string) (defaultValue : JsNum) : JsNum :=
  match value with
  | Some s =>
      let parsed := parseInt10 s in
      if isNaN parsed then defaultValue else parsed
  | None => defaultValue
  end.

(* ===================================================================== *)
(** ** [client.ts]: the request pipeline *)
(* ===================================================================== *)

(** [a || b] where evaluating [b] has no effect. *)
Definition or_else (a b : JsVal) : JsVal :=
  if truthy a then a else b.

Record DatabricksClientImpl : Type := {
  credentials : TenantCredentials;
  baseUrl : string;
}.

(** [new DatabricksClientImpl(credentials)]: the only place where the two
    fields are written. *)
Definition createDatabricksClient (creds : TenantCredentials) : DatabricksClientImpl :=
  {| credentials := creds;
     baseUrl := replace_trailing_slash (host creds) |}.

Definition no_credentials_message : string :=
  "No credentials provided. Include X-Databricks-Token header.".

Definition authentication_failed_message : string :=
  "Authentication failed. Check your Databricks personal access token.".

Definition getAuthHeaders (this : DatabricksClientImpl) : Exn + list (string * string) :=
  if negb (string_nonempty (token (credentials this))) then
    inl (AuthenticationError no_credentials_message)
  else
    inr [ ("Authorization", "Bearer " ++ token (credentials this));
          ("Content-Type", "application/json") ].

(** The headers [getAuthHeaders] returns for a token that is not empty. *)
Definition bearer_headers (this : DatabricksClientImpl) : list (string * string) :=
  [ ("Authorization", "Bearer " ++ token (credentials this));
    ("Content-Type", "application/json") ].

(** The second argument of [new RateLimitError(...)], from what
    [response.headers.get('Retry-After')] returned. *)
Definition retry_after_seconds (retryAfter : option string) : JsNum :=
  match retryAfter with
  | Some s => if string_nonempty s then parseInt10 s else int 60
  | None => int 60
  end.

(** [`API error: ${response.status}`] *)
Definition generic_message (st : Z) : JsVal :=
  JString ("API error: " ++ string_of_Z st).

Section Client.
Context {runtime : JsRuntime}.

(** [errorJson.message || errorJson.error || message] *)
Definition message_or_error (errorJson message : JsVal) : Exn + JsVal :=
  match prop errorJson "message" with
  | inl e => inl e
  | inr m =>
      if truthy m then inr m
      else match prop errorJson "error" with
           | inl e => inl e
           | inr er => inr (or_else er message)
           end
  end.

(** The [try]/[catch] of the error branch: the pair of the locals
    [message] and [errorCode] when the block is left.  An exception in
    the [try] body leaves both as they were assigned so far. *)
Definition error_details (errorBody : string) (st : Z) : JsVal * JsVal :=
  let message := generic_message st in
  let errorCode := JUndefined in
  match JSON_parse errorBody with
  | inl _ => (message, errorCode)
  | inr errorJson =>
      match message_or_error errorJson message with
      | inl _ => (message, errorCode)
      | inr message' =>
          match prop errorJson "error_code" with
          | inl _ => (message', errorCode)
          | inr errorCode' => (message', errorCode')
          end
      end
  end.

(** What [request] does once the response is there: no further request
    is made, so this part either throws or returns. *)
Definition interpret (response : Response) : Exn + JsVal :=
  if (status response =? 429)%Z then
    let retryAfter := Headers_get (response_headers response) "Retry-After" in
    inl (RateLimitError "Rate limit exceeded" (retry_after_seconds retryAfter))
  else if ((status response =? 401) || (status response =? 403))%Z then
    inl (AuthenticationError authentication_failed_message)
  else if negb (ok response) then
    let errorBody := text response in
    let '(message, errorCode) := error_details errorBody (status response) in
    inl (DatabricksApiError message (status response) errorCode)
  else if (status response =? 204)%Z then
    inr JUndefined
  else
    let body_text := text response in
    if negb (string_nonempty body_text) then inr JUndefined
    else match JSON_parse body_text with
         | inl parse_error => inl (SyntaxError parse_error)
         | inr value => inr value
         end.

(** [{ ...options, headers: { ...auth, ...(options.headers || {}) } }] *)
Definition fetch_arguments (full_url : string) (options : RequestInit)
    (auth : list (string * string)) : HttpRequest :=
  {| url := full_url;
     method := init_method options;
     headers := spread auth
                  match init_headers options with
                  | Some h => h
                  | None => []
                  end;
     body := init_body options |}.

Definition request (this : DatabricksClientImpl) (endpoint : string)
    (options : RequestInit) : Prog JsVal :=
  let full_url := baseUrl this ++ endpoint in
  auth <- lift (getAuthHeaders this) ;;
  response <- fetch (fetch_arguments full_url options auth) ;;
  lift (interpret response).

(** The request a call of [request] hands to [fetch] when the token is not
    empty. *)
Definition outbound (this : DatabricksClientImpl) (endpoint : string)
    (options : RequestInit) : HttpRequest :=
  fetch_arguments (baseUrl this ++ endpoint) options (bearer_headers this).

(** [body ? JSON.stringify(body) : undefined] *)
Definition encode_body (payload : JsVal) : option string :=
  if truthy payload then JSON_stringify payload else None.

Definition get (this : DatabricksClientImpl) (endpoint : string) : Prog JsVal :=
  request this endpoint
    {| init_method := Some GET; init_body := None; init_headers := None |}.

Definition post (this : DatabricksClientImpl) (endpoint : string) (payload : JsVal)
  : Prog JsVal :=
  request this endpoint
    {| init_method := Some POST; init_body := encode_body payload; init_headers := None |}.

Definition put (this : DatabricksClientImpl) (endpoint : string) (payload : JsVal)
  : Prog JsVal :=
  request this endpoint
    {| init_method := Some PUT; init_body := encode_body payload; init_headers := None |}.

Definition patch (this : DatabricksClientImpl) (endpoint : string) (payload : JsVal)
  : Prog JsVal :=
  request this endpoint
    {| init_method := Some PATCH; init_body := encode_body payload; init_headers := None |}.

Definition delete (this : DatabricksClientImpl) (endpoint : string) (payload : JsVal)
  : Prog JsVal :=
  request this endpoint
    {| init_method := Some DELETE; init_body := encode_body payload; init_headers := None |}.

(** The calls of the five wrappers, each with the options it passes to
    [request]. *)
Definition wrapper_calls (this : DatabricksClientImpl) (endpoint : string)
    (payload : JsVal) : list (Prog JsVal * RequestInit) :=
  [ (get this endpoint,
     {| init_method := Some GET; init_body := None; init_headers := None |});
    (post this endpoint payload,
     {| init_method := Some POST; init_body := encode_body payload; init_headers := None |});
    (put this endpoint payload,
     {| init_method := Some PUT; init_body := encode_body payload; init_headers := None |});
    (patch this endpoint payload,
     {| init_method := Some PATCH; init_body := encode_body payload; init_headers := None |});
    (delete this endpoint payload,
     {| init_method := Some DELETE; init_body := encode_body payload; init_headers := None |}) ].

(** *** List facades

    [const response = await this.get(endpoint); return response.key || [];] *)
Definition unwrap (key : string) (response : JsVal) : Prog JsVal :=
  items <- lift (prop response key) ;;
  Ret (or_else items (JArray [])).

Definition listWarehouses (this : DatabricksClientImpl) : Prog JsVal :=
  response <- get this "/api/2.0/sql/warehouses" ;;
  unwrap "warehouses" response.

Definition listClusters (this : DatabricksClientImpl) : Prog JsVal :=
  response <- get this "/api/2.0/clusters/list" ;;
  unwrap "clusters" response.

Definition listWorkspace (this : DatabricksClientImpl) (path : string) : Prog JsVal :=
  response <- get this ("/api/2.0/workspace/list?path=" ++ encodeURIComponent path) ;;
  unwrap "objects" response.

Definition listDbfs (this : DatabricksClientImpl) (path : string) : Prog JsVal :=
  response <- get this ("/api/2.0/dbfs/list?path=" ++ encodeURIComponent path) ;;
  unwrap "files" response.

Definition listCatalogs (this : DatabricksClientImpl) : Prog JsVal :=
  response <- get this "/api/2.1/unity-catalog/catalogs" ;;
  unwrap "catalogs" response.

Definition listSchemas (this : DatabricksClientImpl) (catalogName : string) : Prog JsVal :=
  response <- get this ("/api/2.1/unity-catalog/schemas?catalog_name="
                        ++ encodeURIComponent catalogName) ;;
  unwrap "schemas" response.

Definition listTables (this : DatabricksClientImpl) (catalogName schemaName : string)
  : Prog JsVal :=
  response <- get this ("/api/2.1/unity-catalog/tables?catalog_name="
                        ++ encodeURIComponent catalogName
                        ++ "&schema_name=" ++ encodeURIComponent schemaName) ;;
  unwrap "tables" response.

Definition listVolumes (this : DatabricksClientImpl) (catalogName schemaName : string)
  : Prog JsVal :=
  response <- get this ("/api/2.1/unity-catalog/volumes?catalog_name="
                        ++ encodeURIComponent catalogName
                        ++ "&schema_name=" ++ encodeURIComponent schemaName) ;;
  unwrap "volumes" response.

Definition listFunctions (this : DatabricksClientImpl) (catalogName schemaName : string)
  : Prog JsVal :=
  response <- get this ("/api/2.1/unity-catalog/functions?catalog_name="
                        ++ encodeURIComponent catalogName
                        ++ "&schema_name=" ++ encodeURIComponent schemaName) ;;
  unwrap "functions" response.

Definition listModelVersions (this : DatabricksClientImpl) (name : string) : Prog JsVal :=
  response <- get this ("/api/2.0/mlflow/model-versions/search?filter=name='"
                        ++ encodeURIComponent name ++ "'") ;;
  unwrap "model_versions" response.

Definition listSecretScopes (this : DatabricksClientImpl) : Prog JsVal :=
  response <- get this "/api/2.0/secrets/scopes/list" ;;
  unwrap "scopes" response.

Definition listSecrets (this : DatabricksClientImpl) (scope : string) : Prog JsVal :=
  response <- get this ("/api/2.0/secrets/list?scope=" ++ encodeURIComponent scope) ;;
  unwrap "secrets" response.

Definition listSecretAcls (this : DatabricksClientImpl) (scope : string) : Prog JsVal :=
  response <- get this ("/api/2.0/secrets/acls/list?scope=" ++ encodeURIComponent scope) ;;
  unwrap "items" response.

Definition listGitCredentials (this : DatabricksClientImpl) : Prog JsVal :=
  response <- get this "/api/2.0/git-credentials" ;;
  unwrap "credentials" response.

Definition listInstancePools (this : DatabricksClientImpl) : Prog JsVal :=
  response <- get this "/api/2.0/instance-pools/list" ;;
  unwrap "instance_pools" response.

Definition listTokens (this : DatabricksClientImpl) : Prog JsVal :=
  response <- get this "/api/2.0/token/list" ;;
  unwrap "token_infos" response.

(** The arguments of the list facades that take any. *)
Record FacadeArguments : Type := {
  arg_path : string;
  arg_catalogName : string;
  arg_schemaName : string;
  arg_name : string;
  arg_scope : string
}.

(** Every method of the client whose body ends in [return response.key || []],
    sixteen in all, in the order of the class, each with the endpoint it
    gets and its envelope key. *)
Definition list_facades (this : DatabricksClientImpl) (a : FacadeArguments)
  : list (Prog JsVal * (string * string)) :=
  [ (listWarehouses this, ("/api/2.0/sql/warehouses", "warehouses"));
    (listClusters this, ("/api/2.0/clusters/list", "clusters"));
    (listWorkspace this (arg_path a),
     ("/api/2.0/workspace/list?path=" ++ encodeURIComponent (arg_path a), "objects"));
    (listDbfs this (arg_path a),
     ("/api/2.0/dbfs/list?path=" ++ encodeURIComponent (arg_path a), "files"));
    (listCatalogs this, ("/api/2.1/unity-catalog/catalogs", "catalogs"));
    (listSchemas this (arg_catalogName a),
     ("/api/2.1/unity-catalog/schemas?catalog_name="
      ++ encodeURIComponent (arg_catalogName a), "schemas"));
    (listTables this (arg_catalogName a) (arg_schemaName a),
     ("/api/2.1/unity-catalog/tables?catalog_name="
      ++ encodeURIComponent (arg_catalogName a)
      ++ "&schema_name=" ++ encodeURIComponent (arg_schemaName a), "tables"));
    (listVolumes this (arg_catalogName a) (arg_schemaName a),
     ("/api/2.1/unity-catalog/volumes?catalog_name="
      ++ encodeURIComponent (arg_catalogName a)
      ++ "&schema_name=" ++ encodeURIComponent (arg_schemaName a), "volumes"));
    (listFunctions this (arg_catalogName a) (arg_schemaName a),
     ("/api/2.1/unity-catalog/functions?catalog_name="
      ++ encodeURIComponent (arg_catalogName a)
      ++ "&schema_name=" ++ encodeURIComponent (arg_schemaName a), "functions"));
    (listModelVersions this (arg_name a),
     ("/api/2.0/mlflow/model-versions/search?filter=name='"
      ++ encodeURIComponent (arg_name a) ++ "'", "model_versions"));
    (listSecretScopes this, ("/api/2.0/secrets/scopes/list", "scopes"));
    (listSecrets this (arg_scope a),
     ("/api/2.0/secrets/list?scope=" ++ encodeURIComponent (arg_scope a), "secrets"));
    (listSecretAcls this (arg_scope a),
     ("/api/2.0/secrets/acls/list?scope=" ++ encodeURIComponent (arg_scope a), "items"));
    (listGitCredentials this, ("/api/2.0/git-credentials", "credentials"));
    (listInstancePools this, ("/api/2.0/instance-pools/list", "instance_pools"));
    (listTokens this, ("/api/2.0/token/list", "token_infos")) ].

(** [testConnection] turns every failure of its request into a value. *)
Definition testConnection (this : DatabricksClientImpl) : Prog JsVal :=
  try_catch
    (get this "/api/2.0/preview/scim/v2/Me" ;;
     Ret (JObject [ ("connected", JBool true);
                    ("message", JString "Successfully connected to Databricks workspace") ]))
    (fun error =>
       Ret (JObject [ ("connected", JBool false); ("message", error_message error) ])).

End Client.

(* ===================================================================== *)
(** ** [index.ts]: the [/mcp] branch of the worker's [fetch] handler *)
(* ===================================================================== *)

Section Worker.
Context {runtime : JsRuntime}.

(** [createMcpHandler(server)(request, env, ctx)] for the server that
    [createStatelessServer] registers the tools on: the dispatcher of the
    MCP SDK, which is not part of this repository.  It reaches the remote
    platform only through the client it is given. *)
Variable mcp_handler : DatabricksClientImpl -> Headers -> Prog Response.

(** The 401 answer to a call whose credentials were rejected.  Every
    thrown value of [Exn] is an [Error], so [message] is [error.message]. *)
Definition unauthorized (error : Exn) : Response :=
  {| status := 401;
     response_headers := [("Content-Type", "application/json")];
     text := or_empty
               (JSON_stringify
                  (JObject
                     [ ("error", JString "Unauthorized");
                       ("message", error_message error);
                       ("required_headers",
                        JObject
                          [ ("X-Databricks-Host", JString "Your Databricks workspace URL");
                            ("X-Databricks-Token", JString "Your personal access token") ]) ])) |}.

(** The body of [if (url.pathname === '/mcp' && request.method === 'POST')]:
    the credentials are parsed and validated once, and the client is
    created, and with it the server, only after the validation returned. *)
Definition handle_mcp (request_headers : Headers) : Prog Response :=
  let creds := parseTenantCredentials request_headers in
  match validateCredentials creds with
  | inl error => Ret (unauthorized error)
  | inr _ => mcp_handler (createDatabricksClient creds) request_headers
  end.

End Worker.

(* ===================================================================== *)
(** ** A reference runtime

    The built-ins of [JsRuntime] written out, so that the pipeline can be
    run on concrete texts.  Strings are UTF-8 texts; object fields are kept
    in property order (array-index keys first, ascending, then the other
    keys as inserted). *)
(* ===================================================================== *)

Module Reference.

Definition hex_digit (c : ascii) : option N :=
  let n := N_of_ascii c in
  if ((48 <=? n) && (n <=? 57))%N then Some (n - 48)%N
  else if ((65 <=? n) && (n <=? 70))%N then Some (n - 55)%N
  else if ((97 <=? n) && (n <=? 102))%N then Some (n - 87)%N
  else None.

Definition hex4 (a b c d : ascii) : option N :=
  match hex_digit a, hex_digit b, hex_digit c, hex_digit d with
  | Some x, Some y, Some z, Some w => Some (((x * 16 + y) * 16 + z) * 16 + w)%N
  | _, _, _, _ => None
  end.

Definition byte (n : N) : string := String (ascii_of_N n) EmptyString.

Definition utf8 (cp : N) : string :=
  (if cp <? 128 then byte cp
   else if cp <? 2048 then
     byte (192 + cp / 64) ++ byte (128 + cp mod 64)
   else if cp <? 65536 then
     byte (224 + cp / 4096) ++ byte (128 + (cp / 64) mod 64) ++ byte (128 + cp mod 64)
   else
     byte (240 + cp / 262144) ++ byte (128 + (cp / 4096) mod 64)
       ++ byte (128 + (cp / 64) mod 64) ++ byte (128 + cp mod 64))%N.

Definition is_high_surrogate (u : N) : bool := ((55296 <=? u) && (u <=? 56319))%N.
Definition is_low_surrogate (u : N) : bool := ((56320 <=? u) && (u <=? 57343))%N.

Definition double_quote : ascii := ascii_of_N 34.

(** One escape of a JSON string, after its backslash: the text it stands
    for and what follows it.  A high surrogate directly followed by a low
    one is a single code point. *)
Definition parse_escape (s : string) : option (string * string) :=
  match s with
  | EmptyString => None
  | String e rest =>
      if Ascii.eqb e double_quote then Some (byte 34, rest)
      else if Ascii.eqb e "\" then Some (byte 92, rest)
      else if Ascii.eqb e "/" then Some (byte 47, rest)
      else if Ascii.eqb e "b" then Some (byte 8, rest)
      else if Ascii.eqb e "f" then Some (byte 12, rest)
      else if Ascii.eqb e "n" then Some (byte 10, rest)
      else if Ascii.eqb e "r" then Some (byte 13, rest)
      else if Ascii.eqb e "t" then Some (byte 9, rest)
      else if Ascii.eqb e "u" then
        match rest with
        | String a (String b (String c (String d rest1))) =>
            match hex4 a b c d with
            | None => None
            | Some hi =>
                let alone := Some (utf8 hi, rest1) in
                if is_high_surrogate hi then
                  match rest1 with
                  | String "\" (String "u" (String a' (String b' (String c' (String d' rest2))))) =>
                      match hex4 a' b' c' d' with
                      | Some lo =>
                          if is_low_surrogate lo then
                            Some (utf8 (65536 + (hi - 55296) * 1024 + (lo - 56320))%N, rest2)
                          else alone
                      | None => alone
                      end
                  | _ => alone
                  end
                else alone
            end
        | _ => None
        end
      else None
  end.

(** The characters of a JSON string after its opening quote, up to and
    without the closing one. *)
Fixpoint parse_chars (fuel : nat) (acc : string) (s : string) : option (string * string) :=
  match fuel with
  | O => None
  | S fuel' =>
      match s with
      | EmptyString => None
      | String c rest =>
          if Ascii.eqb c double_quote then Some (acc, rest)
          else if Ascii.eqb c "\" then
            match parse_escape rest with
            | Some (piece, rest') => parse_chars fuel' (acc ++ piece) rest'
            | None => None
            end
          else if (N_of_ascii c <? 32)%N then None
          else parse_chars fuel' (acc ++ String c EmptyString) rest
      end
  end.

Definition is_json_space (c : ascii) : bool :=
  let n := N_of_ascii c in
  ((n =? 32) || (n =? 9) || (n =? 10) || (n =? 13))%N.

Fixpoint skip_space (s : string) : string :=
  match s with
  | String c rest => if is_json_space c then skip_space rest else s
  | EmptyString => EmptyString
  end.

(** A run of decimal digits: its value, how many there are, and the rest. *)
Fixpoint digit_run (value : Z) (count : Z) (s : string) : Z * Z * string :=
  match s with
  | String c rest =>
      match digit_of c with
      | Some d => digit_run (10 * value + d) (count + 1) rest
      | None => (value, count, s)
      end
  | EmptyString => (value, count, s)
  end.

Definition starts_with_zero (s : string) : bool :=
  match s with
  | String "0" _ => true
  | _ => false
  end.

(** [-? int frac? exp?] with no leading zero in a longer integer part. *)
Definition parse_number (s : string) : option (JsNum * string) :=
  let '(negative, s0) :=
    match s with
    | String "-" rest => (true, rest)
    | _ => (false, s)
    end in
  let '(ip, n_int, s1) := digit_run 0 0 s0 in
  if (n_int =? 0)%Z then None
  else if starts_with_zero s0 && (1 <? n_int)%Z then None
  else
    let frac :=
      match s1 with
      | String "." rest =>
          let '(fp, n_frac, s2) := digit_run ip 0 rest in
          if (n_frac =? 0)%Z then None else Some (fp, n_frac, s2)
      | _ => Some (ip, 0, s1)
      end in
    match frac with
    | None => None
    | Some (mantissa, n_frac, s2) =>
        let signed := if negative then - mantissa else mantissa in
        let exponent :=
          match s2 with
          | String c rest =>
              if Ascii.eqb c "e" || Ascii.eqb c "E" then
                let '(minus, s3) :=
                  match rest with
                  | String "-" r => (true, r)
                  | String "+" r => (false, r)
                  | _ => (false, rest)
                  end in
                let '(ex, n_exp, s4) := digit_run 0 0 s3 in
                if (n_exp =? 0)%Z then None
                else Some (if minus then - ex else ex, s4)
              else Some (0, s2)
          | EmptyString => Some (0, s2)
          end in
        match exponent with
        | None => None
        | Some (ex, s4) => Some (Num signed (ex - n_frac), s4)
        end
    end.

(** The array index a property key denotes, if it is one. *)
Definition array_index (k : string) : option Z :=
  let '(v, n, tail) := digit_run 0 0 k in
  if (n =? 0)%Z || string_nonempty tail then None
  else if starts_with_zero k && (1 <? n)%Z then None
  else if (v <? 4294967295)%Z then Some v else None.

(** [CreateDataProperty]: an existing key keeps its place, a new
    array-index key goes before the larger indices and all other keys, a
    new other key goes last. *)
Fixpoint define_property (k : string) (v : JsVal) (o : list (string * JsVal))
  : list (string * JsVal) :=
  match o with
  | [] => [(k, v)]
  | (k', v') :: rest =>
      if String.eqb k k' then (k, v) :: rest
      else
        let before :=
          match array_index k, array_index k' with
          | Some i, Some j => (i <? j)%Z
          | Some _, None => true
          | None, _ => false
          end in
        if before then (k, v) :: o
        else (k', v') :: define_property k v rest
  end.

Definition literal (word : string) (v : JsVal) (s : string) : option (JsVal * string) :=
  match strip_prefix word s with
  | Some rest => Some (v, rest)
  | None => None
  end.

(** One JSON value with the text after it; [parse_elements] and
    [parse_members] read the rest of an array or object that is not
    empty. *)
Fixpoint parse_value (fuel : nat) (s : string) {struct fuel} : option (JsVal * string) :=
  match fuel with
  | O => None
  | S fuel' =>
      match skip_space s with
      | EmptyString => None
      | String c rest as s' =>
          if Ascii.eqb c "{" then
            match skip_space rest with
            | String "}" after => Some (JObject [], after)
            | inside => parse_members fuel' [] inside
            end
          else if Ascii.eqb c "[" then
            match skip_space rest with
            | String "]" after => Some (JArray [], after)
            | inside => parse_elements fuel' [] inside
            end
          else if Ascii.eqb c double_quote then
            match parse_chars (S (String.length rest)) EmptyString rest with
            | Some (str, after) => Some (JString str, after)
            | None => None
            end
          else if Ascii.eqb c "t" then literal "true" (JBool true) s'
          else if Ascii.eqb c "f" then literal "false" (JBool false) s'
          else if Ascii.eqb c "n" then literal "null" JNull s'
          else
            match parse_number s' with
            | Some (n, after) => Some (JNumber n, after)
            | None => None
            end
      end
  end
with parse_elements (fuel : nat) (acc : list JsVal) (s : string) {struct fuel}
  : option (JsVal * string) :=
  match fuel with
  | O => None
  | S fuel' =>
      match parse_value fuel' s with
      | None => None
      | Some (v, after) =>
          match skip_space after with
          | String "," more => parse_elements fuel' (acc ++ [v])%list more
          | String "]" after' => Some (JArray (acc ++ [v])%list, after')
          | _ => None
          end
      end
  end
with parse_members (fuel : nat) (acc : list (string * JsVal)) (s : string) {struct fuel}
  : option (JsVal * string) :=
  match fuel with
  | O => None
  | S fuel' =>
      match skip_space s with
      | EmptyString => None
      | String c rest =>
          if negb (Ascii.eqb c double_quote) then None
          else
            match parse_chars (S (String.length rest)) EmptyString rest with
            | None => None
            | Some (key, after_key) =>
                match skip_space after_key with
                | String ":" after_colon =>
                    match parse_value fuel' after_colon with
                    | None => None
                    | Some (v, after) =>
                        match skip_space after with
                        | String "," more => parse_members fuel' (define_property key v acc) more
                        | String "}" after' => Some (JObject (define_property key v acc), after')
                        | _ => None
                        end
                    end
                | _ => None
                end
            end
      end
  end.

(** The engine words the [SyntaxError] message; a fixed text stands for it. *)
Definition syntax_error_message : string := "Unexpected token in JSON".

Definition parse (text : string) : string + JsVal :=
  match parse_value (2 * String.length text + 2) text with
  | Some (v, rest) =>
      if string_nonempty (skip_space rest) then inl syntax_error_message else inr v
  | None => inl syntax_error_message
  end.

(** *** [JSON.stringify] *)

Definition hex_char (n : N) : string :=
  byte (if n <? 10 then 48 + n else 87 + n)%N.

Definition quote_char (c : ascii) : string :=
  let n := N_of_ascii c in
  (if n =? 34 then "\" ++ byte 34
   else if n =? 92 then "\\"
   else if n =? 8 then "\b"
   else if n =? 12 then "\f"
   else if n =? 10 then "\n"
   else if n =? 13 then "\r"
   else if n =? 9 then "\t"
   else if n <? 32 then "\u00" ++ hex_char (n / 16) ++ hex_char (n mod 16)
   else String c EmptyString)%N.

Fixpoint quote_chars (s : string) : string :=
  match s with
  | EmptyString => EmptyString
  | String c rest => quote_char c ++ quote_chars rest
  end.

Definition quote (s : string) : string :=
  byte 34 ++ quote_chars s ++ byte 34.

(** A digit string without its trailing zeros, and how many were dropped. *)
Fixpoint drop_trailing_zeros (s : string) : string * Z :=
  match s with
  | EmptyString => (EmptyString, 0)
  | String c rest =>
      let '(kept, n) := drop_trailing_zeros rest in
      if negb (string_nonempty kept) && Ascii.eqb c "0" then (EmptyString, n + 1)
      else (String c kept, n)
  end.

Fixpoint zeros (n : nat) : string :=
  match n with
  | O => EmptyString
  | S n' => String "0" (zeros n')
  end.

(** [Number::toString] in radix 10, exact where [m * 10^e] is the
    shortest decimal that denotes the number. *)
Definition number_text (x : JsNum) : string :=
  match x with
  | NaN => "NaN"
  | Infinity negative => if negative then "-Infinity" else "Infinity"
  | Num m e =>
      if (m =? 0)%Z then "0"
      else
        let sign := if (m <? 0)%Z then "-" else EmptyString in
        let '(digits, dropped) := drop_trailing_zeros (string_of_Z (Z.abs m)) in
        let k := Z.of_nat (String.length digits) in
        let n := (k + e + dropped)%Z in
        sign ++
        (if ((k <=? n) && (n <=? 21))%Z then
           digits ++ zeros (Z.to_nat (n - k))
         else if ((0 <? n) && (n <=? 21))%Z then
           substring 0 (Z.to_nat n) digits ++ "."
             ++ substring (Z.to_nat n) (Z.to_nat (k - n)) digits
         else if ((-6 <? n) && (n <=? 0))%Z then
           "0." ++ zeros (Z.to_nat (- n)) ++ digits
         else
           let exponent :=
             (if (0 <? n - 1)%Z then "+" else "-") ++ string_of_Z (Z.abs (n - 1)) in
           if (k =? 1)%Z then digits ++ "e" ++ exponent
           else substring 0 1 digits ++ "."
                  ++ substring 1 (Z.to_nat (k - 1)) digits ++ "e" ++ exponent)
  end.

Fixpoint join (sep : string) (l : list string) : string :=
  match l with
  | [] => EmptyString
  | [x] => x
  | x :: rest => x ++ sep ++ join sep rest
  end.

(** [undefined] has no text; inside an array it is written [null], and
    an object member that holds it is left out.  [NaN] and the
    infinities are written [null]. *)
Fixpoint stringify (v : JsVal) : option string :=
  match v with
  | JUndefined => None
  | JNull => Some "null"
  | JBool true => Some "true"
  | JBool false => Some "false"
  | JNumber NaN | JNumber (Infinity _) => Some "null"
  | JNumber n => Some (number_text n)
  | JString s => Some (quote s)
  | JArray items =>
      let texts :=
        (fix each (l : list JsVal) : list string :=
           match l with
           | [] => []
           | x :: rest =>
               match stringify x with
               | Some t => t
               | None => "null"
               end :: each rest
           end) items in
      Some ("[" ++ join "," texts ++ "]")
  | JObject fields =>
      let texts :=
        (fix each (l : list (string * JsVal)) : list string :=
           match l with
           | [] => []
           | (k, x) :: rest =>
               match stringify x with
               | Some t => (quote k ++ ":" ++ t) :: each rest
               | None => each rest
               end
           end) fields in
      Some ("{" ++ join "," texts ++ "}")
  end.

(** *** [encodeURIComponent] *)

Definition unreserved (c : ascii) : bool :=
  let n := N_of_ascii c in
  (((65 <=? n) && (n <=? 90)) || ((97 <=? n) && (n <=? 122))
   || ((48 <=? n) && (n <=? 57))
   || existsb (N.eqb n) [45; 95; 46; 33; 126; 42; 39; 40; 41])%N.

Definition upper_hex (n : N) : string :=
  byte (if n <? 10 then 48 + n else 55 + n)%N.

Fixpoint encode_uri_component (s : string) : string :=
  match s with
  | EmptyString => EmptyString
  | String c rest =>
      (if unreserved c then String c EmptyString
       else "%" ++ upper_hex (N_of_ascii c / 16) ++ upper_hex (N_of_ascii c mod 16))
      ++ encode_uri_component rest
  end.

#[export] Instance runtime : JsRuntime := {
  JSON_parse := parse;
  JSON_stringify := stringify;
  encodeURIComponent := encode_uri_component;
}.

End Reference.

(* ===================================================================== *)
(** ** Sample inputs *)
(* ===================================================================== *)

Module Sample.

Definition tenant : TenantCredentials :=
  {| host := "https://example.com/"; token := "dapi-secret"; warehouseId := None |}.

Definition tenant_without_slash : TenantCredentials :=
  {| host := "https://example.com"; token := "dapi-secret"; warehouseId := None |}.

Definition tenant_with_two_slashes : TenantCredentials :=
  {| host := "https://example.com//"; token := "dapi-secret"; warehouseId := None |}.

Definition tenant_without_token : TenantCredentials :=
  {| host := "https://example.com/"; token := EmptyString; warehouseId := None |}.

Definition tenant_without_host : TenantCredentials :=
  {| host := EmptyString; token := "dapi-secret"; warehouseId := None |}.

Definition client : DatabricksClientImpl := createDatabricksClient tenant.

Definition arguments : FacadeArguments :=
  {| arg_path := "/Users/a b";
     arg_catalogName := "main";
     arg_schemaName := "default";
     arg_name := "churn";
     arg_scope := "jdbc" |}.

Definition get_options : RequestInit :=
  {| init_method := Some GET; init_body := None; init_headers := None |}.

Definition respond (st : Z) (body_text : string) : Response :=
  {| status := st; response_headers := []; text := body_text |}.

Definition q : string := String (ascii_of_N 34) EmptyString.

(** [{"message":"internal failure","error_code":"E1"}] *)
Definition failure_json : string :=
  "{" ++ q ++ "message" ++ q ++ ":" ++ q ++ "internal failure" ++ q ++ ","
      ++ q ++ "error_code" ++ q ++ ":" ++ q ++ "E1" ++ q ++ "}".

(** [{"items":[1,2,3]}] *)
Definition items_json : string :=
  "{" ++ q ++ "items" ++ q ++ ":[1,2,3]}".

(** [{"warehouses":[{"id":"w1"},{"id":"w2"}]}] *)
Definition warehouses_json : string :=
  "{" ++ q ++ "warehouses" ++ q ++ ":[{" ++ q ++ "id" ++ q ++ ":" ++ q ++ "w1" ++ q ++ "},{"
      ++ q ++ "id" ++ q ++ ":" ++ q ++ "w2" ++ q ++ "}]}".

End Sample.

(* ===================================================================== *)
(** ** [types/env.ts]: environment configuration *)
(* ===================================================================== *)

(** The variables of [Env], each [None] when the deployment does not set
    it.  The bindings [CACHE_KV], [MCP_SESSIONS] and [AI] are objects when
    they are there. *)
Record Env : Type := {
  CHARACTER_LIMIT : option string;
  DEFAULT_PAGE_SIZE : option string;
  MAX_PAGE_SIZE : option string;
}.

(** [keyof Env] *)
Inductive EnvKey : Type :=
| KEY_CHARACTER_LIMIT
| KEY_DEFAULT_PAGE_SIZE
| KEY_MAX_PAGE_SIZE
| KEY_CACHE_KV
| KEY_MCP_SESSIONS
| KEY_AI.

(** [env[key]] when [typeof env[key] === 'string']. *)
Definition env_string (env : Env) (key : EnvKey) : option string :=
  match key with
  | KEY_CHARACTER_LIMIT => CHARACTER_LIMIT env
  | KEY_DEFAULT_PAGE_SIZE => DEFAULT_PAGE_SIZE env
  | KEY_MAX_PAGE_SIZE => MAX_PAGE_SIZE env
  | KEY_CACHE_KV | KEY_MCP_SESSIONS | KEY_AI => None
  end.

Definition getCharacterLimit (env : Env) : JsNum :=
  getEnvNumber (env_string env KEY_CHARACTER_LIMIT) (int 50000).

Definition getDefaultPageSize (env : Env) : JsNum :=
  getEnvNumber (env_string env KEY_DEFAULT_PAGE_SIZE) (int 20).

Definition getMaxPageSize (env : Env) : JsNum :=
  getEnvNumber (env_string env KEY_MAX_PAGE_SIZE) (int 100).

(* ===================================================================== *)
(** ** [URLSearchParams] and object spread *)
(* ===================================================================== *)

(** The bytes the [application/x-www-form-urlencoded] serializer leaves as
    they are: ASCII letters and digits and [*], [-], [.], [_]. *)
Definition form_unreserved (c : ascii) : bool :=
  let n := N_of_ascii c in
  (((65 <=? n) && (n <=? 90)) || ((97 <=? n) && (n <=? 122))
   || ((48 <=? n) && (n <=? 57))
   || existsb (N.eqb n) [42; 45; 46; 95])%N.

(** A space becomes [+], every other byte [%XX]. *)
Fixpoint form_encode (s : string) : string :=
  match s with
  | EmptyString => EmptyString
  | String c rest =>
      (if form_unreserved c then String c EmptyString
       else if (N_of_ascii c =? 32)%N then "+"
       else "%" ++ Reference.upper_hex (N_of_ascii c / 16)
                ++ Reference.upper_hex (N_of_ascii c mod 16))
      ++ form_encode rest
  end.

(** [params.set(name, value)]: the first pair of that name takes the value
    and the others of that name go; without one the pair is appended. *)
Fixpoint params_set (name value : string) (params : list (string * string))
  : list (string * string) :=
  match params with
  | [] => [(name, value)]
  | (n, v) :: rest =>
      if String.eqb n name
      then (name, value) :: filter (fun kv => negb (String.eqb (fst kv) name)) rest
      else (n, v) :: params_set name value rest
  end.

(** [params.toString()] *)
Definition params_toString (params : list (string * string)) : string :=
  Reference.join "&"
    (map (fun kv => form_encode (fst kv) ++ "=" ++ form_encode (snd kv)) params).

(** [{ ...target, ...source }] for objects: the own properties of [source]
    are defined on a copy of [target], in their order. *)
Definition object_spread (target source : list (string * JsVal)) : list (string * JsVal) :=
  fold_left (fun o kv => Reference.define_property (fst kv) (snd kv) o) source target.

(** A value that is a string or [undefined]. *)
Definition optional_string (x : option string) : JsVal :=
  match x with
  | Some s => JString s
  | None => JUndefined
  end.

(** A value that is a number or [undefined]. *)
Definition optional_number (x : option JsNum) : JsVal :=
  match x with
  | Some n => JNumber n
  | None => JUndefined
  end.

(* ===================================================================== *)
(** ** [client.ts]: facades with defaults and query strings *)
(* ===================================================================== *)

(** The [options] of [executeStatement]; [options?.x] of absent options is
    [undefined]. *)
Record StatementOptions : Type := {
  statement_catalog : option string;
  statement_schema : option string;
  statement_waitTimeout : option string;
  statement_disposition : option string;
  statement_format : option string;
}.

Definition option_of {O A : Type} (options : option O) (member : O -> option A) : option A :=
  match options with
  | Some o => member o
  | None => None
  end.

Definition statement_payload (warehouse_id statement : string)
    (options : option StatementOptions) : JsVal :=
  JObject
    [ ("warehouse_id", JString warehouse_id);
      ("statement", JString statement);
      ("catalog", optional_string (option_of options statement_catalog));
      ("schema", optional_string (option_of options statement_schema));
      ("wait_timeout",
       or_else (optional_string (option_of options statement_waitTimeout)) (JString "50s"));
      ("disposition",
       or_else (optional_string (option_of options statement_disposition)) (JString "INLINE"));
      ("format",
       or_else (optional_string (option_of options statement_format)) (JString "JSON_ARRAY")) ].

(** The [options] of [listJobs]. *)
Record ListJobsOptions : Type := {
  jobs_limit : option JsNum;
  jobs_offset : option JsNum;
  jobs_name : option string;
}.

(** The search parameters [listJobs] has set when it builds the URL. *)
Definition listJobs_params (options : option ListJobsOptions) : list (string * string) :=
  let params := [] in
  let params :=
    match option_of options jobs_limit with
    | Some limit =>
        if truthy (JNumber limit)
        then params_set "limit" (Reference.number_text limit) params else params
    | None => params
    end in
  let params :=
    match option_of options jobs_offset with
    | Some offset =>
        if truthy (JNumber offset)
        then params_set "offset" (Reference.number_text offset) params else params
    | None => params
    end in
  match option_of options jobs_name with
  | Some name => if string_nonempty name then params_set "name" name params else params
  | None => params
  end.



(** The [options] of [listClusterEvents]. *)
Record ClusterEventsOptions : Type := {
  events_limit : option JsNum;
}.

Section MoreClient.
Context {runtime : JsRuntime}.

Definition executeStatement (this : DatabricksClientImpl) (warehouseId statement : string)
    (options : option StatementOptions) : Prog JsVal :=
  post this "/api/2.0/sql/statements" (statement_payload warehouseId statement options).

(** [await this.post(...)] in a method that returns nothing. *)
Definition cancelStatement (this : DatabricksClientImpl) (statementId : string) : Prog JsVal :=
  post this ("/api/2.0/sql/statements/" ++ statementId ++ "/cancel") JUndefined ;;
  Ret JUndefined.

Definition listJobs (this : DatabricksClientImpl) (options : option ListJobsOptions)
  : Prog JsVal :=
  let queryString := params_toString (listJobs_params options) in
  response <- get this ("/api/2.1/jobs/list"
                          ++ if string_nonempty queryString
                             then "?" ++ queryString else EmptyString) ;;
  jobs <- lift (prop response "jobs") ;;
  has_more <- lift (prop response "has_more") ;;
  Ret (JObject [ ("jobs", or_else jobs (JArray []));
                 ("has_more", or_else has_more (JBool false)) ]).

Definition runJobNow (this : DatabricksClientImpl) (jobId : JsNum)
    (params : option (list (string * JsVal))) : Prog JsVal :=
  post this "/api/2.1/jobs/run-now"
    (JObject (object_spread [("job_id", JNumber jobId)]
                match params with
                | Some fields => fields
                | None => []
                end)).

Definition editCluster (this : DatabricksClientImpl) (clusterId : string)
    (spec : list (string * JsVal)) : Prog JsVal :=
  post this "/api/2.0/clusters/edit"
    (JObject (object_spread [("cluster_id", JString clusterId)] spec)) ;;
  Ret JUndefined.

Definition listClusterEvents (this : DatabricksClientImpl) (clusterId : string)
    (options : option ClusterEventsOptions) : Prog JsVal :=
  response <- post this "/api/2.0/clusters/events"
                (JObject [ ("cluster_id", JString clusterId);
                           ("limit",
                            or_else (optional_number (option_of options events_limit))
                              (JNumber (int 50))) ]) ;;
  events <- lift (prop response "events") ;;
  next_page <- lift (prop response "next_page") ;;
  Ret (JObject [ ("events", or_else events (JArray [])); ("next_page", next_page) ]).

End MoreClient.

(* ===================================================================== *)
(** ** [index.ts]: the worker *)
(* ===================================================================== *)

Definition SERVER_NAME : string := "primrose-mcp-databricks".
Definition SERVER_VERSION : string := "1.0.0".

(** The object the default route serializes. *)
Definition catalog : JsVal :=
  JObject
    [ ("name", JString SERVER_NAME);
      ("version", JString SERVER_VERSION);
      ("description", JString "Multi-tenant Databricks MCP Server");
      ("endpoints",
        JObject
          [ ("mcp", JString "/mcp (POST) - Streamable HTTP MCP endpoint");
            ("health", JString "/health - Health check") ]);
      ("authentication",
        JObject
          [ ("description", JString "Pass Databricks credentials via request headers");
            ("required_headers",
              JObject
                [ ("X-Databricks-Host", JString "Databricks workspace URL (e.g., https://adb-xxx.azuredatabricks.net)");
                  ("X-Databricks-Token", JString "Personal access token") ]);
            ("optional_headers",
              JObject
                [ ("X-Databricks-Warehouse-Id", JString "Default SQL warehouse ID for SQL operations") ]) ]);
      ("tools",
        JObject
          [ ("sql",
              JArray
                [ JString "databricks_execute_sql";
                  JString "databricks_get_sql_status";
                  JString "databricks_get_sql_result_chunk";
                  JString "databricks_cancel_sql";
                  JString "databricks_list_warehouses";
                  JString "databricks_get_warehouse";
                  JString "databricks_start_warehouse";
                  JString "databricks_stop_warehouse" ]);
            ("jobs",
              JArray
                [ JString "databricks_list_jobs";
                  JString "databricks_get_job";
                  JString "databricks_create_job";
                  JString "databricks_update_job";
                  JString "databricks_delete_job";
                  JString "databricks_run_job";
                  JString "databricks_list_runs";
                  JString "databricks_get_run";
                  JString "databricks_get_run_output";
                  JString "databricks_cancel_run";
                  JString "databricks_cancel_all_runs" ]);
            ("clusters",
              JArray
                [ JString "databricks_list_clusters";
                  JString "databricks_get_cluster";
                  JString "databricks_create_cluster";
                  JString "databricks_start_cluster";
                  JString "databricks_restart_cluster";
                  JString "databricks_terminate_cluster";
                  JString "databricks_delete_cluster";
                  JString "databricks_list_cluster_events";
                  JString "databricks_pin_cluster";
                  JString "databricks_unpin_cluster" ]);
            ("workspace",
              JArray
                [ JString "databricks_list_workspace";
                  JString "databricks_get_workspace_status";
                  JString "databricks_mkdirs";
                  JString "databricks_delete_workspace";
                  JString "databricks_import_notebook";
                  JString "databricks_export_notebook" ]);
            ("dbfs",
              JArray
                [ JString "databricks_list_dbfs";
                  JString "databricks_get_dbfs_status";
                  JString "databricks_mkdirs_dbfs";
                  JString "databricks_delete_dbfs";
                  JString "databricks_read_dbfs";
                  JString "databricks_put_dbfs";
                  JString "databricks_move_dbfs" ]);
            ("unity_catalog",
              JArray
                [ JString "databricks_list_catalogs";
                  JString "databricks_get_catalog";
                  JString "databricks_create_catalog";
                  JString "databricks_delete_catalog";
                  JString "databricks_list_schemas";
                  JString "databricks_get_schema";
                  JString "databricks_create_schema";
                  JString "databricks_delete_schema";
                  JString "databricks_list_tables";
                  JString "databricks_get_table";
                  JString "databricks_delete_table";
                  JString "databricks_list_volumes";
                  JString "databricks_get_volume";
                  JString "databricks_create_volume";
                  JString "databricks_delete_volume";
                  JString "databricks_list_functions";
                  JString "databricks_get_function" ]);
            ("mlflow",
              JArray
                [ JString "databricks_list_experiments";
                  JString "databricks_get_experiment";
                  JString "databricks_get_experiment_by_name";
                  JString "databricks_create_experiment";
                  JString "databricks_delete_experiment";
                  JString "databricks_restore_experiment";
                  JString "databricks_search_runs";
                  JString "databricks_create_run";
                  JString "databricks_update_run";
                  JString "databricks_delete_run";
                  JString "databricks_log_metric";
                  JString "databricks_log_param";
                  JString "databricks_set_tag";
                  JString "databricks_list_models";
                  JString "databricks_get_model";
                  JString "databricks_create_model";
                  JString "databricks_delete_model";
                  JString "databricks_list_model_versions";
                  JString "databricks_get_model_version";
                  JString "databricks_delete_model_version" ]);
            ("secrets",
              JArray
                [ JString "databricks_list_secret_scopes";
                  JString "databricks_create_secret_scope";
                  JString "databricks_delete_secret_scope";
                  JString "databricks_list_secrets";
                  JString "databricks_put_secret";
                  JString "databricks_delete_secret";
                  JString "databricks_list_secret_acls";
                  JString "databricks_get_secret_acl";
                  JString "databricks_put_secret_acl";
                  JString "databricks_delete_secret_acl" ]);
            ("repos",
              JArray
                [ JString "databricks_list_repos";
                  JString "databricks_get_repo";
                  JString "databricks_create_repo";
                  JString "databricks_update_repo";
                  JString "databricks_delete_repo";
                  JString "databricks_list_git_credentials";
                  JString "databricks_create_git_credential";
                  JString "databricks_delete_git_credential" ]);
            ("pipelines",
              JArray
                [ JString "databricks_list_pipelines";
                  JString "databricks_get_pipeline";
                  JString "databricks_create_pipeline";
                  JString "databricks_update_pipeline";
                  JString "databricks_delete_pipeline";
                  JString "databricks_start_pipeline";
                  JString "databricks_stop_pipeline" ]);
            ("instance_pools",
              JArray
                [ JString "databricks_list_instance_pools";
                  JString "databricks_get_instance_pool";
                  JString "databricks_create_instance_pool";
                  JString "databricks_edit_instance_pool";
                  JString "databricks_delete_instance_pool" ]);
            ("tokens",
              JArray
                [ JString "databricks_list_tokens";
                  JString "databricks_create_token";
                  JString "databricks_revoke_token" ]);
            ("connection",
              JArray
                [ JString "databricks_test_connection" ]) ]) ].

(** What the handler reads of the inbound [Request]: the path of its URL,
    its method and its headers. *)
Record InboundRequest : Type := {
  inbound_pathname : string;
  inbound_method : string;
  inbound_headers : Headers;
}.

(** [String(v)], as a template literal applies it. *)
Fixpoint to_string (v : JsVal) : string :=
  match v with
  | JUndefined => "undefined"
  | JNull => "null"
  | JBool true => "true"
  | JBool false => "false"
  | JNumber n => Reference.number_text n
  | JString s => s
  | JArray items =>
      Reference.join ","
        ((fix each (l : list JsVal) : list string :=
            match l with
            | [] => []
            | x :: rest =>
                match x with
                | JUndefined | JNull => EmptyString
                | _ => to_string x
                end :: each rest
            end) items)
  | JObject _ => "[object Object]"
  end.



Section WorkerRoutes.
Context {runtime : JsRuntime}.
Variable mcp_handler : DatabricksClientImpl -> Headers -> Prog Response.

(** [JSON.stringify(value, null, 2)], a built-in of the runtime. *)
Variable JSON_stringify_indented : JsVal -> option string.

Definition json_response (st : Z) (value : JsVal) : Response :=
  {| status := st;
     response_headers := [("Content-Type", "application/json")];
     text := or_empty (JSON_stringify value) |}.

(** The [fetch] handler of the worker.  A text body without headers gets
    the content type of plain text from the [Response] constructor. *)
Definition worker_fetch (request : InboundRequest) : Prog Response :=
  if String.eqb (inbound_pathname request) "/health" then
    Ret (json_response 200
           (JObject [ ("status", JString "ok"); ("server", JString SERVER_NAME) ]))
  else if String.eqb (inbound_pathname request) "/mcp"
          && String.eqb (inbound_method request) "POST" then
    handle_mcp mcp_handler (inbound_headers request)
  else if String.eqb (inbound_pathname request) "/sse" then
    Ret {| status := 501;
           response_headers := [("content-type", "text/plain;charset=UTF-8")];
           text := "SSE endpoint requires Durable Objects. Enable in wrangler.jsonc." |}
  else
    Ret (json_response 200 catalog).

(** The callback of the tool [databricks_test_connection]. *)
Definition test_connection_tool (client : DatabricksClientImpl) : Prog JsVal :=
  try_catch
    (result <- testConnection client ;;
     Ret (JObject
            [ ("content",
               JArray [ JObject [ ("type", JString "text");
                                  ("text", optional_string (JSON_stringify_indented result)) ] ]) ]))
    (fun error =>
       Ret (JObject
              [ ("content",
                 JArray [ JObject [ ("type", JString "text");
                                    ("text", JString ("Connection failed: "
                                                        ++ to_string (error_message error))) ] ]);
                ("isError", JBool true) ])).

End WorkerRoutes.

(* ===================================================================== *)
(** ** [client.ts]: the client as an object with fields *)
(* ===================================================================== *)

(** The constructor, the request helper and its five wrappers once more, in
    store-passing form.  The store is the object, that is its two fields.
    A method is given the object as the call finds it and returns, with its
    result, the object as the call leaves it, so that an assignment to a
    field in any of them would show in what a later call reads.  An
    exception is a result like a value: the object outlives the call that
    threw.  The fields are read where the source reads them, and the
    constructor is the only code of the class that assigns one; the other
    methods of the class are facades made of calls of the wrappers.  The
    class has no static member and the module no variable, so the object is
    all the state there is.  The field [credentials] holds the object the
    caller passed, not a copy; nothing in the repository writes to a
    [TenantCredentials] once [parseTenantCredentials] has built it, so it
    is kept here by value. *)
Module Stateful.

Definition M (A : Type) : Type :=
  DatabricksClientImpl -> Prog (Outcome A * DatabricksClientImpl).

Definition ret {A : Type} (a : A) : M A :=
  fun this => Ret (Returned a, this).

Definition throw {A : Type} (e : Exn) : M A :=
  fun this => Ret (Threw e, this).

Definition seq {A B : Type} (m : M A) (f : A -> M B) : M B :=
  fun this =>
    r <- m this ;;
    match fst r with
    | Returned a => f a (snd r)
    | Threw e => Ret (Threw e, snd r)
    end.

(** [this.credentials] and [this.baseUrl], read. *)
Definition read_credentials : M TenantCredentials :=
  fun this => Ret (Returned (credentials this), this).

Definition read_baseUrl : M string :=
  fun this => Ret (Returned (baseUrl this), this).

(** [this.credentials = value] and [this.baseUrl = value]. *)
Definition assign_credentials (value : TenantCredentials) : M unit :=
  fun this => Ret (Returned tt, {| credentials := value; baseUrl := baseUrl this |}).

Definition assign_baseUrl (value : string) : M unit :=
  fun this => Ret (Returned tt, {| credentials := credentials this; baseUrl := value |}).

(** [await fetch(...)]: a rejection is thrown where the call awaits. *)
Definition await_fetch (r : HttpRequest) : M Response :=
  fun this =>
    Fetch r (fun answer =>
               match answer with
               | inl e => Ret (Threw e, this)
               | inr response => Ret (Returned response, this)
               end).

(** A synchronous step that reads no field. *)
Definition of_sum {A : Type} (x : Exn + A) : M A :=
  fun this => Ret (outcome_of x, this).

(** The body of the constructor, run on the new object. *)
Definition constructor (creds : TenantCredentials) : M unit :=
  seq (assign_credentials creds) (fun _ =>
  assign_baseUrl (replace_trailing_slash (host creds))).

Definition getAuthHeaders : M (list (string * string)) :=
  seq read_credentials (fun tested =>
  if negb (string_nonempty (token tested)) then
    throw (AuthenticationError no_credentials_message)
  else
    seq read_credentials (fun used =>
    ret [ ("Authorization", "Bearer " ++ token used);
          ("Content-Type", "application/json") ])).

(** A call of one of the five wrappers with its arguments. *)
Inductive Call : Type :=
| Get (endpoint : string)
| Post (endpoint : string) (payload : JsVal)
| Put (endpoint : string) (payload : JsVal)
| Patch (endpoint : string) (payload : JsVal)
| Delete (endpoint : string) (payload : JsVal).

Section Methods.
Context {runtime : JsRuntime}.

Definition request (endpoint : string) (options : RequestInit) : M JsVal :=
  seq read_baseUrl (fun base =>
  let full_url := base ++ endpoint in
  seq getAuthHeaders (fun auth =>
  seq (await_fetch (fetch_arguments full_url options auth)) (fun response =>
  of_sum (interpret response)))).

Definition get (endpoint : string) : M JsVal :=
  request endpoint
    {| init_method := Some GET; init_body := None; init_headers := None |}.

Definition post (endpoint : string) (payload : JsVal) : M JsVal :=
  request endpoint
    {| init_method := Some POST; init_body := encode_body payload; init_headers := None |}.

Definition put (endpoint : string) (payload : JsVal) : M JsVal :=
  request endpoint
    {| init_method := Some PUT; init_body := encode_body payload; init_headers := None |}.

Definition patch (endpoint : string) (payload : JsVal) : M JsVal :=
  request endpoint
    {| init_method := Some PATCH; init_body := encode_body payload; init_headers := None |}.

Definition delete (endpoint : string) (payload : JsVal) : M JsVal :=
  request endpoint
    {| init_method := Some DELETE; init_body := encode_body payload; init_headers := None |}.

Definition perform (c : Call) : M JsVal :=
  match c with
  | Get endpoint => get endpoint
  | Post endpoint payload => post endpoint payload
  | Put endpoint payload => put endpoint payload
  | Patch endpoint payload => patch endpoint payload
  | Delete endpoint payload => delete endpoint payload
  end.

(** The request descriptor of a call: the endpoint and the options its
    wrapper passes to [request]. *)
Definition descriptor (c : Call) : string * RequestInit :=
  match c with
  | Get endpoint =>
      (endpoint, {| init_method := Some GET; init_body := None; init_headers := None |})
  | Post endpoint payload =>
      (endpoint,
       {| init_method := Some POST; init_body := encode_body payload; init_headers := None |})
  | Put endpoint payload =>
      (endpoint,
       {| init_method := Some PUT; init_body := encode_body payload; init_headers := None |})
  | Patch endpoint payload =>
      (endpoint,
       {| init_method := Some PATCH; init_body := encode_body payload; init_headers := None |})
  | Delete endpoint payload =>
      (endpoint,
       {| init_method := Some DELETE; init_body := encode_body payload; init_headers := None |})
  end.

(** The body of a method that is made of calls of the wrappers and of
    steps that touch no field, as the facades of the class are: it ends
    with a value or an exception, or it calls a wrapper and goes on from
    what the call returned or threw (there may be a [try] around the call,
    as in [testConnection], or none). *)
Inductive Body : Type :=
| Done (value : JsVal)
| Fail (e : Exn)
| Invoke (c : Call) (k : Outcome JsVal -> Body).

Fixpoint run_body (b : Body) : M JsVal :=
  match b with
  | Done value => ret value
  | Fail e => throw e
  | Invoke c k => fun this => r <- perform c this ;; run_body (k (fst r)) (snd r)
  end.

(** A method that is one call of a wrapper and returns what that returns. *)
Definition wrapper (c : Call) : Body :=
  Invoke c (fun called =>
              match called with
              | Returned value => Done value
              | Threw e => Fail e
              end).

(** [listWarehouses] and [testConnection] as such bodies. *)
Definition listWarehouses : Body :=
  Invoke (Get "/api/2.0/sql/warehouses")
    (fun called =>
       match called with
       | Returned response =>
           match prop response "warehouses" with
           | inr items => Done (or_else items (JArray []))
           | inl e => Fail e
           end
       | Threw e => Fail e
       end).

Definition testConnection : Body :=
  Invoke (Get "/api/2.0/preview/scim/v2/Me")
    (fun called =>
       match called with
       | Returned _ =>
           Done (JObject [ ("connected", JBool true);
                           ("message",
                            JString "Successfully connected to Databricks workspace") ])
       | Threw error =>
           Done (JObject [ ("connected", JBool false); ("message", error_message error) ])
       end).

(** What one call leaves behind. *)
Record Step (W : Type) : Type := {
  result : Outcome JsVal;
  object : DatabricksClientImpl;
  requests : list HttpRequest;
  transport_state : W
}.

(** One call on the object [this].  What a method throws is part of its
    result, so the program itself always returns. *)
Definition run_call {W : Type} (transport : HttpRequest -> W -> FetchResult * W)
    (c : Call) (this : DatabricksClientImpl) (w : W) : Step W :=
  let r := exec transport (perform c this) w in
  match outcome r with
  | Returned (value, this') =>
      {| result := value; object := this'; requests := sent r; transport_state := world r |}
  | Threw e =>
      {| result := Threw e; object := this; requests := sent r; transport_state := world r |}
  end.

Definition run_method {W : Type} (transport : HttpRequest -> W -> FetchResult * W)
    (b : Body) (this : DatabricksClientImpl) (w : W) : Step W :=
  let r := exec transport (run_body b this) w in
  match outcome r with
  | Returned (value, this') =>
      {| result := value; object := this'; requests := sent r; transport_state := world r |}
  | Threw e =>
      {| result := Threw e; object := this; requests := sent r; transport_state := world r |}
  end.

(** What a sequence of method calls on one object leaves behind: each call
    finds the object and the transport as the call before it left them. *)
Record Trace (W : Type) : Type := {
  results : list (Outcome JsVal);
  final_object : DatabricksClientImpl;
  all_requests : list HttpRequest;
  final_state : W
}.

Fixpoint run_methods {W : Type} (transport : HttpRequest -> W -> FetchResult * W)
    (calls : list Body) (this : DatabricksClientImpl) (w : W) : Trace W :=
  match calls with
  | [] => {| results := []; final_object := this; all_requests := []; final_state := w |}
  | b :: rest =>
      let step := run_method transport b this w in
      let trace := run_methods transport rest (object W step) (transport_state W step) in
      {| results := result W step :: results W trace;
         final_object := final_object W trace;
         all_requests := (requests W step ++ all_requests W trace)%list;
         final_state := final_state W trace |}
  end.

End Methods.

Arguments result {W} s.
Arguments object {W} s.
Arguments requests {W} s.
Arguments transport_state {W} s.
Arguments results {W} t.
Arguments final_object {W} t.
Arguments all_requests {W} t.
Arguments final_state {W} t.

End Stateful.

(* ===================================================================== *)
(** ** Properties of the pipeline *)
(* ===================================================================== *)

Lemma string_nonempty_false (s : string) :
  string_nonempty s = false <-> s = EmptyString.
Proof. destruct s; simpl; split; congruence. Qed.

Lemma string_nonempty_true (s : string) :
  string_nonempty s = true <-> s <> EmptyString.
Proof. destruct s; simpl; split; congruence. Qed.

Lemma getAuthHeaders_empty (this : DatabricksClientImpl) :
  token (credentials this) = EmptyString ->
  getAuthHeaders this = inl (AuthenticationError no_credentials_message).
Proof. intros H. unfold getAuthHeaders. now rewrite H. Qed.

Lemma getAuthHeaders_token (this : DatabricksClientImpl) :
  string_nonempty (token (credentials this)) = true ->
  getAuthHeaders this = inr (bearer_headers this).
Proof. intros H. unfold getAuthHeaders. now rewrite H. Qed.

Section PipelineFacts.
Context {runtime : JsRuntime}.

Lemma request_empty_token this endpoint options :
  token (credentials this) = EmptyString ->
  request this endpoint options = Throw (AuthenticationError no_credentials_message).
Proof.
  intros H. unfold request. now rewrite (getAuthHeaders_empty this H).
Qed.

Lemma request_fetches this endpoint options :
  string_nonempty (token (credentials this)) = true ->
  request this endpoint options =
  Fetch (outbound this endpoint options)
    (fun answer =>
       bind (match answer with inl e => Throw e | inr response => Ret response end)
         (fun response => lift (interpret response))).
Proof.
  intros H. unfold request. now rewrite (getAuthHeaders_token this H).
Qed.

Lemma request_cases this endpoint options :
  (token (credentials this) = EmptyString /\
   request this endpoint options = Throw (AuthenticationError no_credentials_message))
  \/
  (string_nonempty (token (credentials this)) = true /\
   request this endpoint options =
   Fetch (outbound this endpoint options)
     (fun answer =>
        bind (match answer with inl e => Throw e | inr response => Ret response end)
          (fun response => lift (interpret response)))).
Proof.
  destruct (string_nonempty (token (credentials this))) eqn:E.
  - right. split; [reflexivity | now apply request_fetches].
  - left. apply string_nonempty_false in E. split; [assumption | now apply request_empty_token].
Qed.

Variable W : Type.
Variable transport : HttpRequest -> W -> FetchResult * W.

Lemma exec_lift (A : Type) (x : Exn + A) (w : W) :
  exec transport (lift x) w = {| outcome := outcome_of x; sent := []; world := w |}.
Proof. now destruct x. Qed.

(** A call that got an answer made exactly one request, and its outcome
    is the rejection, or what [interpret] makes of the response. *)
Lemma exec_request_answered this endpoint options w answer :
  first_answer transport (request this endpoint options) w = Some answer ->
  string_nonempty (token (credentials this)) = true /\
  exec transport (request this endpoint options) w =
  {| outcome := match answer with
                | inl e => Threw e
                | inr response => outcome_of (interpret response)
                end;
     sent := [outbound this endpoint options];
     world := snd (transport (outbound this endpoint options) w) |}.
Proof.
  destruct (request_cases this endpoint options) as [[_ E] | [T E]]; rewrite E; simpl.
  - discriminate.
  - intros H. injection H as H. split; [assumption |].
    destruct (transport (outbound this endpoint options) w) as [a w'] eqn:Et.
    simpl in H. subst a. destruct answer as [e | response]; simpl.
    + reflexivity.
    + now rewrite exec_lift.
Qed.

Lemma exec_request_unanswered this endpoint options w :
  first_answer transport (request this endpoint options) w = None ->
  token (credentials this) = EmptyString /\
  exec transport (request this endpoint options) w =
  {| outcome := Threw (AuthenticationError no_credentials_message);
     sent := [];
     world := w |}.
Proof.
  destruct (request_cases this endpoint options) as [[T E] | [_ E]]; rewrite E; simpl.
  - now split.
  - discriminate.
Qed.

End PipelineFacts.

(* --------------------------------------------------------------------- *)
(** *** Status 429 *)

Section RateLimit.
Context {runtime : JsRuntime}.
Variable W : Type.
Variable transport : HttpRequest -> W -> FetchResult * W.

(** Every response with status 429 ends the call with a [RateLimitError]
    whose second field is computed from the [Retry-After] header. *)
Lemma rate_limited this endpoint options w response :
  first_answer transport (request this endpoint options) w = Some (inr response) ->
  status response = 429 ->
  outcome (exec transport (request this endpoint options) w) =
  Threw (RateLimitError "Rate limit exceeded"
           (retry_after_seconds (Headers_get (response_headers response) "Retry-After"))).
Proof.
  intros H St. apply exec_request_answered in H as [_ ->]. simpl.
  unfold interpret. now rewrite St.
Qed.
End RateLimit.

Lemma retry_after_absent : retry_after_seconds None = int 60.
Proof. reflexivity. Qed.

Lemma retry_after_empty : retry_after_seconds (Some EmptyString) = int 60.
Proof. reflexivity. Qed.

Example retry_after_30 : retry_after_seconds (Some "30") = int 30.
Proof. reflexivity. Qed.

(** A header that is there and does not start with an integer is not
    replaced by the default. *)
Lemma retry_after_not_a_number (s : string) :
  string_nonempty s = true ->
  parseInt10 s = NaN ->
  retry_after_seconds (Some s) = NaN.
Proof. intros Hs Hp. unfold retry_after_seconds. now rewrite Hs. Qed.

(** [parseInt] reads back from its decimal numeral every integer that is a
    double, and the nearest double of any other. *)

Lemma to_double_safe_integer (n : Z) :
  Z.abs n < 2 ^ 53 -> to_double n = int n.
Proof.
  intros H. unfold to_double. apply Z.ltb_lt in H. now rewrite H.
Qed.

Example to_double_rounds_to_even :
  to_double 9007199254740993 = int 9007199254740992
  /\ to_double 9007199254740995 = int 9007199254740996
  /\ to_double (- 9007199254740993) = int (- 9007199254740992)
  /\ to_double (2 ^ 53) = int (2 ^ 53).
Proof. repeat split; vm_compute; reflexivity. Qed.

Example to_double_overflows :
  to_double (2 ^ 1024 - 2 ^ 970) = Infinity false
  /\ to_double (- 10 ^ 309) = Infinity true
  /\ to_double (2 ^ 1024 - 2 ^ 970 - 1) = int ((2 ^ 53 - 1) * 2 ^ 971).
Proof. repeat split; vm_compute; reflexivity. Qed.

Example parseInt10_beyond_the_safe_integers :
  parseInt10 "9007199254740993" = int 9007199254740992.
Proof. vm_compute. reflexivity. Qed.

Example parseInt10_reads_a_prefix :
  parseInt10 "12abc" = int 12 /\ parseInt10 "0x1F" = int 0
  /\ parseInt10 "3.9" = int 3 /\ parseInt10 "  -7 " = int (- 7)
  /\ parseInt10 "abc" = NaN /\ parseInt10 EmptyString = NaN.
Proof. repeat split; vm_compute; reflexivity. Qed.

Lemma digits_value_digit (c : ascii) (d : Z) (acc : option Z) (rest : string) :
  digit_of c = Some d ->
  digits_value acc (String c rest)
  = digits_value (Some (10 * match acc with Some a => a | None => 0 end + d)) rest.
Proof. intros H. cbn [digits_value]. now rewrite H. Qed.

Lemma digits_value_acc (d : Decimal.uint) (acc : positive) :
  digits_value (Some (Z.pos acc)) (NilEmpty.string_of_uint d)
  = Some (Z.pos (Pos.of_uint_acc d acc)).
Proof.
  revert acc.
  induction d as [| d IH | d IH | d IH | d IH | d IH | d IH | d IH | d IH | d IH | d IH];
    intros acc; cbn [NilEmpty.string_of_uint Pos.of_uint_acc]; [reflexivity | ..].
  all: erewrite digits_value_digit by reflexivity.
  all: rewrite <- IH; do 2 f_equal.
  all: match goal with |- context [Z.of_N ?n - 48] =>
         let k := eval vm_compute in (Z.of_N n - 48) in
         change (Z.of_N n - 48) with k end; lia.
Qed.

Lemma digits_value_numeral (d : Decimal.uint) (acc : option Z) :
  match acc with Some a => a = 0 | None => d <> Decimal.Nil end ->
  digits_value acc (NilEmpty.string_of_uint d) = Some (Z.of_N (Pos.of_uint d)).
Proof.
  revert acc.
  induction d as [| d IH | d IH | d IH | d IH | d IH | d IH | d IH | d IH | d IH | d IH];
    intros acc Hacc; cbn [NilEmpty.string_of_uint Pos.of_uint].
  1: { destruct acc as [a |]; [now subst a | now destruct Hacc]. }
  all: erewrite digits_value_digit by reflexivity.
  all: replace (match acc with Some a => a | None => 0 end) with 0
         by (destruct acc as [a |]; [now subst a | reflexivity]).
  all: match goal with |- context [Z.of_N ?n - 48] =>
         let k := eval vm_compute in (10 * 0 + (Z.of_N n - 48)) in
         change (10 * 0 + (Z.of_N n - 48)) with k end.
  1: { now apply (IH (Some 0)). }
  all: apply digits_value_acc.
Qed.

Lemma strip_any_none (c : ascii) (rest : string) (prefixes : list string) :
  starts_none c prefixes = true -> strip_any prefixes (String c rest) = None.
Proof.
  induction prefixes as [| p ps IH]; simpl; [reflexivity |].
  intros H. apply andb_prop in H as [Hp Hps]. rewrite (IH Hps).
  destruct p as [| a p]; [discriminate |]. simpl.
  now destruct (Ascii.eqb a c).
Qed.

Lemma skip_white_space_none (c : ascii) (rest : string) :
  starts_none c white_space = true ->
  skip_white_space (String c rest) = String c rest.
Proof.
  intros H. unfold skip_white_space. cbn [String.length skip_white_space_upto].
  now rewrite (strip_any_none c rest white_space H).
Qed.

Lemma parseInt10_numeral (d : Decimal.uint) :
  d <> Decimal.Nil ->
  parseInt10 (NilEmpty.string_of_uint d) = to_double (Z.of_N (Pos.of_uint d))
  /\ parseInt10 (String "-" (NilEmpty.string_of_uint d))
     = to_double (- Z.of_N (Pos.of_uint d)).
Proof.
  intros Hd. pose proof (digits_value_numeral d None Hd) as Hv.
  split.
  - destruct d; [now destruct Hd | ..];
      unfold parseInt10; cbn [NilEmpty.string_of_uint] in *;
      rewrite skip_white_space_none by reflexivity; cbv iota beta; now rewrite Hv.
  - unfold parseInt10. rewrite skip_white_space_none by reflexivity.
    cbv iota beta. now rewrite Hv.
Qed.

Lemma parseInt10_string_of_Z (n : Z) : parseInt10 (string_of_Z n) = to_double n.
Proof.
  destruct n as [| p | p]; [reflexivity | |];
    unfold string_of_Z, Z.to_int, NilZero.string_of_int, NilZero.string_of_uint;
    pose proof (Unsigned.to_uint_nonnil p) as Hp;
    destruct (parseInt10_numeral (Pos.to_uint p) Hp) as [H1 H2];
    rewrite Unsigned.of_to in H1, H2;
    destruct (Pos.to_uint p) eqn:E; try (now destruct Hp); assumption.
Qed.

Lemma to_double_not_NaN (n : Z) : isNaN (to_double n) = false.
Proof.
  unfold to_double. destruct (Z.abs n <? 2 ^ 53)%Z; [reflexivity |].
  match goal with |- context [(2 ^ 1024 <=? ?v)%Z] => destruct (2 ^ 1024 <=? v)%Z end;
    reflexivity.
Qed.

Lemma digits_value_started (a : Z) (s : string) : digits_value (Some a) s <> None.
Proof.
  revert a. induction s as [| c rest IH]; intros a; cbn [digits_value]; [discriminate |].
  destruct (digit_of c); [apply IH | discriminate].
Qed.

Lemma parseInt10_NaN_iff (s : string) :
  parseInt10 s = NaN <-> integer_prefix s = false.
Proof.
  unfold parseInt10, integer_prefix.
  set (s1 := skip_white_space s).
  assert (H : forall (negative : bool) (s2 : string),
             match digits_value None s2 with
             | None => NaN
             | Some n => to_double (if negative then - n else n)
             end = NaN
             <-> match s2 with
                 | EmptyString => false
                 | String c _ => match digit_of c with Some _ => true | None => false end
                 end = false).
  { intros negative [| c rest]; cbn [digits_value]; [tauto |].
    destruct (digit_of c) as [d |]; [| tauto].
    destruct (digits_value (Some (10 * 0 + d)) rest) as [v |] eqn:E.
    - split; [| discriminate]. intros Hnan.
      pose proof (to_double_not_NaN (if negative then - v else v)) as Hd.
      rewrite Hnan in Hd. discriminate.
    - now destruct (digits_value_started _ _ E). }
  destruct s1 as [| c rest]; [apply (H false) |].
  destruct c as [[] [] [] [] [] [] [] []];
    first [apply (H false) | apply (H true)].
Qed.

Lemma parseInt10_safe_integer (n : Z) :
  Z.abs n < 2 ^ 53 -> parseInt10 (string_of_Z n) = int n.
Proof.
  intros H. rewrite parseInt10_string_of_Z. now apply to_double_safe_integer.
Qed.

Lemma string_of_Z_nonempty (n : Z) : string_nonempty (string_of_Z n) = true.
Proof.
  destruct n as [| p | p]; try reflexivity;
    unfold string_of_Z, Z.to_int, NilZero.string_of_int, NilZero.string_of_uint;
    pose proof (Unsigned.to_uint_nonnil p) as Hp;
    destruct (Pos.to_uint p); try (now destruct Hp); reflexivity.
Qed.

(** A header that is the decimal numeral of an integer gives that integer
    as a Number: the integer itself when it is a safe integer. *)
Lemma retry_after_integer (n : Z) :
  retry_after_seconds (Some (string_of_Z n)) = to_double n
  /\ (Z.abs n < 2 ^ 53 -> retry_after_seconds (Some (string_of_Z n)) = int n).
Proof.
  assert (E : retry_after_seconds (Some (string_of_Z n)) = to_double n).
  { unfold retry_after_seconds.
    now rewrite parseInt10_string_of_Z, string_of_Z_nonempty. }
  split; [exact E |]. intros H. rewrite E. now apply to_double_safe_integer.
Qed.

(** The same text goes to the default in [getEnvNumber], which tests its
    parse with [Number.isNaN]. *)
Example getEnvNumber_defaults_on_NaN :
  getEnvNumber (Some "Wed, 21 Oct 2015 07:28:00 GMT") (int 60) = int 60
  /\ retry_after_seconds (Some "Wed, 21 Oct 2015 07:28:00 GMT") = NaN.
Proof. split; reflexivity. Qed.

(** C1 (the code at the failing input).  A 429 response whose
    [Retry-After] header is an HTTP date, which is not parseable as an
    integer, ends the call with [RateLimitError] whose [retryAfterSeconds]
    is [NaN], not 60. *)
Theorem C1_retry_after_date_is_NaN :
  forall (runtime : JsRuntime),
    let this := createDatabricksClient
                  {| host := "https://adb-1.azuredatabricks.net";
                     token := "dapi-secret";
                     warehouseId := None |} in
    let response := {| status := 429;
                       response_headers := [("Retry-After", "Wed, 21 Oct 2015 07:28:00 GMT")];
                       text := EmptyString |} in
    outcome (exec (stub (inr response)) (get this "/api/2.0/clusters/list") 0%nat)
    = Threw (RateLimitError "Rate limit exceeded" NaN)
    /\ NaN <> int 60.
Proof.
  intros runtime this response. split.
  - unfold get. rewrite (rate_limited nat (stub (inr response)) this _ _ 0%nat response).
    + reflexivity.
    + reflexivity.
    + reflexivity.
  - discriminate.
Qed.

(* --------------------------------------------------------------------- *)
(** *** Status 401 and 403 *)

(** C2.  Every response with status 401 or 403 ends the call with an
    [AuthenticationError] whose message is the fixed text that tells the
    caller to check the personal access token; two such responses, whatever
    their bodies and headers, end their calls with the same error. *)
Theorem C2_authentication_error_is_generic :
  forall (runtime : JsRuntime) (W1 W2 : Type)
         (transport1 : HttpRequest -> W1 -> FetchResult * W1)
         (transport2 : HttpRequest -> W2 -> FetchResult * W2)
         this1 endpoint1 options1 w1 response1
         this2 endpoint2 options2 w2 response2,
    first_answer transport1 (request this1 endpoint1 options1) w1 = Some (inr response1) ->
    first_answer transport2 (request this2 endpoint2 options2) w2 = Some (inr response2) ->
    status response1 = 401 \/ status response1 = 403 ->
    status response2 = 401 \/ status response2 = 403 ->
    outcome (exec transport1 (request this1 endpoint1 options1) w1)
    = Threw (AuthenticationError
               "Authentication failed. Check your Databricks personal access token.")
    /\ outcome (exec transport2 (request this2 endpoint2 options2) w2)
       = outcome (exec transport1 (request this1 endpoint1 options1) w1).
Proof.
  intros runtime W1 W2 transport1 transport2 this1 endpoint1 options1 w1 response1
         this2 endpoint2 options2 w2 response2 H1 H2 S1 S2.
  apply exec_request_answered in H1 as [_ ->].
  apply exec_request_answered in H2 as [_ ->].
  simpl. unfold interpret.
  destruct S1 as [-> | ->], S2 as [-> | ->]; simpl; split; reflexivity.
Qed.

Lemma C2_authentication_error_is_generic_witness :
  outcome (exec (stub (inr (Sample.respond 401 "Invalid access token dapi-secret")))
             (@request Reference.runtime Sample.client "/api/2.0/clusters/list" Sample.get_options)
             0%nat)
  = Threw (AuthenticationError
             "Authentication failed. Check your Databricks personal access token.")
  /\ outcome (exec (stub (inr (Sample.respond 403 "User is not authorized")))
               (@request Reference.runtime Sample.client "/api/2.0/sql/warehouses" Sample.get_options)
               5%nat)
     = outcome (exec (stub (inr (Sample.respond 401 "Invalid access token dapi-secret")))
                  (@request Reference.runtime Sample.client "/api/2.0/clusters/list" Sample.get_options)
                  0%nat).
Proof.
  apply (C2_authentication_error_is_generic Reference.runtime nat nat)
    with (response1 := Sample.respond 401 "Invalid access token dapi-secret")
         (response2 := Sample.respond 403 "User is not authorized").
  - reflexivity.
  - reflexivity.
  - left. reflexivity.
  - right. reflexivity.
Defined.

(* --------------------------------------------------------------------- *)
(** *** Authorization *)

Section Authorize.
Context {runtime : JsRuntime}.
Variable W : Type.
Variable transport : HttpRequest -> W -> FetchResult * W.

Lemma exec_request_empty_token this endpoint options w :
  token (credentials this) = EmptyString ->
  exec transport (request this endpoint options) w =
  {| outcome := Threw (AuthenticationError no_credentials_message);
     sent := [];
     world := w |}.
Proof. intros H. now rewrite (request_empty_token this endpoint options H). Qed.

Lemma exec_request_sends_one this endpoint options w :
  token (credentials this) <> EmptyString ->
  sent (exec transport (request this endpoint options) w) = [outbound this endpoint options].
Proof.
  intros H. apply string_nonempty_true in H.
  rewrite (request_fetches this endpoint options H). simpl.
  destruct (transport (outbound this endpoint options) w) as [[e | response] w']; simpl.
  - reflexivity.
  - now rewrite exec_lift.
Qed.

Lemma wrapper_calls_are_requests this endpoint payload call options :
  In (call, options) (wrapper_calls this endpoint payload) ->
  call = request this endpoint options /\ init_headers options = None.
Proof.
  simpl. intros [H | [H | [H | [H | [H | []]]]]]; injection H as <- <-; now split.
Qed.

End Authorize.

(** C3.  With an empty token the call fails with [AuthenticationError]
    and the transport is never invoked: nothing is sent and the transport's
    state is untouched.  With a token that is not empty, a call that sets no
    headers of its own, as all five wrappers do, sends one request to
    [baseUrl ++ endpoint] whose headers are [Authorization: Bearer <token>]
    and [Content-Type: application/json]. *)
Theorem C3_token_gate_and_headers :
  forall (runtime : JsRuntime) (W : Type)
         (transport : HttpRequest -> W -> FetchResult * W)
         this endpoint options w,
    (token (credentials this) = EmptyString ->
     exec transport (request this endpoint options) w =
     {| outcome := Threw (AuthenticationError
                            "No credentials provided. Include X-Databricks-Token header.");
        sent := [];
        world := w |})
    /\ (token (credentials this) <> EmptyString ->
        init_headers options = None ->
        exists req,
          sent (exec transport (request this endpoint options) w) = [req]
          /\ url req = baseUrl this ++ endpoint
          /\ headers req = [ ("Authorization", "Bearer " ++ token (credentials this));
                             ("Content-Type", "application/json") ])
    /\ (forall payload call wrapper_options,
          In (call, wrapper_options) (wrapper_calls this endpoint payload) ->
          call = request this endpoint wrapper_options
          /\ init_headers wrapper_options = None).
Proof.
  intros runtime W transport this endpoint options w. split; [| split].
  - intros H. now apply exec_request_empty_token.
  - intros H Hh. exists (outbound this endpoint options). split; [| split].
    + now apply exec_request_sends_one.
    + reflexivity.
    + unfold outbound, fetch_arguments. simpl. now rewrite Hh.
  - intros payload call wrapper_options. apply wrapper_calls_are_requests.
Qed.

Lemma C3_token_gate_and_headers_witness :
  exec (stub (inr (Sample.respond 200 EmptyString)))
    (@request Reference.runtime (createDatabricksClient Sample.tenant_without_token)
       "/api/2.0/clusters/list" Sample.get_options) 0%nat
  = {| outcome := Threw (AuthenticationError
                           "No credentials provided. Include X-Databricks-Token header.");
       sent := [];
       world := 0%nat |}
  /\ exists req,
       sent (exec (stub (inr (Sample.respond 200 EmptyString)))
               (@request Reference.runtime Sample.client
                  "/api/2.0/clusters/list" Sample.get_options) 0%nat) = [req]
       /\ url req = "https://example.com" ++ "/api/2.0/clusters/list"
       /\ headers req = [ ("Authorization", "Bearer dapi-secret");
                          ("Content-Type", "application/json") ].
Proof.
  split.
  - apply (proj1 (C3_token_gate_and_headers Reference.runtime nat
                    (stub (inr (Sample.respond 200 EmptyString)))
                    (createDatabricksClient Sample.tenant_without_token)
                    "/api/2.0/clusters/list" Sample.get_options 0%nat)).
    reflexivity.
  - apply (proj1 (proj2 (C3_token_gate_and_headers Reference.runtime nat
                    (stub (inr (Sample.respond 200 EmptyString)))
                    Sample.client
                    "/api/2.0/clusters/list" Sample.get_options 0%nat))).
    + discriminate.
    + reflexivity.
Defined.

(* --------------------------------------------------------------------- *)
(** *** Host normalization *)

Lemma append_assoc (a b c : string) : (a ++ b) ++ c = a ++ (b ++ c).
Proof. induction a as [| x a IH]; simpl; [reflexivity | now rewrite IH]. Qed.

Lemma ends_with_iff (suffix s : string) :
  ends_with suffix s = true <-> exists h, s = h ++ suffix.
Proof.
  induction s as [| c s IH]; simpl.
  - rewrite orb_false_r, String.eqb_eq. split.
    + intros ->. now exists EmptyString.
    + intros [[| x h] H]; simpl in H; [now symmetry | discriminate].
  - rewrite orb_true_iff, String.eqb_eq, IH. split.
    + intros [-> | [h ->]]; [now exists EmptyString | now exists (String c h)].
    + intros [[| x h] H]; simpl in H.
      * left. now symmetry.
      * injection H as -> ->. right. now exists h.
Qed.

Lemma replace_trailing_slash_app (h : string) :
  replace_trailing_slash (h ++ "/") = h.
Proof.
  induction h as [| c h IH]; simpl; [reflexivity |].
  rewrite IH. now destruct h.
Qed.

Lemma replace_trailing_slash_same (s : string) :
  ends_with "/" s = false -> replace_trailing_slash s = s.
Proof.
  induction s as [| c s IH]; simpl; [reflexivity |].
  intros H. apply orb_false_iff in H as [H1 H2].
  destruct s as [| d s]; [| now rewrite (IH H2)].
  destruct (Ascii.eqb_spec c "/") as [-> | _]; [discriminate | reflexivity].
Qed.

(** After the replacement a slash is still last only if the host ended in
    two of them. *)
Lemma replace_trailing_slash_clean (s : string) :
  ends_with "//" s = false -> ends_with "/" (replace_trailing_slash s) = false.
Proof.
  intros H.
  destruct (ends_with "/" (replace_trailing_slash s)) eqn:E; [| reflexivity].
  apply ends_with_iff in E as [h E].
  destruct (ends_with "/" s) eqn:Es.
  - apply ends_with_iff in Es as [h' ->].
    rewrite replace_trailing_slash_app in E. subst h'.
    assert (ends_with "//" ((h ++ "/") ++ "/") = true) as C.
    { apply ends_with_iff. exists h. now rewrite append_assoc. }
    congruence.
  - rewrite (replace_trailing_slash_same s Es) in E.
    assert (ends_with "/" s = true) as C by (apply ends_with_iff; now exists h).
    congruence.
Qed.

Section OneRequest.
Context {runtime : JsRuntime}.
Variable W : Type.
Variable transport : HttpRequest -> W -> FetchResult * W.

(** A call sends nothing or the one request [outbound] describes. *)
Lemma sent_request this endpoint options w :
  sent (exec transport (request this endpoint options) w) = []
  \/ sent (exec transport (request this endpoint options) w)
     = [outbound this endpoint options].
Proof.
  destruct (token (credentials this)) eqn:E.
  - left. now rewrite exec_request_empty_token.
  - right. apply exec_request_sends_one. rewrite E. discriminate.
Qed.
End OneRequest.

(** C4 (as stated, refuted).  For a host that ends in two slashes the
    normalized base URL still ends in a slash, and so the outbound URL has
    two slashes before the path. *)
Lemma C4_counterexample_two_slashes :
  baseUrl (createDatabricksClient Sample.tenant_with_two_slashes) = "https://example.com/"
  /\ ends_with "/" (baseUrl (createDatabricksClient Sample.tenant_with_two_slashes)) = true
  /\ map url (sent (exec (stub (inr (Sample.respond 200 EmptyString)))
                      (@get Reference.runtime
                         (createDatabricksClient Sample.tenant_with_two_slashes)
                         "/api/2.0/clusters/list") 0%nat))
     = ["https://example.com//api/2.0/clusters/list"].
Proof. repeat split; vm_compute; reflexivity. Qed.

(** C4 (amended).  Client construction removes exactly one trailing slash:
    a host [h ++ "/"] gives the base URL [h] and a host without a trailing
    slash is kept as it is.  So for every host that does not end in two
    slashes the base URL has no trailing slash.  Every outbound URL is the
    base URL followed by the path, with no further change, and the hosts
    [https://example.com/] and [https://example.com] both give the URL
    [https://example.com] followed by the path. *)
Theorem C4_one_trailing_slash_removed :
  forall (creds : TenantCredentials),
    (forall h, host creds = h ++ "/" -> baseUrl (createDatabricksClient creds) = h)
    /\ (ends_with "/" (host creds) = false ->
        baseUrl (createDatabricksClient creds) = host creds)
    /\ (ends_with "//" (host creds) = false ->
        ends_with "/" (baseUrl (createDatabricksClient creds)) = false)
    /\ (forall (runtime : JsRuntime) (W : Type)
               (transport : HttpRequest -> W -> FetchResult * W) endpoint options w req,
          In req (sent (exec transport
                          (request (createDatabricksClient creds) endpoint options) w)) ->
          url req = baseUrl (createDatabricksClient creds) ++ endpoint)
    /\ (forall tok wid endpoint,
          baseUrl (createDatabricksClient
                     {| host := "https://example.com/"; token := tok; warehouseId := wid |})
            ++ endpoint = "https://example.com" ++ endpoint
          /\ baseUrl (createDatabricksClient
                        {| host := "https://example.com"; token := tok; warehouseId := wid |})
               ++ endpoint = "https://example.com" ++ endpoint).
Proof.
  intros creds. unfold createDatabricksClient. simpl. repeat split.
  - intros h ->. apply replace_trailing_slash_app.
  - apply replace_trailing_slash_same.
  - apply replace_trailing_slash_clean.
  - intros runtime W transport endpoint options w req Hin.
    destruct (sent_request W transport
                {| credentials := creds; baseUrl := replace_trailing_slash (host creds) |}
                endpoint options w) as [E | E]; rewrite E in Hin; simpl in Hin.
    + contradiction.
    + destruct Hin as [<- | []]. reflexivity.
Qed.

Lemma C4_one_trailing_slash_removed_witness :
  baseUrl (createDatabricksClient Sample.tenant) = "https://example.com"
  /\ baseUrl (createDatabricksClient Sample.tenant_without_slash) = "https://example.com"
  /\ ends_with "/" (baseUrl (createDatabricksClient Sample.tenant)) = false.
Proof.
  split; [| split].
  - apply (proj1 (C4_one_trailing_slash_removed Sample.tenant)). reflexivity.
  - apply (proj1 (proj2 (C4_one_trailing_slash_removed Sample.tenant_without_slash))).
    reflexivity.
  - apply (proj1 (proj2 (proj2 (C4_one_trailing_slash_removed Sample.tenant)))).
    reflexivity.
Defined.

(* --------------------------------------------------------------------- *)
(** *** Other failures *)

Section ApiError.
Context {runtime : JsRuntime}.

Lemma error_details_unparsed errorBody st e :
  JSON_parse errorBody = inl e ->
  error_details errorBody st = (generic_message st, JUndefined).
Proof. intros H. unfold error_details. now rewrite H. Qed.

Lemma error_details_object errorBody st fields :
  JSON_parse errorBody = inr (JObject fields) ->
  error_details errorBody st =
  (or_else (own fields "message") (or_else (own fields "error") (generic_message st)),
   own fields "error_code").
Proof.
  intros H. unfold error_details, message_or_error. rewrite H. simpl.
  unfold or_else. now destruct (truthy (own fields "message")).
Qed.

(** [null] parses, and reading its [message] throws inside the [try]. *)
Lemma error_details_null errorBody st :
  JSON_parse errorBody = inr JNull ->
  error_details errorBody st = (generic_message st, JUndefined).
Proof. intros H. unfold error_details. now rewrite H. Qed.

Lemma error_details_scalar errorBody st v :
  JSON_parse errorBody = inr v ->
  (forall fields, v <> JObject fields) ->
  error_details errorBody st = (generic_message st, JUndefined).
Proof.
  intros H Hv. unfold error_details, message_or_error. rewrite H.
  destruct v; try reflexivity. now destruct (Hv fields).
Qed.

Lemma interpret_other_failure response :
  ok response = false ->
  status response <> 429 -> status response <> 401 -> status response <> 403 ->
  interpret response =
  inl (DatabricksApiError (fst (error_details (text response) (status response)))
         (status response)
         (snd (error_details (text response) (status response)))).
Proof.
  intros Hok H429 H401 H403. unfold interpret.
  apply Z.eqb_neq in H429, H401, H403. rewrite H429, H401, H403, Hok. simpl.
  now destruct (error_details (text response) (status response)).
Qed.

End ApiError.

(** C5.  Every response whose status is outside 200..299 and is not 429,
    401 or 403 ends the call with a [DatabricksApiError] that carries the
    response status.  When the body parses to a JSON object, the message is
    the object's [message] field, else (that field being absent or empty)
    its [error] field, else the generic text, and the code is its
    [error_code] field.  When the body does not parse, the message is
    ["API error: <status>"] and the code is [undefined]; the same holds when
    it parses to something that is not an object. *)
Theorem C5_other_failures_become_api_errors :
  forall (runtime : JsRuntime) (W : Type)
         (transport : HttpRequest -> W -> FetchResult * W)
         this endpoint options w response,
    first_answer transport (request this endpoint options) w = Some (inr response) ->
    ok response = false ->
    status response <> 429 -> status response <> 401 -> status response <> 403 ->
    exists message code,
      outcome (exec transport (request this endpoint options) w)
      = Threw (DatabricksApiError message (status response) code)
      /\ (forall fields,
            JSON_parse (text response) = inr (JObject fields) ->
            (truthy (own fields "message") = true -> message = own fields "message")
            /\ (truthy (own fields "message") = false ->
                truthy (own fields "error") = true -> message = own fields "error")
            /\ (truthy (own fields "message") = false ->
                truthy (own fields "error") = false ->
                message = JString ("API error: " ++ string_of_Z (status response)))
            /\ code = own fields "error_code")
      /\ (forall parse_error,
            JSON_parse (text response) = inl parse_error ->
            message = JString ("API error: " ++ string_of_Z (status response))
            /\ code = JUndefined)
      /\ (forall v,
            JSON_parse (text response) = inr v ->
            (forall fields, v <> JObject fields) ->
            message = JString ("API error: " ++ string_of_Z (status response))
            /\ code = JUndefined).
Proof.
  intros runtime W transport this endpoint options w response H Hok H429 H401 H403.
  apply exec_request_answered in H as [_ ->]. simpl.
  rewrite (interpret_other_failure response Hok H429 H401 H403). simpl.
  eexists. eexists. split; [reflexivity |]. split; [| split].
  - intros fields Hp. rewrite (error_details_object _ _ fields Hp). simpl.
    unfold or_else. repeat split.
    + now intros ->.
    + now intros -> ->.
    + now intros -> ->.
  - intros e Hp. now rewrite (error_details_unparsed _ _ e Hp).
  - intros v Hp Hv. now rewrite (error_details_scalar _ _ v Hp Hv).
Qed.

Lemma C5_other_failures_become_api_errors_witness :
  exists message code,
    outcome (exec (stub (inr (Sample.respond 500 Sample.failure_json)))
               (@request Reference.runtime Sample.client "/api/2.1/jobs/list"
                  Sample.get_options) 0%nat)
    = Threw (DatabricksApiError message 500 code)
    /\ message = JString "internal failure"
    /\ code = JString "E1".
Proof.
  destruct (C5_other_failures_become_api_errors Reference.runtime nat
              (stub (inr (Sample.respond 500 Sample.failure_json)))
              Sample.client "/api/2.1/jobs/list" Sample.get_options 0%nat
              (Sample.respond 500 Sample.failure_json))
    as (message & code & Hout & Hobject & _);
    [reflexivity | reflexivity | discriminate | discriminate | discriminate |].
  exists message, code. split; [exact Hout |].
  destruct (Hobject [("message", JString "internal failure"); ("error_code", JString "E1")])
    as (Hm & _ & _ & Hc); [vm_compute; reflexivity |].
  split; [apply Hm; reflexivity | exact Hc].
Defined.

(** The two examples of the specification, run on the reference runtime. *)
Example api_error_with_json_body :
  outcome (exec (stub (inr (Sample.respond 500 Sample.failure_json)))
             (@request Reference.runtime Sample.client "/api/2.1/jobs/list"
                Sample.get_options) 0%nat)
  = Threw (DatabricksApiError (JString "internal failure") 500 (JString "E1")).
Proof. vm_compute. reflexivity. Qed.

Example api_error_with_text_body :
  outcome (exec (stub (inr (Sample.respond 500 "oops")))
             (@request Reference.runtime Sample.client "/api/2.1/jobs/list"
                Sample.get_options) 0%nat)
  = Threw (DatabricksApiError (JString "API error: 500") 500 JUndefined).
Proof. vm_compute. reflexivity. Qed.

(* --------------------------------------------------------------------- *)
(** *** Success responses *)

Section Success.
Context {runtime : JsRuntime}.

Lemma ok_not_failure response :
  ok response = true ->
  (status response =? 429)%Z = false
  /\ (status response =? 401)%Z = false
  /\ (status response =? 403)%Z = false.
Proof.
  unfold ok. intros H. apply andb_prop in H as [H1 H2].
  apply Z.leb_le in H1, H2. repeat split; apply Z.eqb_neq; lia.
Qed.

Lemma interpret_no_content response :
  status response = 204 -> interpret response = inr JUndefined.
Proof. intros H. unfold interpret, ok. now rewrite H. Qed.

(** A 2xx response other than 204: the body is absent, or it is parsed. *)
Lemma interpret_success response :
  ok response = true ->
  status response <> 204 ->
  interpret response =
  if negb (string_nonempty (text response)) then inr JUndefined
  else match JSON_parse (text response) with
       | inl parse_error => inl (SyntaxError parse_error)
       | inr value => inr value
       end.
Proof.
  intros Hok H204. unfold interpret.
  destruct (ok_not_failure response Hok) as (-> & -> & ->).
  rewrite Hok. apply Z.eqb_neq in H204. now rewrite H204.
Qed.

End Success.

Example no_content_returns_undefined :
  outcome (exec (stub (inr (Sample.respond 204 "ignored")))
             (@request Reference.runtime Sample.client "/api/2.0/clusters/delete"
                Sample.get_options) 0%nat)
  = Returned JUndefined.
Proof. vm_compute. reflexivity. Qed.

Example empty_body_returns_undefined :
  outcome (exec (stub (inr (Sample.respond 200 EmptyString)))
             (@request Reference.runtime Sample.client "/api/2.0/clusters/list"
                Sample.get_options) 0%nat)
  = Returned JUndefined.
Proof. vm_compute. reflexivity. Qed.

(** C6.  A response with a status in 200..299 other than 204 whose body is
    not empty and does not parse as JSON ends the call with the
    [SyntaxError] that [JSON.parse] threw, unchanged: the call does not
    return a value, and the error is none of [AuthenticationError],
    [RateLimitError] and [DatabricksApiError]. *)
Theorem C6_parse_failure_propagates :
  forall (runtime : JsRuntime) (W : Type)
         (transport : HttpRequest -> W -> FetchResult * W)
         this endpoint options w response parse_error,
    first_answer transport (request this endpoint options) w = Some (inr response) ->
    ok response = true ->
    status response <> 204 ->
    text response <> EmptyString ->
    JSON_parse (text response) = inl parse_error ->
    outcome (exec transport (request this endpoint options) w)
    = Threw (SyntaxError parse_error)
    /\ normalized (SyntaxError parse_error) = false
    /\ (forall value,
          outcome (exec transport (request this endpoint options) w) <> Returned value).
Proof.
  intros runtime W transport this endpoint options w response parse_error
         H Hok H204 Htext Hparse.
  apply exec_request_answered in H as [_ ->]. simpl.
  rewrite (interpret_success response Hok H204), Hparse.
  apply string_nonempty_true in Htext. rewrite Htext. simpl.
  repeat split. discriminate.
Qed.

Lemma C6_parse_failure_propagates_witness :
  outcome (exec (stub (inr (Sample.respond 200 "oops")))
             (@request Reference.runtime Sample.client "/api/2.0/clusters/list"
                Sample.get_options) 0%nat)
  = Threw (SyntaxError Reference.syntax_error_message)
  /\ normalized (SyntaxError Reference.syntax_error_message) = false
  /\ (forall value,
        outcome (exec (stub (inr (Sample.respond 200 "oops")))
                   (@request Reference.runtime Sample.client "/api/2.0/clusters/list"
                      Sample.get_options) 0%nat) <> Returned value).
Proof.
  apply (C6_parse_failure_propagates Reference.runtime nat
           (stub (inr (Sample.respond 200 "oops")))
           Sample.client "/api/2.0/clusters/list" Sample.get_options 0%nat
           (Sample.respond 200 "oops") Reference.syntax_error_message).
  - reflexivity.
  - reflexivity.
  - discriminate.
  - discriminate.
  - vm_compute. reflexivity.
Defined.

(* --------------------------------------------------------------------- *)
(** *** Request bodies *)

Lemma falsy_values (v : JsVal) :
  truthy v = false <->
  v = JUndefined \/ v = JNull \/ v = JBool false \/ v = JNumber NaN
  \/ (exists e, v = JNumber (Num 0 e)) \/ v = JString EmptyString.
Proof.
  split.
  - destruct v as [| | [|] | [| negative | m e] | [| c s] | |]; simpl; intros H;
      try discriminate; auto 6.
    apply negb_false_iff, Z.eqb_eq in H. subst m. do 4 right. left. now exists e.
  - intros [-> | [-> | [-> | [-> | [[e ->] | ->]]]]]; reflexivity.
Qed.

(** C7 (as stated, refuted).  The payloads [false] and [0] are neither
    empty nor undefined and have the JSON encodings [false] and [0], yet
    [post] sends no body for them. *)
Lemma C7_counterexample_false_and_zero :
  @JSON_stringify Reference.runtime (JBool false) = Some "false"
  /\ map body (sent (exec (stub (inr (Sample.respond 200 EmptyString)))
                       (@post Reference.runtime Sample.client "/api/2.1/jobs/run-now"
                          (JBool false)) 0%nat)) = [None]
  /\ @JSON_stringify Reference.runtime (JNumber (int 0)) = Some "0"
  /\ map body (sent (exec (stub (inr (Sample.respond 200 EmptyString)))
                       (@post Reference.runtime Sample.client "/api/2.1/jobs/run-now"
                          (JNumber (int 0))) 0%nat)) = [None].
Proof. repeat split; vm_compute; reflexivity. Qed.

(** C7 (amended).  Each of [post], [put], [patch] and [delete] sends one
    request; it has no body at all when the payload is falsy ([undefined],
    [null], [false], [0], [NaN] or the empty string), and for every other
    payload, empty objects and arrays included, its body is exactly
    [JSON.stringify(payload)]. *)
Theorem C7_body_follows_truthiness :
  forall (runtime : JsRuntime) (W : Type)
         (transport : HttpRequest -> W -> FetchResult * W)
         this endpoint payload w,
    token (credentials this) <> EmptyString ->
    (forall call,
       In call [ post this endpoint payload; put this endpoint payload;
                 patch this endpoint payload; delete this endpoint payload ] ->
       exists req,
         sent (exec transport call w) = [req]
         /\ (truthy payload = false -> body req = None)
         /\ (truthy payload = true -> body req = JSON_stringify payload))
    /\ (truthy payload = false <->
        payload = JUndefined \/ payload = JNull \/ payload = JBool false
        \/ payload = JNumber NaN \/ (exists e, payload = JNumber (Num 0 e))
        \/ payload = JString EmptyString).
Proof.
  intros runtime W transport this endpoint payload w Htoken.
  split; [| apply falsy_values].
  intros call Hin. simpl in Hin.
  destruct Hin as [<- | [<- | [<- | [<- | []]]]];
    (eexists; split; [apply exec_request_sends_one; exact Htoken |]);
    simpl; unfold encode_body; split; intros ->; reflexivity.
Qed.

Lemma C7_body_follows_truthiness_witness :
  exists req,
    sent (exec (stub (inr (Sample.respond 200 EmptyString)))
            (@post Reference.runtime Sample.client "/api/2.1/jobs/run-now" (JObject []))
            0%nat) = [req]
    /\ (truthy (JObject []) = false -> body req = None)
    /\ (truthy (JObject []) = true ->
        body req = @JSON_stringify Reference.runtime (JObject [])).
Proof.
  apply (proj1 (C7_body_follows_truthiness Reference.runtime nat
                  (stub (inr (Sample.respond 200 EmptyString)))
                  Sample.client "/api/2.1/jobs/run-now" (JObject []) 0%nat
                  ltac:(discriminate))).
  left. reflexivity.
Defined.

Example post_without_payload_sends_no_body :
  map body (sent (exec (stub (inr (Sample.respond 200 EmptyString)))
                    (@post Reference.runtime Sample.client
                       "/api/2.0/sql/warehouses/w1/start" JUndefined) 0%nat)) = [None].
Proof. vm_compute. reflexivity. Qed.

Example post_with_empty_object_sends_braces :
  map body (sent (exec (stub (inr (Sample.respond 200 EmptyString)))
                    (@post Reference.runtime Sample.client
                       "/api/2.1/jobs/run-now" (JObject [])) 0%nat)) = [Some "{}"].
Proof. vm_compute. reflexivity. Qed.

(* --------------------------------------------------------------------- *)
(** *** List facades *)

Section Sequencing.
Variable W : Type.
Variable transport : HttpRequest -> W -> FetchResult * W.

(** Running [p] and then [f] on its value; a throw of [p] skips [f]. *)
Lemma exec_bind (A B : Type) (p : Prog A) (f : A -> Prog B) (w : W) :
  exec transport (bind p f) w =
  match outcome (exec transport p w) with
  | Returned a =>
      {| outcome := outcome (exec transport (f a) (world (exec transport p w)));
         sent := sent (exec transport p w)
                   ++ sent (exec transport (f a) (world (exec transport p w)));
         world := world (exec transport (f a) (world (exec transport p w))) |}
  | Threw e =>
      {| outcome := Threw e;
         sent := sent (exec transport p w);
         world := world (exec transport p w) |}
  end.
Proof.
  revert w. induction p as [a | e | r k IH]; intros w; simpl.
  - now destruct (exec transport (f a) w).
  - reflexivity.
  - destruct (transport r w) as [answer w']. rewrite IH.
    now destruct (outcome (exec transport (k answer) w')).
Qed.

Lemma first_answer_bind_fetch (A B : Type) (p : Prog A) (f : A -> Prog B) (w : W) answer :
  (forall a, p <> Ret a) ->
  first_answer transport (bind p f) w = Some answer ->
  first_answer transport p w = Some answer.
Proof.
  intros Hp. destruct p as [a | e | r k]; simpl.
  - now destruct (Hp a).
  - discriminate.
  - trivial.
Qed.
End Sequencing.

Section Facades.
Context {runtime : JsRuntime}.
Variable W : Type.
Variable transport : HttpRequest -> W -> FetchResult * W.

Lemma request_not_ret this endpoint options a :
  request this endpoint options <> Ret a.
Proof.
  destruct (request_cases this endpoint options) as [[_ E] | [_ E]];
    rewrite E; discriminate.
Qed.

Lemma list_facades_shape this a call endpoint key :
  In (call, (endpoint, key)) (list_facades this a) ->
  call = bind (get this endpoint) (unwrap key).
Proof.
  unfold list_facades. intros H. cbn [In] in H.
  repeat (destruct H as [H | H]; [injection H as <- <- <-; reflexivity |]).
  destruct H.
Qed.

Lemma list_facades_length this a : length (list_facades this a) = 16%nat.
Proof. reflexivity. Qed.

(** A facade whose request was answered by a response that [interpret]
    accepts: what it returns is decided by the property read. *)
Lemma exec_facade this endpoint key w response v :
  first_answer transport (bind (get this endpoint) (unwrap key)) w = Some (inr response) ->
  interpret response = inr v ->
  outcome (exec transport (bind (get this endpoint) (unwrap key)) w) =
  match prop v key with
  | inl e => Threw e
  | inr items => Returned (or_else items (JArray []))
  end.
Proof.
  intros H Hv. unfold get in *.
  apply first_answer_bind_fetch in H; [| intros a; apply request_not_ret].
  rewrite exec_bind.
  apply exec_request_answered in H as [_ ->]. simpl. rewrite Hv. simpl.
  unfold unwrap. now destruct (prop v key).
Qed.
End Facades.

(** C8 (as stated, refuted).  The body [null] of a 200 response decodes to
    [null], in which the envelope key is absent; [listWarehouses] then does
    not return the empty sequence but throws a [TypeError]. *)
Lemma C8_counterexample_null_body :
  outcome (exec (stub (inr (Sample.respond 200 "null")))
             (@listWarehouses Reference.runtime Sample.client) 0%nat)
  = Threw (TypeError "Cannot read properties of null (reading 'warehouses')")
  /\ @interpret Reference.runtime (Sample.respond 200 "null") = inr JNull.
Proof. split; vm_compute; reflexivity. Qed.

(** C8 (amended).  For each of the sixteen list facades and every success
    response that the pipeline decodes to a value other than [null] and
    other than [undefined] -- [undefined] being what the pipeline returns
    for a response of status 204 or with an empty body, which has nothing
    to decode: when the decoded value is an object whose envelope key holds
    an array, the facade returns exactly that array, in order; when it is
    an object without the envelope key, or not an object, the facade
    returns the empty sequence.  On [null] and on [undefined] the facade
    throws the [TypeError] of reading a property of them. *)
Theorem C8_list_facades_unwrap_the_envelope :
  forall (runtime : JsRuntime) (W : Type)
         (transport : HttpRequest -> W -> FetchResult * W)
         this a call endpoint key w response v,
    In (call, (endpoint, key)) (list_facades this a) ->
    first_answer transport call w = Some (inr response) ->
    interpret response = inr v ->
    (v <> JNull -> v <> JUndefined ->
     (forall fields items,
        v = JObject fields -> assoc key fields = Some (JArray items) ->
        outcome (exec transport call w) = Returned (JArray items))
     /\ (forall fields,
          v = JObject fields -> assoc key fields = None ->
          outcome (exec transport call w) = Returned (JArray []))
     /\ ((forall fields, v <> JObject fields) ->
         outcome (exec transport call w) = Returned (JArray [])))
    /\ (v = JNull ->
        outcome (exec transport call w) = Threw (TypeError (cannot_read "null" key)))
    /\ (v = JUndefined ->
        outcome (exec transport call w) = Threw (TypeError (cannot_read "undefined" key)))
    /\ (status response = 204 \/ text response = EmptyString -> v = JUndefined)
    /\ sent (exec transport call w)
       = [outbound this endpoint
            {| init_method := Some GET; init_body := None; init_headers := None |}]
    /\ length (list_facades this a) = 16%nat.
Proof.
  intros runtime W transport this a call endpoint key w response v
         Hin Hanswer Hv.
  apply list_facades_shape in Hin. subst call.
  rewrite (exec_facade W transport this endpoint key w response v Hanswer Hv).
  split; [| split; [| split; [| split; [| split]]]].
  - intros Hnull Hundef. split; [| split].
    + intros fields items -> Hkey. simpl. unfold own. now rewrite Hkey.
    + intros fields -> Hkey. simpl. unfold own. now rewrite Hkey.
    + intros Hobj. destruct v; try reflexivity; try congruence.
  - intros ->. reflexivity.
  - intros ->. reflexivity.
  - intros Hempty.
    assert (Hok : ok response = true).
    { pose proof Hv as Hdecoded. unfold interpret in Hdecoded.
      destruct (status response =? 429)%Z; [discriminate |].
      destruct ((status response =? 401)%Z || (status response =? 403)%Z);
        [discriminate |].
      destruct (ok response); [reflexivity |]. simpl in Hdecoded.
      destruct (error_details (text response) (status response)). discriminate. }
    destruct Hempty as [H204 | Htext].
    + rewrite (interpret_no_content response H204) in Hv. congruence.
    + destruct (Z.eq_dec (status response) 204) as [H204 | H204].
      * rewrite (interpret_no_content response H204) in Hv. congruence.
      * rewrite (interpret_success response Hok H204) in Hv.
        rewrite Htext in Hv. simpl in Hv. congruence.
  - unfold get in Hanswer |- *.
    apply first_answer_bind_fetch in Hanswer; [| intros x; apply request_not_ret].
    apply exec_request_answered in Hanswer as [_ E].
    rewrite exec_bind, E. simpl. rewrite Hv. simpl.
    unfold unwrap. now destruct (prop v key).
  - apply list_facades_length.
Qed.

Lemma C8_list_facades_unwrap_the_envelope_witness :
  outcome (exec (stub (inr (Sample.respond 200 Sample.items_json)))
             (@listSecretAcls Reference.runtime Sample.client "jdbc") 0%nat)
  = Returned (JArray [JNumber (int 1); JNumber (int 2); JNumber (int 3)])
  /\ outcome (exec (stub (inr (Sample.respond 200 "{}")))
               (@listTables Reference.runtime Sample.client "main" "default") 0%nat)
     = Returned (JArray []).
Proof.
  split.
  - apply (proj1 (proj1 (C8_list_facades_unwrap_the_envelope Reference.runtime nat
                    (stub (inr (Sample.respond 200 Sample.items_json)))
                    Sample.client Sample.arguments
                    (@listSecretAcls Reference.runtime Sample.client "jdbc")
                    "/api/2.0/secrets/acls/list?scope=jdbc" "items" 0%nat
                    (Sample.respond 200 Sample.items_json)
                    (JObject [("items", JArray [JNumber (int 1); JNumber (int 2); JNumber (int 3)])])
                    ltac:(do 12 right; left; reflexivity)
                    ltac:(reflexivity)
                    ltac:(vm_compute; reflexivity))
                  ltac:(discriminate) ltac:(discriminate))
             [("items", JArray [JNumber (int 1); JNumber (int 2); JNumber (int 3)])]);
      reflexivity.
  - apply (proj1 (proj2 (proj1 (C8_list_facades_unwrap_the_envelope Reference.runtime nat
                    (stub (inr (Sample.respond 200 "{}")))
                    Sample.client Sample.arguments
                    (@listTables Reference.runtime Sample.client "main" "default")
                    "/api/2.1/unity-catalog/tables?catalog_name=main&schema_name=default"
                    "tables" 0%nat
                    (Sample.respond 200 "{}")
                    (JObject [])
                    ltac:(do 6 right; left; reflexivity)
                    ltac:(reflexivity)
                    ltac:(vm_compute; reflexivity))
                  ltac:(discriminate) ltac:(discriminate)))
             []);
      reflexivity.
Defined.

(** A facade reads the envelope key also from the [undefined] that a
    response without a body is turned into. *)
Example listWarehouses_on_an_empty_body :
  outcome (exec (stub (inr (Sample.respond 200 EmptyString)))
             (@listWarehouses Reference.runtime Sample.client) 0%nat)
  = Threw (TypeError "Cannot read properties of undefined (reading 'warehouses')").
Proof. vm_compute. reflexivity. Qed.

Example listWarehouses_returns_the_array :
  outcome (exec (stub (inr (Sample.respond 200 Sample.warehouses_json)))
             (@listWarehouses Reference.runtime Sample.client) 0%nat)
  = Returned (JArray [ JObject [("id", JString "w1")]; JObject [("id", JString "w2")] ]).
Proof. vm_compute. reflexivity. Qed.

Example listClusters_without_the_key :
  outcome (exec (stub (inr (Sample.respond 200 "{}")))
             (@listClusters Reference.runtime Sample.client) 0%nat)
  = Returned (JArray []).
Proof. vm_compute. reflexivity. Qed.

(* --------------------------------------------------------------------- *)
(** *** Credential validation *)

Section Validation.
Context {runtime : JsRuntime}.
Variable mcp_handler : DatabricksClientImpl -> Headers -> Prog Response.
Variable W : Type.
Variable transport : HttpRequest -> W -> FetchResult * W.

Lemma validateCredentials_returns creds :
  validateCredentials creds = inr tt <->
  host creds <> EmptyString /\ token creds <> EmptyString.
Proof.
  unfold validateCredentials.
  destruct (host creds), (token creds); simpl; split;
    try discriminate; try (intros [? ?]; congruence); intros _; split; discriminate.
Qed.

(** A rejected call is answered with status 401 without any request. *)
Lemma handle_mcp_rejected request_headers error w :
  validateCredentials (parseTenantCredentials request_headers) = inl error ->
  exec transport (handle_mcp mcp_handler request_headers) w =
  {| outcome := Returned (unauthorized error); sent := []; world := w |}.
Proof. intros H. unfold handle_mcp. now rewrite H. Qed.

(** The dispatcher runs only for credentials that passed the validation. *)
Lemma handle_mcp_accepted request_headers :
  validateCredentials (parseTenantCredentials request_headers) = inr tt ->
  handle_mcp mcp_handler request_headers =
  mcp_handler (createDatabricksClient (parseTenantCredentials request_headers))
    request_headers.
Proof. intros H. unfold handle_mcp. now rewrite H. Qed.

Lemma handle_mcp_sends_only_when_valid request_headers w :
  sent (exec transport (handle_mcp mcp_handler request_headers) w) <> [] ->
  validateCredentials (parseTenantCredentials request_headers) = inr tt.
Proof.
  destruct (validateCredentials (parseTenantCredentials request_headers)) as [error | []] eqn:E.
  - rewrite (handle_mcp_rejected request_headers error w E). simpl. congruence.
  - reflexivity.
Qed.
End Validation.

(** C9.  [validateCredentials] throws an error whose message names the
    [X-Databricks-Host] header when the host is empty, throws an error whose
    message names the [X-Databricks-Token] header when the host is not
    empty and the token is, and returns when neither is empty.  The two
    messages differ, and each names its own header only.  It makes no
    request.  The [/mcp] handler validates the parsed credentials before it
    creates the client: a rejected call is answered with status 401 and
    nothing is sent, and whenever anything is sent, host and token are both
    there. *)
Theorem C9_validate_credentials :
  forall (creds : TenantCredentials),
    (host creds = EmptyString ->
     validateCredentials creds
     = inl (Error "Missing X-Databricks-Host header. Provide your Databricks workspace URL."))
    /\ (host creds <> EmptyString -> token creds = EmptyString ->
        validateCredentials creds
        = inl (Error "Missing X-Databricks-Token header. Provide your Databricks personal access token."))
    /\ (host creds <> EmptyString -> token creds <> EmptyString ->
        validateCredentials creds = inr tt)
    /\ (includes "X-Databricks-Host" missing_host_message = true
        /\ includes "X-Databricks-Token" missing_host_message = false
        /\ includes "X-Databricks-Token" missing_token_message = true
        /\ includes "X-Databricks-Host" missing_token_message = false
        /\ missing_host_message <> missing_token_message)
    /\ (forall (W : Type) (transport : HttpRequest -> W -> FetchResult * W) w,
          exec transport (lift (validateCredentials creds)) w
          = {| outcome := outcome_of (validateCredentials creds); sent := []; world := w |})
    /\ (forall (runtime : JsRuntime)
               (mcp_handler : DatabricksClientImpl -> Headers -> Prog Response)
               request_headers
               (W : Type) (transport : HttpRequest -> W -> FetchResult * W) w,
          parseTenantCredentials request_headers = creds ->
          (forall error,
             validateCredentials creds = inl error ->
             exec transport (handle_mcp mcp_handler request_headers) w
             = {| outcome := Returned (unauthorized error); sent := []; world := w |}
             /\ status (unauthorized error) = 401)
          /\ (sent (exec transport (handle_mcp mcp_handler request_headers) w) <> [] ->
              host creds <> EmptyString /\ token creds <> EmptyString)).
Proof.
  intros creds. split; [| split; [| split; [| split; [| split]]]].
  - intros H. unfold validateCredentials. now rewrite H.
  - intros Hh Ht. unfold validateCredentials.
    apply string_nonempty_true in Hh. now rewrite Hh, Ht.
  - intros Hh Ht. now apply validateCredentials_returns.
  - repeat split. discriminate.
  - intros W transport w. apply exec_lift.
  - intros runtime mcp_handler request_headers W transport w <-. split.
    + intros error H. split; [now apply handle_mcp_rejected | reflexivity].
    + intros H. apply handle_mcp_sends_only_when_valid in H.
      now apply validateCredentials_returns in H.
Qed.

Lemma C9_validate_credentials_witness :
  validateCredentials Sample.tenant_without_host
  = inl (Error "Missing X-Databricks-Host header. Provide your Databricks workspace URL.")
  /\ validateCredentials Sample.tenant_without_token
     = inl (Error "Missing X-Databricks-Token header. Provide your Databricks personal access token.")
  /\ validateCredentials Sample.tenant = inr tt.
Proof.
  split; [| split].
  - apply (proj1 (C9_validate_credentials Sample.tenant_without_host)). reflexivity.
  - apply (proj1 (proj2 (C9_validate_credentials Sample.tenant_without_token)));
      [discriminate | reflexivity].
  - apply (proj1 (proj2 (proj2 (C9_validate_credentials Sample.tenant)))); discriminate.
Defined.

(** A call without the host header is answered at once, whatever the
    dispatcher would do. *)
Example mcp_call_without_host :
  forall (mcp_handler : DatabricksClientImpl -> Headers -> Prog Response),
    exec (stub (inr (Sample.respond 200 EmptyString)))
      (@handle_mcp Reference.runtime mcp_handler [("x-databricks-token", "dapi-secret")]) 0%nat
    = {| outcome := Returned (@unauthorized Reference.runtime (Error missing_host_message));
         sent := [];
         world := 0%nat |}.
Proof. intros mcp_handler. reflexivity. Qed.

(* --------------------------------------------------------------------- *)
(** *** Statelessness *)

Section Stateless.
Context {runtime : JsRuntime}.
Variables W1 W2 : Type.
Variable transport1 : HttpRequest -> W1 -> FetchResult * W1.
Variable transport2 : HttpRequest -> W2 -> FetchResult * W2.

(** The outcome of a call and the request it sends are functions of the
    client, the descriptor and the transport's answer, and of nothing
    else. *)
Lemma request_depends_on_answer_only this endpoint options w1 w2 :
  first_answer transport1 (request this endpoint options) w1
  = first_answer transport2 (request this endpoint options) w2 ->
  outcome (exec transport1 (request this endpoint options) w1)
  = outcome (exec transport2 (request this endpoint options) w2)
  /\ sent (exec transport1 (request this endpoint options) w1)
     = sent (exec transport2 (request this endpoint options) w2).
Proof.
  intros H.
  destruct (first_answer transport2 (request this endpoint options) w2) as [answer |] eqn:E2.
  - apply exec_request_answered in H as [_ ->].
    apply exec_request_answered in E2 as [_ ->]. now split.
  - apply exec_request_unanswered in H as [_ ->].
    apply exec_request_unanswered in E2 as [_ ->]. now split.
Qed.
End Stateless.

Section Object.
Context {runtime : JsRuntime}.
Variable W : Type.
Variable transport : HttpRequest -> W -> FetchResult * W.

(** The store-passing [request] does what the [request] of the pipeline
    does and returns the object it was given. *)
Lemma exec_stateful_request this endpoint options w :
  exec transport (Stateful.request endpoint options this) w
  = {| outcome := Returned (outcome (exec transport (request this endpoint options) w), this);
       sent := sent (exec transport (request this endpoint options) w);
       world := world (exec transport (request this endpoint options) w) |}.
Proof.
  destruct (request_cases this endpoint options) as [[T E] | [T E]]; rewrite E;
    unfold Stateful.request, Stateful.getAuthHeaders;
    unfold Stateful.seq, Stateful.read_baseUrl, Stateful.read_credentials,
      Stateful.throw, Stateful.ret, Stateful.await_fetch, Stateful.of_sum;
    cbn [bind fst snd]; rewrite T; cbn [string_nonempty negb bind fst snd exec].
  - reflexivity.
  - change (fetch_arguments (baseUrl this ++ endpoint) options
              [("Authorization", "Bearer " ++ token (credentials this));
               ("Content-Type", "application/json")])
      with (outbound this endpoint options).
    destruct (transport (outbound this endpoint options) w) as [[e | response] w'];
      cbn [bind fst snd exec outcome sent world].
    + reflexivity.
    + rewrite exec_lift. reflexivity.
Qed.

Lemma perform_is_request c this :
  Stateful.perform c this
  = Stateful.request (fst (Stateful.descriptor c)) (snd (Stateful.descriptor c)) this.
Proof. now destruct c. Qed.

Lemma run_call_is_request c this w :
  Stateful.run_call transport c this w
  = {| Stateful.result :=
         outcome (exec transport
                    (request this (fst (Stateful.descriptor c)) (snd (Stateful.descriptor c))) w);
       Stateful.object := this;
       Stateful.requests :=
         sent (exec transport
                 (request this (fst (Stateful.descriptor c)) (snd (Stateful.descriptor c))) w);
       Stateful.transport_state :=
         world (exec transport
                  (request this (fst (Stateful.descriptor c)) (snd (Stateful.descriptor c))) w) |}.
Proof.
  unfold Stateful.run_call. rewrite perform_is_request, exec_stateful_request. reflexivity.
Qed.

(** A method made of wrapper calls returns the object it was given,
    whatever it calls and however each call ends. *)
Lemma run_body_keeps_the_object b this w :
  exists result,
    outcome (exec transport (Stateful.run_body b this) w) = Returned (result, this).
Proof.
  revert w. induction b as [value | e | c k IH]; intros w.
  - now exists (Returned value).
  - now exists (Threw e).
  - cbn [Stateful.run_body]. rewrite exec_bind.
    rewrite perform_is_request, exec_stateful_request.
    cbn [outcome world fst snd]. apply IH.
Qed.

Lemma run_method_keeps_the_object b this w :
  Stateful.object (Stateful.run_method transport b this w) = this.
Proof.
  unfold Stateful.run_method.
  destruct (run_body_keeps_the_object b this w) as [result ->]. reflexivity.
Qed.

Lemma run_methods_keep_the_object calls this w :
  Stateful.final_object (Stateful.run_methods transport calls this w) = this.
Proof.
  revert w. induction calls as [| b rest IH]; intros w; [reflexivity |].
  cbn [Stateful.run_methods Stateful.final_object].
  rewrite run_method_keeps_the_object. apply IH.
Qed.

Lemma run_methods_app calls1 calls2 this w :
  Stateful.results (Stateful.run_methods transport (calls1 ++ calls2) this w)
  = (Stateful.results (Stateful.run_methods transport calls1 this w)
       ++ Stateful.results
            (Stateful.run_methods transport calls2 this
               (Stateful.final_state (Stateful.run_methods transport calls1 this w))))%list.
Proof.
  revert w. induction calls1 as [| b rest IH]; intros w; [reflexivity |].
  cbn [app Stateful.run_methods Stateful.results Stateful.final_state].
  rewrite run_method_keeps_the_object. now rewrite IH.
Qed.

Lemma run_method_wrapper c this w :
  Stateful.run_method transport (Stateful.wrapper c) this w
  = Stateful.run_call transport c this w.
Proof.
  rewrite run_call_is_request.
  unfold Stateful.run_method, Stateful.wrapper. cbn [Stateful.run_body].
  rewrite exec_bind, perform_is_request, exec_stateful_request.
  cbn [outcome sent world fst snd].
  destruct (outcome (exec transport
                       (request this (fst (Stateful.descriptor c))
                          (snd (Stateful.descriptor c))) w));
    cbn; now rewrite app_nil_r.
Qed.

(** A call on an object with a token: one request, and the outcome read
    off the transport's answer to it. *)
Lemma run_call_with_token c this w :
  token (credentials this) <> EmptyString ->
  Stateful.run_call transport c this w
  = {| Stateful.result :=
         match fst (transport (outbound this (fst (Stateful.descriptor c))
                                 (snd (Stateful.descriptor c))) w) with
         | inl e => Threw e
         | inr response => outcome_of (interpret response)
         end;
       Stateful.object := this;
       Stateful.requests :=
         [outbound this (fst (Stateful.descriptor c)) (snd (Stateful.descriptor c))];
       Stateful.transport_state :=
         snd (transport (outbound this (fst (Stateful.descriptor c))
                           (snd (Stateful.descriptor c))) w) |}.
Proof.
  intros Ht. rewrite run_call_is_request.
  assert (Ha : first_answer transport
                 (request this (fst (Stateful.descriptor c)) (snd (Stateful.descriptor c))) w
               = Some (fst (transport (outbound this (fst (Stateful.descriptor c))
                                         (snd (Stateful.descriptor c))) w))).
  { apply string_nonempty_true in Ht.
    now rewrite (request_fetches this _ _ Ht). }
  apply exec_request_answered in Ha as [_ ->]. reflexivity.
Qed.

Lemma run_call_without_token c this w :
  token (credentials this) = EmptyString ->
  Stateful.run_call transport c this w
  = {| Stateful.result := Threw (AuthenticationError no_credentials_message);
       Stateful.object := this;
       Stateful.requests := [];
       Stateful.transport_state := w |}.
Proof.
  intros Ht. rewrite run_call_is_request.
  now rewrite (exec_request_empty_token W transport this _ _ w Ht).
Qed.
End Object.

(** C10.  The object has the two fields [credentials] and [baseUrl].  The
    constructor assigns both, whatever they held: the credentials it is
    given and their host less one trailing slash.  No method assigns
    either: after any sequence of calls of methods that are made of wrapper
    calls, and after one more wrapper call, the object is the one the
    constructor made.  A wrapper call is therefore a
    function of the credentials, its descriptor and the transport's answer
    alone: with an empty token it throws the authentication error and sends
    nothing; otherwise it sends the one request made from base URL,
    endpoint, options and token, and its result is the transport's
    rejection or what [interpret] makes of the response.  So the same
    descriptor issued twice against a stub that answers alike gives the
    same result twice, whatever calls came before. *)
Theorem C10_no_call_changes_the_object :
  forall (runtime : JsRuntime) (W : Type)
         (transport : HttpRequest -> W -> FetchResult * W)
         (creds : TenantCredentials) (allocated : DatabricksClientImpl)
         (history : list Stateful.Body) (c : Stateful.Call) (w : W),
    let this := {| credentials := creds; baseUrl := replace_trailing_slash (host creds) |} in
    let earlier := Stateful.run_methods transport history this w in
    let call :=
      Stateful.run_call transport c (Stateful.final_object earlier)
        (Stateful.final_state earlier) in
    let expected :=
      {| url := replace_trailing_slash (host creds) ++ fst (Stateful.descriptor c);
         method := init_method (snd (Stateful.descriptor c));
         headers := [ ("Authorization", "Bearer " ++ token creds);
                      ("Content-Type", "application/json") ];
         body := init_body (snd (Stateful.descriptor c)) |} in
    exec transport (Stateful.constructor creds allocated) w
    = {| outcome := Returned (Returned tt, this); sent := []; world := w |}
    /\ createDatabricksClient creds = this
    /\ Stateful.final_object earlier = this
    /\ Stateful.object call = this
    /\ (token creds = EmptyString ->
        Stateful.result call = Threw (AuthenticationError no_credentials_message)
        /\ Stateful.requests call = []
        /\ Stateful.transport_state call = Stateful.final_state earlier)
    /\ (token creds <> EmptyString ->
        Stateful.requests call = [expected]
        /\ Stateful.result call
           = match fst (transport expected (Stateful.final_state earlier)) with
             | inl e => Threw e
             | inr response => outcome_of (interpret response)
             end
        /\ Stateful.transport_state call
           = snd (transport expected (Stateful.final_state earlier)))
    /\ (forall (answer : FetchResult) (n : nat),
          Stateful.results
            (Stateful.run_methods (stub answer)
               (history ++ [Stateful.wrapper c; Stateful.wrapper c]) this n)
          = (Stateful.results (Stateful.run_methods (stub answer) history this n)
               ++ (let same :=
                     if string_nonempty (token creds) then
                       match answer with
                       | inl e => Threw e
                       | inr response => outcome_of (interpret response)
                       end
                     else Threw (AuthenticationError no_credentials_message) in
                   [same; same]))%list)
    /\ Stateful.result call
       = outcome (exec transport
                    (request this (fst (Stateful.descriptor c)) (snd (Stateful.descriptor c)))
                    (Stateful.final_state earlier))
    /\ Stateful.requests call
       = sent (exec transport
                 (request this (fst (Stateful.descriptor c)) (snd (Stateful.descriptor c)))
                 (Stateful.final_state earlier)).
Proof.
  intros runtime W transport creds allocated history c w this earlier call expected.
  assert (Hexpected : expected
                      = outbound this (fst (Stateful.descriptor c))
                          (snd (Stateful.descriptor c))).
  { unfold expected, outbound, fetch_arguments, bearer_headers, spread. simpl.
    now destruct c. }
  assert (Hobject : Stateful.final_object earlier = this)
    by apply run_methods_keep_the_object.
  unfold call. rewrite Hobject.
  split; [reflexivity |]. split; [reflexivity |]. split; [reflexivity |].
  split; [now rewrite run_call_is_request |].
  split; [| split; [| split; [| split]]].
  - intros Ht. now rewrite (run_call_without_token W transport c this _ Ht).
  - intros Ht. rewrite Hexpected.
    now rewrite (run_call_with_token W transport c this _ Ht).
  - intros answer n. rewrite run_methods_app. f_equal.
    cbn [Stateful.run_methods Stateful.results].
    rewrite !run_method_wrapper.
    destruct (string_nonempty (token creds)) eqn:Et.
    + assert (Ht : token (credentials this) <> EmptyString)
        by now apply string_nonempty_true.
      rewrite !(run_call_with_token nat (stub answer) c this _ Ht). reflexivity.
    + assert (Ht : token (credentials this) = EmptyString)
        by now apply string_nonempty_false.
      rewrite !(run_call_without_token nat (stub answer) c this _ Ht). reflexivity.
  - now rewrite run_call_is_request.
  - now rewrite run_call_is_request.
Qed.

Lemma C10_no_call_changes_the_object_witness :
  Stateful.object
    (@Stateful.run_call Reference.runtime nat
       (stub (inr (Sample.respond 200 Sample.items_json)))
       (Stateful.Get "/api/2.0/clusters/list")
       (Stateful.final_object
          (@Stateful.run_methods Reference.runtime nat
             (stub (inr (Sample.respond 200 Sample.items_json)))
             [Stateful.listWarehouses; Stateful.testConnection]
             Sample.client 0%nat))
       (Stateful.final_state
          (@Stateful.run_methods Reference.runtime nat
             (stub (inr (Sample.respond 200 Sample.items_json)))
             [Stateful.listWarehouses; Stateful.testConnection]
             Sample.client 0%nat)))
  = Sample.client.
Proof.
  exact (proj1 (proj2 (proj2 (proj2
           (C10_no_call_changes_the_object Reference.runtime nat
              (stub (inr (Sample.respond 200 Sample.items_json)))
              Sample.tenant Sample.client
              [Stateful.listWarehouses; Stateful.testConnection]
              (Stateful.Get "/api/2.0/clusters/list") 0%nat))))).
Defined.

Example calls_on_one_object :
  Stateful.results
    (@Stateful.run_methods Reference.runtime nat
       (stub (inr (Sample.respond 200 Sample.warehouses_json)))
       [Stateful.listWarehouses;
        Stateful.testConnection;
        Stateful.wrapper (Stateful.Post "/api/2.0/clusters/start"
                            (JObject [("cluster_id", JString "c-1")]));
        Stateful.listWarehouses]
       Sample.client 0%nat)
  = [ Returned (JArray [ JObject [("id", JString "w1")]; JObject [("id", JString "w2")] ]);
      Returned (JObject [ ("connected", JBool true);
                          ("message",
                           JString "Successfully connected to Databricks workspace") ]);
      Returned (JObject [ ("warehouses",
                           JArray [ JObject [("id", JString "w1")];
                                    JObject [("id", JString "w2")] ]) ]);
      Returned (JArray [ JObject [("id", JString "w1")]; JObject [("id", JString "w2")] ]) ]
  /\ Stateful.final_state
       (@Stateful.run_methods Reference.runtime nat
          (stub (inr (Sample.respond 200 Sample.warehouses_json)))
          [Stateful.listWarehouses; Stateful.testConnection; Stateful.listWarehouses]
          Sample.client 0%nat)
     = 3%nat.
Proof. split; vm_compute; reflexivity. Qed.

Example same_request_twice :
  exec (stub (inr (Sample.respond 200 Sample.items_json)))
    (@bind JsVal (JsVal * JsVal)
       (@get Reference.runtime Sample.client "/api/2.0/clusters/list")
       (fun first =>
          bind (@get Reference.runtime Sample.client "/api/2.0/clusters/list")
            (fun second => Ret (first, second)))) 0%nat
  = {| outcome :=
         Returned
           (JObject [("items", JArray [JNumber (int 1); JNumber (int 2); JNumber (int 3)])],
            JObject [("items", JArray [JNumber (int 1); JNumber (int 2); JNumber (int 3)])]);
       sent := [ outbound Sample.client "/api/2.0/clusters/list" Sample.get_options;
                 outbound Sample.client "/api/2.0/clusters/list" Sample.get_options ];
       world := 2%nat |}.
Proof. vm_compute. reflexivity. Qed.


(* ===================================================================== *)
(** ** Further properties: credentials and environment *)
(* ===================================================================== *)

Lemma or_empty_nonempty (x : option string) :
  or_empty x <> EmptyString <-> exists a, x = Some a /\ a <> EmptyString.
Proof.
  destruct x as [a |]; simpl; split.
  - intros H. now exists a.
  - now intros (b & [= ->] & H).
  - congruence.
  - now intros (b & H & _).
Qed.

(** Credentials parsed from the request headers pass the validation exactly
    when the host header and the token header are both there with a value
    that is not empty; the names of the headers are matched without regard
    to case by [Headers_get].  The warehouse id is the value of its header
    when that is not empty and is absent otherwise, never the empty
    string. *)
Theorem parsed_credentials_validate_iff_headers_present :
  forall (h : Headers),
    (validateCredentials (parseTenantCredentials h) = inr tt <->
     (exists a, Headers_get h "X-Databricks-Host" = Some a /\ a <> EmptyString)
     /\ (exists t, Headers_get h "X-Databricks-Token" = Some t /\ t <> EmptyString))
    /\ (forall w,
          warehouseId (parseTenantCredentials h) = Some w <->
          Headers_get h "X-Databricks-Warehouse-Id" = Some w /\ w <> EmptyString).
Proof.
  intros h. split.
  - rewrite validateCredentials_returns. unfold parseTenantCredentials. simpl.
    now rewrite !or_empty_nonempty.
  - intros w. unfold parseTenantCredentials. simpl.
    destruct (Headers_get h "X-Databricks-Warehouse-Id") as [[| c s] |]; simpl; split;
      try discriminate; try (intros [? ?]; congruence).
    intros [= <-]. split; [reflexivity | discriminate].
Qed.

Example credentials_from_lower_case_headers :
  parseTenantCredentials
    [ ("x-databricks-host", "https://example.com/");
      ("X-DATABRICKS-TOKEN", "dapi-secret");
      ("x-databricks-warehouse-id", EmptyString) ]
  = Sample.tenant.
Proof. reflexivity. Qed.

Lemma getEnvNumber_numeral (n : Z) (defaultValue : JsNum) :
  getEnvNumber (Some (string_of_Z n)) defaultValue = to_double n.
Proof.
  unfold getEnvNumber. rewrite parseInt10_string_of_Z.
  now rewrite to_double_not_NaN.
Qed.

Lemma getEnvNumber_not_NaN (value : option string) (defaultValue : JsNum) :
  isNaN defaultValue = false -> isNaN (getEnvNumber value defaultValue) = false.
Proof.
  intros Hd. unfold getEnvNumber. destruct value as [s |]; [| assumption].
  destruct (isNaN (parseInt10 s)) eqn:E; assumption.
Qed.

(** [getEnvNumber] gives the default when the variable is not set or its
    text has no integer prefix (after white space and one optional sign
    there is no decimal digit: [parseInt] is [NaN] exactly then); otherwise
    it gives what [parseInt] reads from the prefix, which for the decimal
    numeral of an integer [n] is the nearest double of [n], and [n] itself
    when [|n| < 2^53].  It never gives [NaN] unless the default is. *)
Theorem getEnvNumber_default_and_round_trip :
  forall (value : option string) (defaultValue : JsNum),
    (value = None -> getEnvNumber value defaultValue = defaultValue)
    /\ (forall s, value = Some s -> integer_prefix s = false ->
                  parseInt10 s = NaN /\ getEnvNumber value defaultValue = defaultValue)
    /\ (forall s, value = Some s -> integer_prefix s = true ->
                  isNaN (parseInt10 s) = false
                  /\ getEnvNumber value defaultValue = parseInt10 s)
    /\ (forall n, value = Some (string_of_Z n) ->
                  getEnvNumber value defaultValue = to_double n)
    /\ (forall n, Z.abs n < 2 ^ 53 -> value = Some (string_of_Z n) ->
                  getEnvNumber value defaultValue = int n)
    /\ (isNaN defaultValue = false -> isNaN (getEnvNumber value defaultValue) = false).
Proof.
  intros value defaultValue.
  split; [| split; [| split; [| split; [| split]]]].
  - now intros ->.
  - intros s -> Hs. apply parseInt10_NaN_iff in Hs.
    split; [assumption |]. unfold getEnvNumber. now rewrite Hs.
  - intros s -> Hs.
    assert (Hn : isNaN (parseInt10 s) = false).
    { destruct (parseInt10 s) eqn:E; try reflexivity.
      apply parseInt10_NaN_iff in E. congruence. }
    split; [assumption |]. unfold getEnvNumber. now rewrite Hn.
  - intros n ->. apply getEnvNumber_numeral.
  - intros n Hn ->. rewrite getEnvNumber_numeral. now apply to_double_safe_integer.
  - apply getEnvNumber_not_NaN.
Qed.

Example getEnvNumber_beyond_the_safe_integers :
  getEnvNumber (Some "9007199254740993") (int 20) = int 9007199254740992
  /\ getEnvNumber (Some "12abc") (int 20) = int 12
  /\ getEnvNumber (Some "abc") (int 20) = int 20.
Proof. repeat split; vm_compute; reflexivity. Qed.


Example limits_read_an_integer_prefix :
  getCharacterLimit
    {| CHARACTER_LIMIT := Some "12abc"; DEFAULT_PAGE_SIZE := None; MAX_PAGE_SIZE := None |}
  = int 12
  /\ getDefaultPageSize
       {| CHARACTER_LIMIT := None; DEFAULT_PAGE_SIZE := Some "0x1F"; MAX_PAGE_SIZE := None |}
     = int 0
  /\ getMaxPageSize
       {| CHARACTER_LIMIT := None; DEFAULT_PAGE_SIZE := None; MAX_PAGE_SIZE := Some "3.9" |}
     = int 3.
Proof. repeat split; vm_compute; reflexivity. Qed.

(* ===================================================================== *)
(** ** Further properties: the request helper *)
(* ===================================================================== *)

Section Interpretation.
Context {runtime : JsRuntime}.

(** A response outside 200..299 is always turned into one of the three
    error kinds. *)
Lemma interpret_failure response :
  ok response = false ->
  exists e, interpret response = inl e /\ normalized e = true.
Proof.
  intros Hok. unfold interpret.
  destruct (status response =? 429)%Z; [eexists; split; reflexivity |].
  destruct ((status response =? 401) || (status response =? 403))%Z;
    [eexists; split; reflexivity |].
  rewrite Hok. simpl.
  destruct (error_details (text response) (status response)).
  eexists; split; reflexivity.
Qed.

Lemma interpret_empty_body response :
  ok response = true -> text response = EmptyString ->
  interpret response = inr JUndefined.
Proof.
  intros Hok Ht. unfold interpret.
  destruct (ok_not_failure response Hok) as (-> & -> & ->).
  rewrite Hok, Ht. simpl. now destruct (status response =? 204)%Z.
Qed.
End Interpretation.

(** A 204 response, whatever its body, and a 200..299 response with an
    empty body make the call return [undefined]; the body is not parsed. *)
Theorem no_content_and_empty_body_return_undefined :
  forall (runtime : JsRuntime) (W : Type)
         (transport : HttpRequest -> W -> FetchResult * W)
         this endpoint options w response,
    first_answer transport (request this endpoint options) w = Some (inr response) ->
    status response = 204 \/ (ok response = true /\ text response = EmptyString) ->
    outcome (exec transport (request this endpoint options) w) = Returned JUndefined.
Proof.
  intros runtime W transport this endpoint options w response H Hcase.
  apply exec_request_answered in H as [_ ->]. simpl.
  destruct Hcase as [H204 | [Hok Ht]].
  - now rewrite (interpret_no_content response H204).
  - now rewrite (interpret_empty_body response Hok Ht).
Qed.

Lemma no_content_and_empty_body_return_undefined_witness :
  outcome (exec (stub (inr (Sample.respond 204 "<html>not json</html>")))
             (@request Reference.runtime Sample.client "/api/2.0/clusters/delete"
                Sample.get_options) 0%nat)
  = Returned JUndefined.
Proof.
  apply (no_content_and_empty_body_return_undefined Reference.runtime nat
           (stub (inr (Sample.respond 204 "<html>not json</html>")))
           Sample.client "/api/2.0/clusters/delete" Sample.get_options 0%nat
           (Sample.respond 204 "<html>not json</html>")).
  - reflexivity.
  - left. reflexivity.
Defined.

(** When the transport rejects, the call ends with that very exception: it
    is not turned into one of the pipeline's error kinds, and the request
    is not sent again. *)
Theorem transport_rejection_propagates_unchanged :
  forall (runtime : JsRuntime) (W : Type)
         (transport : HttpRequest -> W -> FetchResult * W)
         this endpoint options w e,
    first_answer transport (request this endpoint options) w = Some (inl e) ->
    outcome (exec transport (request this endpoint options) w) = Threw e
    /\ sent (exec transport (request this endpoint options) w)
       = [outbound this endpoint options].
Proof.
  intros runtime W transport this endpoint options w e H.
  apply exec_request_answered in H as [_ ->]. now split.
Qed.

Lemma transport_rejection_propagates_unchanged_witness :
  outcome (exec (stub (inl (TypeError "fetch failed")))
             (@request Reference.runtime Sample.client "/api/2.0/clusters/list"
                Sample.get_options) 0%nat)
  = Threw (TypeError "fetch failed")
  /\ sent (exec (stub (inl (TypeError "fetch failed")))
             (@request Reference.runtime Sample.client "/api/2.0/clusters/list"
                Sample.get_options) 0%nat)
     = [outbound Sample.client "/api/2.0/clusters/list" Sample.get_options].
Proof.
  apply (transport_rejection_propagates_unchanged Reference.runtime nat
           (stub (inl (TypeError "fetch failed")))
           Sample.client "/api/2.0/clusters/list" Sample.get_options 0%nat
           (TypeError "fetch failed")).
  reflexivity.
Defined.

(** A call returns a value only for a response with a status in 200..299,
    and every response outside that range ends the call with one of
    [AuthenticationError], [RateLimitError] and [DatabricksApiError]. *)
Theorem values_come_only_from_success_responses :
  forall (runtime : JsRuntime) (W : Type)
         (transport : HttpRequest -> W -> FetchResult * W)
         this endpoint options w response,
    first_answer transport (request this endpoint options) w = Some (inr response) ->
    (forall v,
       outcome (exec transport (request this endpoint options) w) = Returned v ->
       ok response = true)
    /\ (ok response = false ->
        exists e,
          outcome (exec transport (request this endpoint options) w) = Threw e
          /\ normalized e = true).
Proof.
  intros runtime W transport this endpoint options w response H.
  apply exec_request_answered in H as [_ ->]. simpl. split.
  - intros v Hv. destruct (ok response) eqn:Hok; [reflexivity |].
    destruct (interpret_failure response Hok) as (e & He & _).
    rewrite He in Hv. discriminate.
  - intros Hok. destruct (interpret_failure response Hok) as (e & He & Hn).
    exists e. now rewrite He.
Qed.

Lemma values_come_only_from_success_responses_witness :
  (forall v,
     outcome (exec (stub (inr (Sample.respond 302 "moved")))
                (@request Reference.runtime Sample.client "/api/2.0/clusters/list"
                   Sample.get_options) 0%nat) = Returned v ->
     ok (Sample.respond 302 "moved") = true)
  /\ (ok (Sample.respond 302 "moved") = false ->
      exists e,
        outcome (exec (stub (inr (Sample.respond 302 "moved")))
                   (@request Reference.runtime Sample.client "/api/2.0/clusters/list"
                      Sample.get_options) 0%nat) = Threw e
        /\ normalized e = true).
Proof.
  apply (values_come_only_from_success_responses Reference.runtime nat
           (stub (inr (Sample.respond 302 "moved")))
           Sample.client "/api/2.0/clusters/list" Sample.get_options 0%nat
           (Sample.respond 302 "moved")).
  reflexivity.
Defined.

(** No retry: a call of any of the five wrappers hands at most one request
    to the transport, whatever the answer is (a 429 included), and that
    request has the wrapper's method, the URL [baseUrl ++ endpoint] and the
    body the wrapper encoded. *)
Theorem wrappers_send_at_most_one_request :
  forall (runtime : JsRuntime) (W : Type)
         (transport : HttpRequest -> W -> FetchResult * W)
         this endpoint payload call options w,
    In (call, options) (wrapper_calls this endpoint payload) ->
    (length (sent (exec transport call w)) <= 1)%nat
    /\ (forall req,
          In req (sent (exec transport call w)) ->
          method req = init_method options
          /\ url req = baseUrl this ++ endpoint
          /\ body req = init_body options).
Proof.
  intros runtime W transport this endpoint payload call options w Hin.
  apply wrapper_calls_are_requests in Hin as [-> _].
  destruct (sent_request W transport this endpoint options w) as [E | E]; rewrite E; simpl.
  - split; [lia | contradiction].
  - split; [lia |]. intros req [<- | []]. now repeat split.
Qed.

Lemma wrappers_send_at_most_one_request_witness :
  (length (sent (exec (stub (inr (Sample.respond 429 EmptyString)))
                   (@post Reference.runtime Sample.client "/api/2.1/jobs/run-now" (JObject []))
                   0%nat)) <= 1)%nat
  /\ (forall req,
        In req (sent (exec (stub (inr (Sample.respond 429 EmptyString)))
                        (@post Reference.runtime Sample.client "/api/2.1/jobs/run-now"
                           (JObject [])) 0%nat)) ->
        method req = Some POST
        /\ url req = "https://example.com" ++ "/api/2.1/jobs/run-now"
        /\ body req = Some "{}").
Proof.
  apply (wrappers_send_at_most_one_request Reference.runtime nat
           (stub (inr (Sample.respond 429 EmptyString)))
           Sample.client "/api/2.1/jobs/run-now" (JObject [])
           (@post Reference.runtime Sample.client "/api/2.1/jobs/run-now" (JObject []))
           {| init_method := Some POST;
              init_body := @encode_body Reference.runtime (JObject []);
              init_headers := None |} 0%nat).
  right. left. reflexivity.
Defined.

(** Credentials that passed [validateCredentials] never meet the empty
    token guard of the pipeline: every call on the client made from them
    reaches the transport. *)
Theorem validated_credentials_reach_the_transport :
  forall (runtime : JsRuntime) (W : Type)
         (transport : HttpRequest -> W -> FetchResult * W)
         creds endpoint options w,
    validateCredentials creds = inr tt ->
    sent (exec transport (request (createDatabricksClient creds) endpoint options) w)
    = [outbound (createDatabricksClient creds) endpoint options]
    /\ first_answer transport (request (createDatabricksClient creds) endpoint options) w
       <> None.
Proof.
  intros runtime W transport creds endpoint options w H.
  apply validateCredentials_returns in H as [_ Ht].
  split.
  - now apply exec_request_sends_one.
  - apply string_nonempty_true in Ht.
    rewrite (request_fetches (createDatabricksClient creds) endpoint options Ht).
    discriminate.
Qed.

Lemma validated_credentials_reach_the_transport_witness :
  sent (exec (stub (inr (Sample.respond 200 EmptyString)))
          (@request Reference.runtime (createDatabricksClient Sample.tenant)
             "/api/2.0/clusters/list" Sample.get_options) 0%nat)
  = [outbound (createDatabricksClient Sample.tenant) "/api/2.0/clusters/list"
       Sample.get_options]
  /\ first_answer (stub (inr (Sample.respond 200 EmptyString)))
       (@request Reference.runtime (createDatabricksClient Sample.tenant)
          "/api/2.0/clusters/list" Sample.get_options) 0%nat
     <> None.
Proof.
  apply (validated_credentials_reach_the_transport Reference.runtime nat
           (stub (inr (Sample.respond 200 EmptyString)))
           Sample.tenant "/api/2.0/clusters/list" Sample.get_options 0%nat).
  reflexivity.
Defined.

(* ===================================================================== *)
(** ** Further properties: the connection test *)
(* ===================================================================== *)

Section Catching.
Variable W : Type.
Variable transport : HttpRequest -> W -> FetchResult * W.

(** Running a guarded block: a throw of [p] runs the handler from the
    state [p] left. *)
Lemma exec_try_catch (A : Type) (p : Prog A) (h : Exn -> Prog A) (w : W) :
  exec transport (try_catch p h) w =
  match outcome (exec transport p w) with
  | Returned a =>
      {| outcome := Returned a;
         sent := sent (exec transport p w);
         world := world (exec transport p w) |}
  | Threw e =>
      {| outcome := outcome (exec transport (h e) (world (exec transport p w)));
         sent := sent (exec transport p w)
                   ++ sent (exec transport (h e) (world (exec transport p w)));
         world := world (exec transport (h e) (world (exec transport p w))) |}
  end.
Proof.
  revert w. induction p as [a | e | r k IH]; intros w; simpl.
  - reflexivity.
  - now destruct (exec transport (h e) w).
  - destruct (transport r w) as [answer w']. rewrite IH.
    now destruct (outcome (exec transport (k answer) w')).
Qed.
End Catching.

Section Connection.
Context {runtime : JsRuntime}.
Variable W : Type.
Variable transport : HttpRequest -> W -> FetchResult * W.

(** What [testConnection] makes of the outcome of its request. *)
Lemma exec_testConnection this w :
  exec transport (testConnection this) w =
  {| outcome :=
       match outcome (exec transport (get this "/api/2.0/preview/scim/v2/Me") w) with
       | Returned _ =>
           Returned (JObject [ ("connected", JBool true);
                               ("message",
                                JString "Successfully connected to Databricks workspace") ])
       | Threw e =>
           Returned (JObject [ ("connected", JBool false); ("message", error_message e) ])
       end;
     sent := sent (exec transport (get this "/api/2.0/preview/scim/v2/Me") w);
     world := world (exec transport (get this "/api/2.0/preview/scim/v2/Me") w) |}.
Proof.
  unfold testConnection. rewrite exec_try_catch, exec_bind.
  destruct (outcome (exec transport (get this "/api/2.0/preview/scim/v2/Me") w));
    simpl; now rewrite app_nil_r.
Qed.
End Connection.

(** The two facades given as bodies do what the facades of the pipeline
    do. *)
Lemma facade_bodies_agree :
  forall (runtime : JsRuntime) (W : Type)
         (transport : HttpRequest -> W -> FetchResult * W) this w,
    (Stateful.result (Stateful.run_method transport Stateful.listWarehouses this w)
     = outcome (exec transport (listWarehouses this) w)
     /\ Stateful.requests (Stateful.run_method transport Stateful.listWarehouses this w)
        = sent (exec transport (listWarehouses this) w))
    /\ (Stateful.result (Stateful.run_method transport Stateful.testConnection this w)
        = outcome (exec transport (testConnection this) w)
        /\ Stateful.requests (Stateful.run_method transport Stateful.testConnection this w)
           = sent (exec transport (testConnection this) w)).
Proof.
  intros runtime W transport this w. split.
  - unfold Stateful.run_method, Stateful.listWarehouses, listWarehouses, get, unwrap.
    cbn [Stateful.run_body].
    rewrite !exec_bind. rewrite perform_is_request, exec_stateful_request.
    cbn [outcome sent world fst snd Stateful.descriptor].
    destruct (outcome (exec transport
                         (request this "/api/2.0/sql/warehouses"
                            {| init_method := Some GET; init_body := None;
                               init_headers := None |}) w)) as [response | e].
    + rewrite exec_bind, exec_lift.
      destruct (prop response "warehouses"); cbn; split; reflexivity.
    + cbn. split; [reflexivity | apply app_nil_r].
  - unfold Stateful.run_method, Stateful.testConnection, testConnection, get.
    cbn [Stateful.run_body].
    rewrite exec_try_catch, !exec_bind. rewrite perform_is_request, exec_stateful_request.
    cbn [outcome sent world fst snd Stateful.descriptor].
    destruct (outcome (exec transport
                         (request this "/api/2.0/preview/scim/v2/Me"
                            {| init_method := Some GET; init_body := None;
                               init_headers := None |}) w)) as [response | e]; cbn;
      split; reflexivity.
Qed.


(** [testConnection] never throws.  Whatever the transport answers (an
    error status, a rejection, a body that is not JSON) it returns an
    object with [connected] and [message]: [connected] is [true] exactly
    when its request returned a value, and otherwise [message] is the
    message of the error.  It makes at most one request, and none with an
    empty token. *)
Theorem testConnection_never_throws :
  forall (runtime : JsRuntime) (W : Type)
         (transport : HttpRequest -> W -> FetchResult * W) this w,
  exists (connected : bool) (message : JsVal),
    outcome (exec transport (testConnection this) w)
    = Returned (JObject [ ("connected", JBool connected); ("message", message) ])
    /\ (connected = true <->
        exists v,
          outcome (exec transport (get this "/api/2.0/preview/scim/v2/Me") w) = Returned v)
    /\ (forall e,
          outcome (exec transport (get this "/api/2.0/preview/scim/v2/Me") w) = Threw e ->
          connected = false /\ message = error_message e)
    /\ (length (sent (exec transport (testConnection this) w)) <= 1)%nat
    /\ (token (credentials this) = EmptyString ->
        sent (exec transport (testConnection this) w) = []
        /\ connected = false
        /\ message = JString "No credentials provided. Include X-Databricks-Token header.").
Proof.
  intros runtime W transport this w.
  rewrite (exec_testConnection W transport this w). simpl.
  assert (length (sent (exec transport (get this "/api/2.0/preview/scim/v2/Me") w)) <= 1)%nat
    as Hlen.
  { unfold get. destruct (sent_request W transport this "/api/2.0/preview/scim/v2/Me"
                            {| init_method := Some GET; init_body := None;
                               init_headers := None |} w) as [E | E];
      rewrite E; simpl; lia. }
  assert (token (credentials this) = EmptyString ->
          exec transport (get this "/api/2.0/preview/scim/v2/Me") w
          = {| outcome := Threw (AuthenticationError no_credentials_message);
               sent := []; world := w |}) as Hempty.
  { intros H. unfold get. now apply exec_request_empty_token. }
  destruct (outcome (exec transport (get this "/api/2.0/preview/scim/v2/Me") w))
    as [v | e] eqn:Eo.
  - exists true. eexists. split; [reflexivity |].
    split; [| split; [| split]].
    + split; [intros _; now exists v | reflexivity].
    + intros e He. discriminate.
    + exact Hlen.
    + intros H. rewrite (Hempty H) in Eo. discriminate.
  - exists false, (error_message e). split; [reflexivity |].
    split; [| split; [| split]].
    + split; [discriminate | intros [v Hv]; discriminate].
    + intros e' He. injection He as <-. now split.
    + exact Hlen.
    + intros H. rewrite (Hempty H) in Eo |- *. simpl in *.
      injection Eo as <-. now repeat split.
Qed.

Example testConnection_on_a_malformed_success_body :
  outcome (exec (stub (inr (Sample.respond 200 "<html>")))
             (@testConnection Reference.runtime Sample.client) 0%nat)
  = Returned (JObject [ ("connected", JBool false);
                        ("message", JString Reference.syntax_error_message) ]).
Proof. vm_compute. reflexivity. Qed.

(** The tool [databricks_test_connection] never reports an error: because
    [testConnection] returns also for a failed connection, its [catch]
    branch is never taken, and the result is a text content without
    [isError]. *)
Theorem test_connection_tool_never_reports_an_error :
  forall (runtime : JsRuntime) (JSON_stringify_indented : JsVal -> option string)
         (W : Type) (transport : HttpRequest -> W -> FetchResult * W) client w,
  exists text_value fields,
    outcome (exec transport (test_connection_tool JSON_stringify_indented client) w)
    = Returned (JObject fields)
    /\ fields = [ ("content",
                   JArray [ JObject [ ("type", JString "text"); ("text", text_value) ] ]) ]
    /\ own fields "isError" = JUndefined
    /\ sent (exec transport (test_connection_tool JSON_stringify_indented client) w)
       = sent (exec transport (testConnection client) w).
Proof.
  intros runtime JSON_stringify_indented W transport client w.
  unfold test_connection_tool. rewrite exec_try_catch, exec_bind.
  rewrite (exec_testConnection W transport client w). simpl.
  destruct (outcome (exec transport (get client "/api/2.0/preview/scim/v2/Me") w));
    simpl; eexists; eexists; repeat split; now rewrite ?app_nil_r.
Qed.

(* ===================================================================== *)
(** ** Further properties: facades with defaults *)
(* ===================================================================== *)

Section FacadeRuns.
Context {runtime : JsRuntime}.
Variable W : Type.
Variable transport : HttpRequest -> W -> FetchResult * W.

(** A facade that goes on after its request: what it sends and how it
    ends, from what the request sent and how it ended. *)
Lemma exec_then (A : Type) this endpoint options (f : JsVal -> Prog A) w response :
  first_answer transport (bind (request this endpoint options) f) w = Some (inr response) ->
  exec transport (bind (request this endpoint options) f) w =
  match interpret response with
  | inl e =>
      {| outcome := Threw e;
         sent := [outbound this endpoint options];
         world := snd (transport (outbound this endpoint options) w) |}
  | inr v =>
      {| outcome :=
           outcome (exec transport (f v) (snd (transport (outbound this endpoint options) w)));
         sent := outbound this endpoint options
                   :: sent (exec transport (f v)
                              (snd (transport (outbound this endpoint options) w)));
         world :=
           world (exec transport (f v) (snd (transport (outbound this endpoint options) w))) |}
  end.
Proof.
  intros H.
  apply first_answer_bind_fetch in H; [| intros a; apply request_not_ret].
  rewrite exec_bind.
  apply exec_request_answered in H as [_ ->]. simpl.
  now destruct (interpret response).
Qed.

Lemma sent_then_silent (A : Type) this endpoint options (f : JsVal -> Prog A) w :
  token (credentials this) <> EmptyString ->
  (forall v w', sent (exec transport (f v) w') = []) ->
  sent (exec transport (bind (request this endpoint options) f) w)
  = [outbound this endpoint options].
Proof.
  intros Ht Hf. rewrite exec_bind.
  pose proof (exec_request_sends_one W transport this endpoint options w Ht) as Hs.
  destruct (outcome (exec transport (request this endpoint options) w)); simpl.
  - now rewrite Hs, Hf.
  - exact Hs.
Qed.
End FacadeRuns.


Lemma or_else_optional_string (x : option string) (d : string) :
  d <> EmptyString ->
  (forall t, x = Some t -> t <> EmptyString ->
             or_else (optional_string x) (JString d) = JString t)
  /\ (x = None \/ x = Some EmptyString ->
      or_else (optional_string x) (JString d) = JString d)
  /\ truthy (or_else (optional_string x) (JString d)) = true.
Proof.
  intros Hd. repeat split.
  - intros t -> Ht. unfold or_else. simpl.
    apply string_nonempty_true in Ht. now rewrite Ht.
  - now intros [-> | ->].
  - destruct x as [[| c s] |]; unfold or_else; simpl; try reflexivity;
      now apply string_nonempty_true.
Qed.

(** [executeStatement] always sends a body, and in it [wait_timeout],
    [disposition] and [format] are never empty or undefined: an option that
    is absent or the empty string is replaced by ["50s"], ["INLINE"] and
    ["JSON_ARRAY"], and an option that is not empty is passed as given. *)
Theorem executeStatement_fills_in_defaults :
  forall (runtime : JsRuntime) (W : Type)
         (transport : HttpRequest -> W -> FetchResult * W)
         this warehouseId statement options w,
    token (credentials this) <> EmptyString ->
    exists req fields,
      sent (exec transport (executeStatement this warehouseId statement options) w) = [req]
      /\ method req = Some POST
      /\ url req = baseUrl this ++ "/api/2.0/sql/statements"
      /\ body req = JSON_stringify (JObject fields)
      /\ own fields "warehouse_id" = JString warehouseId
      /\ own fields "statement" = JString statement
      /\ (forall key member default,
            In (key, member, default)
               [ ("wait_timeout", statement_waitTimeout, "50s");
                 ("disposition", statement_disposition, "INLINE");
                 ("format", statement_format, "JSON_ARRAY") ] ->
            (forall t, option_of options member = Some t -> t <> EmptyString ->
                       own fields key = JString t)
            /\ (option_of options member = None
                \/ option_of options member = Some EmptyString ->
                own fields key = JString default)
            /\ truthy (own fields key) = true).
Proof.
  intros runtime W transport this warehouseId statement options w Ht.
  eexists. eexists. split; [| split; [| split; [| split; [| split; [| split]]]]].
  - unfold executeStatement, post. now apply exec_request_sends_one.
  - reflexivity.
  - reflexivity.
  - reflexivity.
  - reflexivity.
  - reflexivity.
  - intros key member default Hin. simpl in Hin.
    destruct Hin as [[= <- <- <-] | [[= <- <- <-] | [[= <- <- <-] | []]]];
      apply or_else_optional_string; discriminate.
Qed.

Lemma executeStatement_fills_in_defaults_witness :
  exists req fields,
    sent (exec (stub (inr (Sample.respond 200 EmptyString)))
            (@executeStatement Reference.runtime Sample.client "wh-1" "SELECT 1"
               (Some {| statement_catalog := None;
                        statement_schema := None;
                        statement_waitTimeout := Some EmptyString;
                        statement_disposition := None;
                        statement_format := Some "CSV" |})) 0%nat) = [req]
    /\ method req = Some POST
    /\ url req = "https://example.com" ++ "/api/2.0/sql/statements"
    /\ body req = @JSON_stringify Reference.runtime (JObject fields)
    /\ own fields "wait_timeout" = JString "50s"
    /\ own fields "format" = JString "CSV".
Proof.
  destruct (executeStatement_fills_in_defaults Reference.runtime nat
              (stub (inr (Sample.respond 200 EmptyString)))
              Sample.client "wh-1" "SELECT 1"
              (Some {| statement_catalog := None;
                       statement_schema := None;
                       statement_waitTimeout := Some EmptyString;
                       statement_disposition := None;
                       statement_format := Some "CSV" |}) 0%nat
              ltac:(discriminate))
    as (req & fields & Hs & Hm & Hu & Hb & _ & _ & Hd).
  exists req, fields. repeat split; try assumption.
  - apply (Hd "wait_timeout" statement_waitTimeout "50s"); [left; reflexivity |].
    right. reflexivity.
  - apply (Hd "format" statement_format "JSON_ARRAY"); [do 2 right; left; reflexivity | |].
    + reflexivity.
    + discriminate.
Defined.

Example executeStatement_body :
  map body (sent (exec (stub (inr (Sample.respond 200 EmptyString)))
                    (@executeStatement Reference.runtime Sample.client "wh-1" "SELECT 1" None)
                    0%nat))
  = [ Some ("{" ++ Sample.q ++ "warehouse_id" ++ Sample.q ++ ":" ++ Sample.q ++ "wh-1" ++ Sample.q
            ++ "," ++ Sample.q ++ "statement" ++ Sample.q ++ ":" ++ Sample.q ++ "SELECT 1" ++ Sample.q
            ++ "," ++ Sample.q ++ "wait_timeout" ++ Sample.q ++ ":" ++ Sample.q ++ "50s" ++ Sample.q
            ++ "," ++ Sample.q ++ "disposition" ++ Sample.q ++ ":" ++ Sample.q ++ "INLINE" ++ Sample.q
            ++ "," ++ Sample.q ++ "format" ++ Sample.q ++ ":" ++ Sample.q ++ "JSON_ARRAY" ++ Sample.q
            ++ "}") ].
Proof. vm_compute. reflexivity. Qed.



Example listClusterEvents_limits :
  map body
    (sent (exec (stub (inr (Sample.respond 200 "{}")))
             (@listClusterEvents Reference.runtime Sample.client "c-1"
                (Some {| events_limit := Some NaN |})) 0%nat)
     ++ sent (exec (stub (inr (Sample.respond 200 "{}")))
                (@listClusterEvents Reference.runtime Sample.client "c-1"
                   (Some {| events_limit := Some (int 7) |})) 0%nat))
  = [ Some ("{" ++ Sample.q ++ "cluster_id" ++ Sample.q ++ ":" ++ Sample.q ++ "c-1" ++ Sample.q
            ++ "," ++ Sample.q ++ "limit" ++ Sample.q ++ ":50}");
      Some ("{" ++ Sample.q ++ "cluster_id" ++ Sample.q ++ ":" ++ Sample.q ++ "c-1" ++ Sample.q
            ++ "," ++ Sample.q ++ "limit" ++ Sample.q ++ ":7}") ].
Proof. vm_compute. reflexivity. Qed.

Example listClusterEvents_without_events :
  outcome (exec (stub (inr (Sample.respond 200 "{}")))
             (@listClusterEvents Reference.runtime Sample.client "c-1" None) 0%nat)
  = Returned (JObject [ ("events", JArray []); ("next_page", JUndefined) ]).
Proof. vm_compute. reflexivity. Qed.

(* --------------------------------------------------------------------- *)
(** *** Spread payloads *)

Lemma assoc_define_property_same (k : string) (v : JsVal) (o : list (string * JsVal)) :
  assoc k (Reference.define_property k v o) = Some v.
Proof.
  induction o as [| [k' v'] o IH]; simpl.
  - now rewrite String.eqb_refl.
  - destruct (String.eqb k k') eqn:E; simpl.
    + now rewrite String.eqb_refl.
    + destruct (match Reference.array_index k with
                | Some i => match Reference.array_index k' with
                            | Some j => (i <? j)%Z
                            | None => true
                            end
                | None => false
                end); simpl.
      * now rewrite String.eqb_refl.
      * now rewrite E.
Qed.

Lemma assoc_define_property_other (k k' : string) (v : JsVal) (o : list (string * JsVal)) :
  k' <> k -> assoc k' (Reference.define_property k v o) = assoc k' o.
Proof.
  intros Hne. apply String.eqb_neq in Hne.
  induction o as [| [k0 v0] o IH]; simpl.
  - now rewrite Hne.
  - destruct (String.eqb k k0) eqn:E; simpl.
    + apply String.eqb_eq in E. subst k0. now rewrite Hne.
    + destruct (match Reference.array_index k with
                | Some i => match Reference.array_index k0 with
                            | Some j => (i <? j)%Z
                            | None => true
                            end
                | None => false
                end); simpl.
      * now rewrite Hne.
      * now rewrite IH.
Qed.

(** A key that [source] does not have keeps the value of [target]. *)
Lemma own_object_spread_kept (k : string) (target source : list (string * JsVal)) :
  ~ In k (map fst source) ->
  own (object_spread target source) k = own target k.
Proof.
  unfold object_spread. revert target.
  induction source as [| [k0 v0] source IH]; intros target Hk; simpl in *.
  - reflexivity.
  - rewrite IH by tauto. unfold own.
    rewrite assoc_define_property_other; [reflexivity |]. intros ->. tauto.
Qed.

(** A member of [source] has its value in the spread object. *)
Lemma own_object_spread_taken (k : string) (v : JsVal) (target source : list (string * JsVal)) :
  NoDup (map fst source) ->
  In (k, v) source ->
  own (object_spread target source) k = v.
Proof.
  unfold object_spread. revert target.
  induction source as [| [k0 v0] source IH]; intros target Hnd Hin; simpl in *.
  - contradiction.
  - inversion Hnd as [| ? ? Hnot Hnd']; subst.
    destruct Hin as [[= -> ->] | Hin].
    + pose proof (own_object_spread_kept k (Reference.define_property k v target) source Hnot)
        as Hk.
      unfold object_spread in Hk. rewrite Hk. unfold own.
      now rewrite assoc_define_property_same.
    + now apply IH.
Qed.

(** [runJobNow] and [editCluster] spread the caller's object after their
    own member, so every member of that object is sent with its value, one
    named [job_id] or [cluster_id] included: the id given as argument is
    sent only when the object has no member of that name. *)
Theorem spread_payload_members_win :
  forall (runtime : JsRuntime) (W : Type)
         (transport : HttpRequest -> W -> FetchResult * W)
         this jobId clusterId params w,
    token (credentials this) <> EmptyString ->
    NoDup (map fst params) ->
    (exists req fields,
       sent (exec transport (runJobNow this jobId (Some params)) w) = [req]
       /\ url req = baseUrl this ++ "/api/2.1/jobs/run-now"
       /\ body req = JSON_stringify (JObject fields)
       /\ (forall k v, In (k, v) params -> own fields k = v)
       /\ (~ In "job_id" (map fst params) -> own fields "job_id" = JNumber jobId))
    /\ (exists req fields,
          sent (exec transport (editCluster this clusterId params) w) = [req]
          /\ url req = baseUrl this ++ "/api/2.0/clusters/edit"
          /\ body req = JSON_stringify (JObject fields)
          /\ (forall k v, In (k, v) params -> own fields k = v)
          /\ (~ In "cluster_id" (map fst params) ->
              own fields "cluster_id" = JString clusterId)).
Proof.
  intros runtime W transport this jobId clusterId params w Ht Hnd. split.
  - eexists. eexists. split; [| split; [| split; [| split]]].
    + unfold runJobNow, post. now apply exec_request_sends_one.
    + reflexivity.
    + reflexivity.
    + intros k v Hin. now apply own_object_spread_taken.
    + intros Hk. now rewrite own_object_spread_kept.
  - eexists. eexists. split; [| split; [| split; [| split]]].
    + unfold editCluster, post. apply sent_then_silent; [exact Ht | reflexivity].
    + reflexivity.
    + reflexivity.
    + intros k v Hin. now apply own_object_spread_taken.
    + intros Hk. now rewrite own_object_spread_kept.
Qed.

Lemma spread_payload_members_win_witness :
  exists req fields,
    sent (exec (stub (inr (Sample.respond 200 EmptyString)))
            (@runJobNow Reference.runtime Sample.client (int 7)
               (Some [ ("job_id", JNumber (int 999)); ("jar_params", JArray []) ]))
            0%nat) = [req]
    /\ body req = @JSON_stringify Reference.runtime (JObject fields)
    /\ own fields "job_id" = JNumber (int 999).
Proof.
  destruct (proj1 (spread_payload_members_win Reference.runtime nat
                     (stub (inr (Sample.respond 200 EmptyString)))
                     Sample.client (int 7) "c-1"
                     [ ("job_id", JNumber (int 999)); ("jar_params", JArray []) ] 0%nat
                     ltac:(discriminate)
                     ltac:(repeat constructor; simpl; intuition discriminate)))
    as (req & fields & Hs & _ & Hb & Hin & _).
  exists req, fields. repeat split; try assumption.
  apply Hin. left. reflexivity.
Defined.

Example runJobNow_body_with_its_own_job_id :
  map body (sent (exec (stub (inr (Sample.respond 200 EmptyString)))
                    (@runJobNow Reference.runtime Sample.client (int 7)
                       (Some [ ("job_id", JNumber (int 999)) ])) 0%nat))
  = [ Some ("{" ++ Sample.q ++ "job_id" ++ Sample.q ++ ":999}") ].
Proof. vm_compute. reflexivity. Qed.

(* --------------------------------------------------------------------- *)
(** *** Facades that return nothing *)

(** [cancelStatement] posts without a body and returns [undefined]
    whatever value the response decodes to; it fails as the request fails,
    and so also with the [SyntaxError] of a success body that is not
    JSON, although that body is not used. *)
Theorem cancelStatement_result :
  forall (runtime : JsRuntime) (W : Type)
         (transport : HttpRequest -> W -> FetchResult * W)
         this statementId w response,
    first_answer transport (cancelStatement this statementId) w = Some (inr response) ->
    sent (exec transport (cancelStatement this statementId) w)
    = [ {| url := baseUrl this ++ "/api/2.0/sql/statements/" ++ statementId ++ "/cancel";
           method := Some POST;
           headers := bearer_headers this;
           body := None |} ]
    /\ (forall v, interpret response = inr v ->
                  outcome (exec transport (cancelStatement this statementId) w)
                  = Returned JUndefined)
    /\ (forall e, interpret response = inl e ->
                  outcome (exec transport (cancelStatement this statementId) w) = Threw e)
    /\ (forall parse_error,
          ok response = true -> status response <> 204 ->
          text response <> EmptyString ->
          JSON_parse (text response) = inl parse_error ->
          outcome (exec transport (cancelStatement this statementId) w)
          = Threw (SyntaxError parse_error)).
Proof.
  intros runtime W transport this statementId w response Ha.
  unfold cancelStatement, post in *.
  rewrite (exec_then W transport _ _ _ _ _ w response Ha).
  split; [| split; [| split]].
  - now destruct (interpret response).
  - now intros v ->.
  - now intros e ->.
  - intros parse_error Hok H204 Ht Hp.
    rewrite (interpret_success response Hok H204), Hp.
    apply string_nonempty_true in Ht. now rewrite Ht.
Qed.

Lemma cancelStatement_result_witness :
  outcome (exec (stub (inr (Sample.respond 200 "<html>")))
             (@cancelStatement Reference.runtime Sample.client "st-1") 0%nat)
  = Threw (SyntaxError Reference.syntax_error_message).
Proof.
  apply (proj2 (proj2 (proj2
           (cancelStatement_result Reference.runtime nat
              (stub (inr (Sample.respond 200 "<html>")))
              Sample.client "st-1" 0%nat (Sample.respond 200 "<html>")
              ltac:(reflexivity))))).
  - reflexivity.
  - discriminate.
  - discriminate.
  - vm_compute. reflexivity.
Defined.

(* --------------------------------------------------------------------- *)
(** *** Query strings *)












Example listJobs_url :
  map url (sent (exec (stub (inr (Sample.respond 200 "{}")))
                   (@listJobs Reference.runtime Sample.client
                      (Some {| jobs_limit := Some (int 25);
                               jobs_offset := Some (int 0);
                               jobs_name := Some "a&b=c d" |})) 0%nat))
  = ["https://example.com/api/2.1/jobs/list?limit=25&name=a%26b%3Dc+d"].
Proof. vm_compute. reflexivity. Qed.

(** From a response that is an object [listJobs] returns both [jobs] and
    [has_more], neither ever missing: [jobs] is replaced by the empty
    sequence and [has_more] by [false] when the response lacks it.  A
    success response without a body (204 or empty) makes it throw a
    [TypeError], since the members are read from [undefined]. *)
Theorem listJobs_result :
  forall (runtime : JsRuntime) (W : Type)
         (transport : HttpRequest -> W -> FetchResult * W)
         this options w response,
    first_answer transport (listJobs this options) w = Some (inr response) ->
    (forall fields,
       interpret response = inr (JObject fields) ->
       exists jobs has_more,
         outcome (exec transport (listJobs this options) w)
         = Returned (JObject [ ("jobs", jobs); ("has_more", has_more) ])
         /\ truthy jobs = true
         /\ (truthy (own fields "jobs") = true -> jobs = own fields "jobs")
         /\ (own fields "jobs" = JUndefined -> jobs = JArray [])
         /\ (truthy (own fields "has_more") = true -> has_more = own fields "has_more")
         /\ (truthy (own fields "has_more") = false -> has_more = JBool false))
    /\ (status response = 204 \/ (ok response = true /\ text response = EmptyString) ->
        outcome (exec transport (listJobs this options) w)
        = Threw (TypeError "Cannot read properties of undefined (reading 'jobs')")).
Proof.
  intros runtime W transport this options w response Ha.
  unfold listJobs, get in *.
  rewrite (exec_then W transport _ _ _ _ _ w response Ha).
  split.
  - intros fields ->. simpl. eexists. eexists. split; [reflexivity |].
    unfold or_else. split; [| split; [| split; [| split]]].
    + now destruct (truthy (own fields "jobs")) eqn:E.
    + now intros ->.
    + now intros ->.
    + now intros ->.
    + now intros ->.
  - intros [H204 | [Hok Ht]].
    + now rewrite (interpret_no_content response H204).
    + now rewrite (interpret_empty_body response Hok Ht).
Qed.

Lemma listJobs_result_witness :
  outcome (exec (stub (inr (Sample.respond 204 EmptyString)))
             (@listJobs Reference.runtime Sample.client None) 0%nat)
  = Threw (TypeError "Cannot read properties of undefined (reading 'jobs')").
Proof.
  apply (proj2 (listJobs_result Reference.runtime nat
                  (stub (inr (Sample.respond 204 EmptyString)))
                  Sample.client None 0%nat (Sample.respond 204 EmptyString)
                  ltac:(reflexivity))).
  left. reflexivity.
Defined.

Example listJobs_defaults :
  outcome (exec (stub (inr (Sample.respond 200 "{}")))
             (@listJobs Reference.runtime Sample.client None) 0%nat)
  = Returned (JObject [ ("jobs", JArray []); ("has_more", JBool false) ]).
Proof. vm_compute. reflexivity. Qed.

(* ===================================================================== *)
(** ** Further properties: the worker *)
(* ===================================================================== *)

(** Every route other than [POST /mcp] is answered at once, without the
    dispatcher (the answer is the same for every dispatcher), without
    reading any credentials and without a request to the remote platform:
    [/health] with status 200 and the server name, [/sse] with status 501,
    and every other path, [/mcp] with another method included, with status
    200 and the catalog. *)
Theorem routes_other_than_post_mcp_are_static :
  forall (runtime : JsRuntime) (request : InboundRequest),
    inbound_pathname request <> "/mcp" \/ inbound_method request <> "POST" ->
    exists response,
      (forall handler, worker_fetch handler request = Ret response)
      /\ (inbound_pathname request = "/health" ->
          response = json_response 200
                       (JObject [ ("status", JString "ok");
                                  ("server", JString "primrose-mcp-databricks") ]))
      /\ (inbound_pathname request = "/sse" -> status response = 501)
      /\ (inbound_pathname request <> "/health" -> inbound_pathname request <> "/sse" ->
          response = json_response 200 catalog)
      /\ (forall handler (W : Type) (transport : HttpRequest -> W -> FetchResult * W) w,
            exec transport (worker_fetch handler request) w
            = {| outcome := Returned response; sent := []; world := w |}).
Proof.
  intros runtime request Hroute. unfold worker_fetch.
  destruct (String.eqb_spec (inbound_pathname request) "/health") as [Hh | Hh].
  - eexists. split; [reflexivity |]. repeat split; try reflexivity.
    + rewrite Hh. discriminate.
    + congruence.
  - destruct (String.eqb_spec (inbound_pathname request) "/mcp") as [Hm | Hm].
    + destruct (String.eqb_spec (inbound_method request) "POST") as [Hp | Hp];
        [destruct Hroute; congruence |].
      simpl. rewrite Hm. simpl.
      eexists. split; [reflexivity |]. repeat split; try reflexivity; congruence.
    + simpl. destruct (String.eqb_spec (inbound_pathname request) "/sse") as [Hs | Hs].
      * eexists. split; [reflexivity |]. repeat split; try reflexivity; congruence.
      * eexists. split; [reflexivity |]. repeat split; try reflexivity; congruence.
Qed.

Lemma routes_other_than_post_mcp_are_static_witness :
  exists response,
    (forall handler,
       @worker_fetch Reference.runtime handler
         {| inbound_pathname := "/mcp"; inbound_method := "GET"; inbound_headers := [] |}
       = Ret response)
    /\ response = @json_response Reference.runtime 200 catalog.
Proof.
  destruct (routes_other_than_post_mcp_are_static Reference.runtime
              {| inbound_pathname := "/mcp"; inbound_method := "GET"; inbound_headers := [] |}
              ltac:(right; discriminate))
    as (response & Hr & _ & _ & Hc & _).
  exists response. split; [exact Hr |].
  apply Hc; discriminate.
Defined.

(** The requests made for an inbound call carry that call's credentials
    and no others: on the client the [/mcp] handler creates from headers
    that pass the validation, every request of the wrappers goes to the
    value of the host header, less one trailing slash, followed by the
    path, with the value of the token header as bearer token. *)
Theorem requests_carry_the_credentials_of_their_call :
  forall (runtime : JsRuntime) (W : Type)
         (transport : HttpRequest -> W -> FetchResult * W)
         (h : Headers) endpoint payload call options w,
    validateCredentials (parseTenantCredentials h) = inr tt ->
    In (call, options)
       (wrapper_calls (createDatabricksClient (parseTenantCredentials h)) endpoint payload) ->
    exists host_value token_value req,
      Headers_get h "X-Databricks-Host" = Some host_value
      /\ Headers_get h "X-Databricks-Token" = Some token_value
      /\ sent (exec transport call w) = [req]
      /\ url req = replace_trailing_slash host_value ++ endpoint
      /\ headers req = [ ("Authorization", "Bearer " ++ token_value);
                         ("Content-Type", "application/json") ].
Proof.
  intros runtime W transport h endpoint payload call options w Hv Hin.
  apply wrapper_calls_are_requests in Hin as [-> Hh].
  pose proof Hv as Hv'. apply validateCredentials_returns in Hv' as [Hhost Htoken].
  unfold parseTenantCredentials in Hhost, Htoken. simpl in Hhost, Htoken.
  apply or_empty_nonempty in Hhost as (a & Ha & _).
  apply or_empty_nonempty in Htoken as (t & Ht & Hne).
  exists a, t, (outbound (createDatabricksClient (parseTenantCredentials h)) endpoint options).
  split; [exact Ha |]. split; [exact Ht |]. split; [| split].
  - apply exec_request_sends_one. unfold parseTenantCredentials. simpl. now rewrite Ht.
  - unfold parseTenantCredentials. simpl. now rewrite Ha.
  - unfold outbound, fetch_arguments, bearer_headers, parseTenantCredentials. simpl.
    now rewrite Hh, Ht.
Qed.

Lemma requests_carry_the_credentials_of_their_call_witness :
  exists host_value token_value req,
    Headers_get [ ("x-databricks-host", "https://example.com/");
                  ("x-databricks-token", "dapi-secret") ] "X-Databricks-Host"
    = Some host_value
    /\ Headers_get [ ("x-databricks-host", "https://example.com/");
                     ("x-databricks-token", "dapi-secret") ] "X-Databricks-Token"
       = Some token_value
    /\ sent (exec (stub (inr (Sample.respond 200 EmptyString)))
               (@get Reference.runtime
                  (createDatabricksClient
                     (parseTenantCredentials
                        [ ("x-databricks-host", "https://example.com/");
                          ("x-databricks-token", "dapi-secret") ]))
                  "/api/2.0/clusters/list") 0%nat) = [req]
    /\ url req = replace_trailing_slash host_value ++ "/api/2.0/clusters/list"
    /\ headers req = [ ("Authorization", "Bearer " ++ token_value);
                       ("Content-Type", "application/json") ].
Proof.
  apply (requests_carry_the_credentials_of_their_call Reference.runtime nat
           (stub (inr (Sample.respond 200 EmptyString)))
           [ ("x-databricks-host", "https://example.com/");
             ("x-databricks-token", "dapi-secret") ]
           "/api/2.0/clusters/list" JUndefined
           (@get Reference.runtime
              (createDatabricksClient
                 (parseTenantCredentials
                    [ ("x-databricks-host", "https://example.com/");
                      ("x-databricks-token", "dapi-secret") ]))
              "/api/2.0/clusters/list")
           {| init_method := Some GET; init_body := None; init_headers := None |} 0%nat).
  - reflexivity.
  - left. reflexivity.
Defined.
